(** * HS mapping tool: a shallow embedding of [app.py] and its properties

    The development follows the computational pieces of [app.py]:

    - [process_tree_data]: choice of the code column, cleaning of the raw
      codes, the length filter and the prefix;
    - [build_prefix_lookup]: the lookup from prefix to market to codes;
    - [analyze_pairs_cached]: the pairwise classifier and its statistics;
    - [get_strict_one_to_one_cached]: the strict alignment table;
    - [map_asins_fast]: the mapping of a product list;
    - [st.cache_data]: the memo under which [build_prefix_lookup],
      [analyze_pairs_cached] and [get_strict_one_to_one_cached] run;
    - the pages: the loaded trees, the packing of the prefix lookup done by
      the Analysis page before it calls the two cached functions, the
      selection and the filter of a pair report, the mapping page.

    Conventions.  A Python [str] is a [string] (characters are the code
    points below 256).  A Python [dict] is an insertion-ordered association
    list without repeated keys ([dict_set] overwrites in place, as Python
    does).  Python integers are [nat].  A float is a rational, and a float
    operation rounds its exact result with an operator [rnd], a parameter of
    the classifier.  An exception is a value [Raise e] of the type [result].
    A data frame of results is the list of its rows, each a dictionary from
    column name to value.

    A function decorated with [st.cache_data] takes the cache of its
    earlier calls and returns it with its result.  The key of a call is made
    of the arguments whose parameter name does not start with an underscore:
    for the three functions named above it is [markets] alone, and each of
    them comes as a body ([..._body]) and as the decorated function.  Every
    argument of [process_tree_data] is part of its key, so that a value of
    its cache is the value of its body on the same arguments; it is
    modelled by its body.

    The definitions come first, then the vocabulary in which the
    properties are stated, then the properties. *)

From Stdlib Require Import List String Ascii Arith Bool Lia QArith.
From Stdlib Require Import Numbers.DecimalString.
From Stdlib Require Import Sorted Permutation.
Import ListNotations.

Set Implicit Arguments.

Local Open Scope string_scope.
Local Open Scope list_scope.
Local Open Scope nat_scope.

(* ================================================================= *)
(** ** Exceptions *)

Inductive py_error : Type :=
| IndexError
| AttributeError
| KeyError.

Inductive result (A : Type) : Type :=
| Ok (a : A)
| Raise (e : py_error).

Arguments Ok {A} a.
Arguments Raise {A} e.

Definition bind {A B : Type} (m : result A) (k : A -> result B) : result B :=
  match m with
  | Ok a => k a
  | Raise e => Raise e
  end.

Notation "x <- m ;; k" := (bind m (fun x => k))
  (at level 61, m at next level, right associativity).
Notation "' p <- m ;; k" := (bind m (fun x => let 'p := x in k))
  (at level 61, p pattern, m at next level, right associativity).

(** A [for] loop whose body may raise: the state is threaded from left to
    right and the first exception stops the loop. *)
Fixpoint for_each {S X : Type} (body : S -> X -> result S) (xs : list X) (s : S)
  : result S :=
  match xs with
  | [] => Ok s
  | x :: rest => s' <- body s x ;; for_each body rest s'
  end.

(* ================================================================= *)
(** ** Python strings *)

Definition newline : ascii := ascii_of_nat 10.

(** [str.isspace] on the code points below 256. *)
Definition is_space (c : ascii) : bool :=
  let n := nat_of_ascii c in
  ((9 <=? n) && (n <=? 13)) || ((28 <=? n) && (n <=? 32))
  || (n =? 133) || (n =? 160).

(** The character class [[0-9]]. *)
Definition is_digit (c : ascii) : bool :=
  let n := nat_of_ascii c in (48 <=? n) && (n <=? 57).

(** [str.lower] on one character (code points below 256). *)
Definition lower_char (c : ascii) : ascii :=
  let n := nat_of_ascii c in
  if ((65 <=? n) && (n <=? 90))
     || ((192 <=? n) && (n <=? 222) && negb (n =? 215))
  then ascii_of_nat (n + 32) else c.

Fixpoint lower (s : string) : string :=
  match s with
  | EmptyString => EmptyString
  | String c r => String (lower_char c) (lower r)
  end.

(** [s.startswith(p)]. *)
Fixpoint startswith (p s : string) : bool :=
  match p, s with
  | EmptyString, _ => true
  | String _ _, EmptyString => false
  | String a p', String b s' => Ascii.eqb a b && startswith p' s'
  end.

(** [p in s]: [p] occurs in [s] as a substring. *)
Fixpoint contains (p s : string) : bool :=
  startswith p s
  || match s with
     | EmptyString => false
     | String _ r => contains p r
     end.

Fixpoint lstrip (s : string) : string :=
  match s with
  | EmptyString => EmptyString
  | String c r => if is_space c then lstrip r else s
  end.

Fixpoint rstrip (s : string) : string :=
  match s with
  | EmptyString => EmptyString
  | String c r =>
      match rstrip r with
      | EmptyString => if is_space c then EmptyString else String c EmptyString
      | r' => String c r'
      end
  end.

(** [s.strip()]. *)
Definition strip (s : string) : string := lstrip (rstrip s).

(** [re.sub(r'\.0$', '', s)].  The scan goes from left to right; the pattern
    matches at a position when the rest of the string is [".0"], or
    [".0"] followed by one final newline ([$] also holds just before a
    newline that ends the string).  The match is removed and nothing is
    left to match after it. *)
Fixpoint sub_dot0 (s : string) : string :=
  match s with
  | EmptyString => EmptyString
  | String c r =>
      if String.eqb s ".0" then EmptyString
      else if String.eqb s (".0" ++ String newline EmptyString)
           then String newline EmptyString
      else String c (sub_dot0 r)
  end.

(** [re.sub(r'[^0-9]', '', s)]: every character outside [[0-9]] is a match
    and is removed. *)
Fixpoint sub_nondigit (s : string) : string :=
  match s with
  | EmptyString => EmptyString
  | String c r => if is_digit c then String c (sub_nondigit r) else sub_nondigit r
  end.

(** [s[:n]]. *)
Definition slice_to (n : nat) (s : string) : string := substring 0 n s.

(** [str(i)] for a non-negative integer. *)
Definition str_of_nat (i : nat) : string :=
  NilEmpty.string_of_uint (Nat.to_uint i).

(** [sorted] on a list of strings (comparison by code point). *)
Fixpoint insert_sorted (x : string) (l : list string) : list string :=
  match l with
  | [] => [x]
  | y :: r => if String.leb x y then x :: l else y :: insert_sorted x r
  end.

Definition sorted (l : list string) : list string :=
  fold_right insert_sorted [] l.

(** [enumerate(l, start)]. *)
Fixpoint enumerate {X : Type} (start : nat) (l : list X) : list (nat * X) :=
  match l with
  | [] => []
  | x :: r => (start, x) :: enumerate (S start) r
  end.

(* ================================================================= *)
(** ** Python dictionaries *)

Class Hashable (K : Type) : Type := {
  key_eqb : K -> K -> bool;
  key_eqb_spec : forall x y : K, reflect (x = y) (key_eqb x y)
}.

#[export] Instance string_Hashable : Hashable string :=
  {| key_eqb := String.eqb; key_eqb_spec := String.eqb_spec |}.

Lemma pair_eqb_spec {A B : Type} `{Hashable A} `{Hashable B} (x y : A * B) :
  reflect (x = y) (key_eqb (fst x) (fst y) && key_eqb (snd x) (snd y)).
Proof.
  destruct x as [a b], y as [a' b']; simpl.
  destruct (key_eqb_spec a a'), (key_eqb_spec b b'); simpl;
    constructor; congruence.
Defined.

#[export] Instance pair_Hashable {A B : Type} `{Hashable A} `{Hashable B}
  : Hashable (A * B) :=
  {| key_eqb := fun x y => key_eqb (fst x) (fst y) && key_eqb (snd x) (snd y);
     key_eqb_spec := pair_eqb_spec |}.

Definition dict (K V : Type) : Type := list (K * V).

Section Dict.
Context {K V : Type} `{Hashable K}.

(** [d.get(k)], [None] when the key is absent. *)
Fixpoint dict_get (k : K) (d : dict K V) : option V :=
  match d with
  | [] => None
  | (k', v) :: r => if key_eqb k k' then Some v else dict_get k r
  end.

(** [d.get(k, dflt)]. *)
Definition dict_get_default (k : K) (dflt : V) (d : dict K V) : V :=
  match dict_get k d with
  | Some v => v
  | None => dflt
  end.

(** [d[k] = v]: an existing key keeps its place, a new one goes last. *)
Fixpoint dict_set (k : K) (v : V) (d : dict K V) : dict K V :=
  match d with
  | [] => [(k, v)]
  | (k', v') :: r =>
      if key_eqb k k' then (k, v) :: r else (k', v') :: dict_set k v r
  end.

(** [dict(pairs)] and dictionary displays [{k1: v1, ...}]. *)
Definition dict_of (pairs : list (K * V)) : dict K V :=
  fold_left (fun d kv => dict_set (fst kv) (snd kv) d) pairs [].

Definition dict_keys (d : dict K V) : list K := map fst d.

End Dict.

(** [dict(zip(keys, values))]. *)
Definition dict_zip {K V : Type} `{Hashable K} (keys : list K) (values : list V)
  : dict K V :=
  dict_of (combine keys values).

(** A tuple is hashed by its content. *)
Fixpoint list_eqb {A : Type} `{Hashable A} (l l' : list A) : bool :=
  match l, l' with
  | [], [] => true
  | x :: r, x' :: r' => key_eqb x x' && list_eqb r r'
  | _, _ => false
  end.

Lemma list_eqb_spec {A : Type} `{Hashable A} (l l' : list A) :
  reflect (l = l') (list_eqb l l').
Proof.
  revert l'. induction l as [|x r IH]; intros [|x' r']; simpl;
    try (constructor; congruence).
  destruct (key_eqb_spec x x'); simpl; [|constructor; congruence].
  destruct (IH r'); constructor; congruence.
Defined.

#[export] Instance list_Hashable {A : Type} `{Hashable A} : Hashable (list A) :=
  {| key_eqb := list_eqb; key_eqb_spec := list_eqb_spec |}.

(* ================================================================= *)
(** ** [st.cache_data] *)

(** The values kept for one decorated function, under the key of the call
    that computed them.  For the functions of [app.py] whose other
    parameters start with an underscore, the key is the tuple [markets]. *)
Definition cache (V : Type) : Type := dict (list string) V.

(** A call of a decorated function.  A value kept under the key of the call
    is returned and the body does not run.  Otherwise the body runs; the
    value it returns is kept under the key, and an exception it raises goes
    to the caller and leaves the cache as it was. *)
Definition cache_data {V : Type} (c : cache V) (key : list string)
  (body : result V) : result V * cache V :=
  match dict_get key c with
  | Some v => (Ok v, c)
  | None =>
      match body with
      | Ok v => (Ok v, dict_set key v c)
      | Raise e => (Raise e, c)
      end
  end.

(** A value stored in a row of a report. *)
Inductive value : Type :=
| VStr (s : string)
| VInt (n : nat).

Definition row : Type := dict string value.

(* ================================================================= *)
(** ** [process_tree_data]: the normalizer *)

(** A cell of a sheet read with [dtype=str]: a string, or NaN when the cell
    is empty. *)
Inductive cell : Type :=
| CStr (s : string)
| CNaN.

(** A data frame, as its columns in order, each with its name and cells. *)
Definition dataframe : Type := list (string * list cell).

(** [Series.astype(str)] on one cell. *)
Definition astype_str (c : cell) : string :=
  match c with
  | CStr s => s
  | CNaN => "nan"
  end.

(** The test of line 32 on one column name. *)
Definition is_code_name (col : string) : bool :=
  let col_lower := lower col in
  contains "hs" col_lower || contains "hts" col_lower
  || contains "code" col_lower.

(** The loop of lines 30-34: the first column that passes the test. *)
Fixpoint find_code_col (columns : list string) : option string :=
  match columns with
  | [] => None
  | col :: rest => if is_code_name col then Some col else find_code_col rest
  end.

(** Lines 29-36; [df.columns[0]] raises on a frame without columns. *)
Definition select_code_col (columns : list string) : result string :=
  match find_code_col columns with
  | Some code_col => Ok code_col
  | None =>
      match columns with
      | [] => Raise IndexError
      | first :: _ => Ok first
      end
  end.

(** [df[code_col]]; the names of the columns of a sheet are distinct. *)
Definition df_column (code_col : string) (df : dataframe) : result (list cell) :=
  match dict_get code_col df with
  | Some cells => Ok cells
  | None => Raise KeyError
  end.

Record code_record : Type := {
  market : string;
  hs_code : string;
  prefix : string
}.

(** Lines 40-42 on one cell. *)
Definition clean_code (raw : cell) : string :=
  let hs := strip (astype_str raw) in
  let hs := sub_dot0 hs in
  sub_nondigit hs.

Definition process_tree_data (df : dataframe) (market_name : string) (digits : nat)
  : result (list code_record * string * nat) :=
  code_col <- select_code_col (map fst df) ;;
  cells <- df_column code_col df ;;
  let codes := map clean_code cells in
  let codes := filter (fun c => 4 <=? String.length c) codes in
  let result :=
    map (fun c => {| market := market_name; hs_code := c;
                     prefix := slice_to digits c |}) codes in
  Ok (result, code_col, List.length result).

Definition DIGITS : nat := 6.

(* ================================================================= *)
(** ** The prefix lookup *)

(** The object stored under a prefix.  The functions below call [.get] on
    it, which a dictionary has and a tuple has not. *)
Inductive market_codes : Type :=
| MDict (d : dict string (list string))
| MTuple (items : list (string * list string)).

(** [market_codes.get(market, [])]. *)
Definition mc_get (mc : market_codes) (market : string) : result (list string) :=
  match mc with
  | MDict d => Ok (dict_get_default market [] d)
  | MTuple _ => Raise AttributeError
  end.

Definition lookup_t : Type := dict string market_codes.

(** The lookup built by [build_prefix_lookup]: a dictionary of
    dictionaries. *)
Definition built_lookup : Type := dict string (dict string (list string)).

(** [Series.unique()]: the distinct values in order of first appearance. *)
Definition unique (l : list string) : list string :=
  fold_left
    (fun seen x => if existsb (String.eqb x) seen then seen else seen ++ [x])
    l [].

(** Line 60: the distinct codes of one market in a group. *)
Definition group_codes (group : list code_record) (mkt : string) : list string :=
  unique (map hs_code (filter (fun r => String.eqb (market r) mkt) group)).

(** Lines 52-63, the body of [build_prefix_lookup].  [groupby] yields the
    groups in the sorted order of their keys. *)
Definition build_prefix_lookup_body (_df : list code_record) (markets : list string)
  : built_lookup :=
  fold_left
    (fun lookup pfx =>
       let group := filter (fun r => String.eqb (prefix r) pfx) _df in
       dict_set pfx
         (fold_left (fun inner mkt => dict_set mkt (group_codes group mkt) inner)
            markets [])
         lookup)
    (sorted (unique (map prefix _df))) [].

(** Lines 49-50: the decorated function.  [_df] is not part of the key. *)
Definition build_prefix_lookup (c : cache built_lookup) (_df : list code_record)
  (markets : list string) : result built_lookup * cache built_lookup :=
  cache_data c markets (Ok (build_prefix_lookup_body _df markets)).

(** [itertools.combinations(markets, 2)]. *)
Fixpoint combinations2 {X : Type} (l : list X) : list (X * X) :=
  match l with
  | [] => []
  | a :: rest => map (fun b => (a, b)) rest ++ combinations2 rest
  end.

(** The loops of lines 102-105 and 186-187: up to five sorted codes, under
    the keys [<market>_Code_1], [<market>_Code_2], ... *)
Definition add_codes (name : string) (codes : list string) (r : row) : row :=
  fold_left
    (fun r ic => dict_set (name ++ "_Code_" ++ str_of_nat (fst ic))%string
                          (VStr (snd ic)) r)
    (enumerate 1 (firstn 5 (sorted codes))) r.

(* ================================================================= *)
(** ** [analyze_pairs_cached]: the pairwise classifier *)

Record rel_counts : Type := {
  one_to_one : nat;
  one_to_many : nat;
  many_to_one : nat;
  many_to_many : nat;
  no_match : nat
}.

Record pair_stats : Type := {
  counts : rel_counts;
  total_shared : nat;
  percentage : Q
}.

Definition zero_counts : rel_counts :=
  {| one_to_one := 0; one_to_many := 0; many_to_one := 0;
     many_to_many := 0; no_match := 0 |}.

Definition incr_one_to_one (s : rel_counts) : rel_counts :=
  {| one_to_one := one_to_one s + 1; one_to_many := one_to_many s;
     many_to_one := many_to_one s; many_to_many := many_to_many s;
     no_match := no_match s |}.

Definition incr_one_to_many (s : rel_counts) : rel_counts :=
  {| one_to_one := one_to_one s; one_to_many := one_to_many s + 1;
     many_to_one := many_to_one s; many_to_many := many_to_many s;
     no_match := no_match s |}.

Definition incr_many_to_one (s : rel_counts) : rel_counts :=
  {| one_to_one := one_to_one s; one_to_many := one_to_many s;
     many_to_one := many_to_one s + 1; many_to_many := many_to_many s;
     no_match := no_match s |}.

Definition incr_many_to_many (s : rel_counts) : rel_counts :=
  {| one_to_one := one_to_one s; one_to_many := one_to_many s;
     many_to_one := many_to_one s; many_to_many := many_to_many s + 1;
     no_match := no_match s |}.

Definition incr_no_match (s : rel_counts) : rel_counts :=
  {| one_to_one := one_to_one s; one_to_many := one_to_many s;
     many_to_one := many_to_one s; many_to_many := many_to_many s;
     no_match := no_match s + 1 |}.

(** Lines 83-97: the relation label and the counter it increments. *)
Definition pair_relation (cA cB : nat) (s : rel_counts) : string * rel_counts :=
  if (cA =? 0) || (cB =? 0) then ("No Match", incr_no_match s)
  else if (cA =? 1) && (cB =? 1) then ("One-to-One", incr_one_to_one s)
  else if (cA =? 1) && (1 <? cB) then ("One-to-Many", incr_one_to_many s)
  else if (1 <? cA) && (cB =? 1) then ("Many-to-One", incr_many_to_one s)
  else ("Many-to-Many", incr_many_to_many s).

(** Lines 79-107: the body of the loop over the prefixes. *)
Definition pair_step (A B : string) (acc : list row * rel_counts)
  (item : string * market_codes) : result (list row * rel_counts) :=
  let '(rows, stats) := acc in
  let '(pfx, mc) := item in
  codes_A <- mc_get mc A ;;
  codes_B <- mc_get mc B ;;
  let cA := List.length codes_A in
  let cB := List.length codes_B in
  let '(relation, stats) := pair_relation cA cB stats in
  let r : row :=
    dict_of [("HS Prefix", VStr pfx); ("Relation", VStr relation);
             ((A ++ "_Count")%string, VInt cA);
             ((B ++ "_Count")%string, VInt cB)] in
  let r := add_codes A codes_A r in
  let r := add_codes B codes_B r in
  Ok (rows ++ [r], stats).

Section Classifier.

(** Rounding of a rational to the nearest float. *)
Variable rnd : Q -> Q.

(** Python's [a / b] on integers and [x * 100] on a float. *)
Definition py_truediv (a b : nat) : Q :=
  rnd (inject_Z (Z.of_nat a) / inject_Z (Z.of_nat b)).

Definition py_fmul (x y : Q) : Q := rnd (x * y).

(** Lines 111-113. *)
Definition finish_stats (s : rel_counts) : pair_stats :=
  let total := one_to_one s + one_to_many s + many_to_one s + many_to_many s in
  {| counts := s;
     total_shared := total;
     percentage := if 0 <? total
                   then py_fmul (py_truediv (one_to_one s) total) 100
                   else 0 |}.

(** Lines 75-114: one market pair. *)
Definition analyze_pair (lookup : lookup_t) (A B : string)
  : result (list row * pair_stats) :=
  '(rows, stats) <- for_each (pair_step A B) lookup ([], zero_counts) ;;
  Ok (rows, finish_stats stats).

Definition results_t : Type := dict (string * string) (list row).
Definition stats_t : Type := dict (string * string) pair_stats.

(** Lines 67-116, the body of [analyze_pairs_cached]. *)
Definition analyze_pairs_cached_body (_lookup_keys : list string)
  (_lookup_values : list market_codes) (markets : list string)
  : result (results_t * stats_t) :=
  let lookup := dict_zip _lookup_keys _lookup_values in
  for_each
    (fun (acc : results_t * stats_t) (AB : string * string) =>
       let '(results, stats) := acc in
       let '(A, B) := AB in
       '(rows, s) <- analyze_pair lookup A B ;;
       Ok (dict_set (A, B) rows results, dict_set (A, B) s stats))
    (combinations2 markets) ([], []).

(** Lines 65-66: the decorated function.  [_lookup_keys] and
    [_lookup_values] are not part of the key. *)
Definition analyze_pairs_cached (c : cache (results_t * stats_t))
  (_lookup_keys : list string) (_lookup_values : list market_codes)
  (markets : list string)
  : result (results_t * stats_t) * cache (results_t * stats_t) :=
  cache_data c markets
    (analyze_pairs_cached_body _lookup_keys _lookup_values markets).

End Classifier.

(* ================================================================= *)
(** ** [get_strict_one_to_one_cached]: the strict alignment table *)

(** The state of the loop over the markets: [is_strict], [codes_found] and
    [markets_with_codes]. *)
Record strict_state : Type := {
  is_strict : bool;
  codes_found : dict string string;
  markets_with_codes : nat
}.

Definition strict_init : strict_state :=
  {| is_strict := true; codes_found := []; markets_with_codes := 0 |}.

(** [codes[0]]. *)
Definition first_code (codes : list string) : result string :=
  match codes with
  | [] => Raise IndexError
  | c :: _ => Ok c
  end.

(** Lines 129-137: the loop over the markets, left by [break] at the first
    market with more than one code. *)
Fixpoint scan_markets (mc : market_codes) (markets : list string)
  (st : strict_state) : result strict_state :=
  match markets with
  | [] => Ok st
  | mkt :: rest =>
      codes <- mc_get mc mkt ;;
      if 0 <? List.length codes then
        let n := markets_with_codes st + 1 in
        if List.length codes =? 1 then
          c <- first_code codes ;;
          scan_markets mc rest
            {| is_strict := is_strict st;
               codes_found := dict_set mkt c (codes_found st);
               markets_with_codes := n |}
        else
          Ok {| is_strict := false;
                codes_found := codes_found st;
                markets_with_codes := n |}
      else scan_markets mc rest st
  end.

(** Lines 140-142: the row of a prefix that qualifies. *)
Definition strict_row (pfx : string) (markets : list string)
  (found : dict string string) : row :=
  fold_left
    (fun r mkt => dict_set ("Code_" ++ mkt)%string
                           (VStr (dict_get_default mkt "" found)) r)
    markets (dict_of [("HS Prefix", VStr pfx)]).

(** Lines 125-143: the body of the loop over the prefixes. *)
Definition strict_step (markets : list string) (rows : list row)
  (item : string * market_codes) : result (list row) :=
  let '(pfx, mc) := item in
  st <- scan_markets mc markets strict_init ;;
  if is_strict st && (2 <=? markets_with_codes st)
  then Ok (rows ++ [strict_row pfx markets (codes_found st)])
  else Ok rows.

(** Lines 120-145, the body of [get_strict_one_to_one_cached]. *)
Definition get_strict_one_to_one_cached_body (_lookup_keys : list string)
  (_lookup_values : list market_codes) (markets : list string)
  : result (list row) :=
  let lookup := dict_zip _lookup_keys _lookup_values in
  for_each (strict_step markets) lookup [].

(** Lines 118-119: the decorated function.  [_lookup_keys] and
    [_lookup_values] are not part of the key. *)
Definition get_strict_one_to_one_cached (c : cache (list row))
  (_lookup_keys : list string) (_lookup_values : list market_codes)
  (markets : list string) : result (list row) * cache (list row) :=
  cache_data c markets
    (get_strict_one_to_one_cached_body _lookup_keys _lookup_values markets).

(* ================================================================= *)
(** ** [map_asins_fast]: the entity mapper *)

(** A row of [asin_df]. *)
Record entity : Type := {
  ASIN : string;
  asin_hs_code : string;
  asin_prefix : string
}.

(** Lines 174-183: the relation label of one target. *)
Definition target_relation (sc tc : nat) : string :=
  if tc =? 0 then "No Match"
  else if (sc =? 1) && (tc =? 1) then "One-to-One"
  else if (sc =? 1) && (1 <? tc) then "One-to-Many"
  else if (1 <? sc) && (tc =? 1) then "Many-to-One"
  else "Many-to-Many".

(** Lines 171-187: the body of the loop over the targets. *)
Definition target_step (mc : market_codes) (sc : nat) (res : row)
  (target : string) : result row :=
  target_codes <- mc_get mc target ;;
  let tc := List.length target_codes in
  let relation := target_relation sc tc in
  let res := dict_set (target ++ "_Relation")%string (VStr relation) res in
  Ok (add_codes target target_codes res).

(** Lines 158-189: the body of the loop over the rows of [asin_df]. *)
Definition entity_step (mini_lookup : lookup_t) (source_market : string)
  (target_markets : list string) (results : list row) (e : entity)
  : result (list row) :=
  let pfx := asin_prefix e in
  let mc := dict_get_default pfx (MDict []) mini_lookup in
  let res : row :=
    dict_of [("ASIN", VStr (ASIN e)); ("Source_Code", VStr (asin_hs_code e));
             ("Prefix", VStr pfx)] in
  source_codes <- mc_get mc source_market ;;
  let sc := List.length source_codes in
  res <- for_each (target_step mc sc) target_markets res ;;
  Ok (results ++ [res]).

Definition map_asins_fast (asin_df : list entity) (lookup : lookup_t)
  (source_market : string) (target_markets : list string) : result (list row) :=
  let prefixes := unique (map asin_prefix asin_df) in
  let mini_lookup : lookup_t :=
    dict_of (map (fun p => (p, dict_get_default p (MDict []) lookup)) prefixes) in
  for_each (entity_step mini_lookup source_market target_markets) asin_df [].

(* ================================================================= *)
(** ** The Analysis page: how the lookup reaches the cached functions *)

(** Line 340. *)
Definition lookup_keys (lookup : built_lookup) : list string := dict_keys lookup.

(** Line 341: each inner dictionary becomes a tuple of its items. *)
Definition lookup_values (lookup : built_lookup) : list market_codes :=
  map (fun kv => MTuple (snd kv)) lookup.

(** Lines 344-346: each tuple of items is read back into a dictionary. *)
Definition rebuild_value (val : market_codes) : market_codes :=
  match val with
  | MTuple items => MDict (dict_of items)
  | MDict d => MDict d
  end.

Definition lookup_rebuilt (lookup : built_lookup) : lookup_t :=
  fold_left
    (fun acc kv => dict_set (fst kv) (rebuild_value (snd kv)) acc)
    (combine (lookup_keys lookup) (lookup_values lookup)) [].

(* ================================================================= *)
(** ** The pages: loaded trees, analysis, pair reports, mapping *)

(** [del d[k]]; the key must be there. *)
Fixpoint dict_del {K V : Type} `{Hashable K} (k : K) (d : dict K V)
  : result (dict K V) :=
  match d with
  | [] => Raise KeyError
  | (k', v) :: r =>
      if key_eqb k k' then Ok r
      else r' <- dict_del k r ;; Ok ((k', v) :: r')
  end.

(** An entry of [st.session_state.trees] (lines 290-294). *)
Record tree_entry : Type := {
  tree_df : list code_record;
  tree_count : nat;
  tree_column : string
}.

Definition trees_t : Type := dict string tree_entry.

(** Lines 287-294: a sheet is added under a market name (the page passes
    the name in upper case). *)
Definition add_tree (trees : trees_t) (df : dataframe) (market_name : string)
  : result trees_t :=
  '(processed_df, col_used, count) <- process_tree_data df market_name DIGITS ;;
  Ok (dict_set market_name
        {| tree_df := processed_df; tree_count := count; tree_column := col_used |}
        trees).

(** Line 315. *)
Definition remove_tree (trees : trees_t) (market_name : string) : result trees_t :=
  dict_del market_name trees.

(** Lines 332-333: [pd.concat] of the loaded tables, in the order of the
    dictionary. *)
Definition combined_df (trees : trees_t) : list code_record :=
  List.concat (map (fun kv => tree_df (snd kv)) trees).

(** The caches of the three decorated functions; they outlive the runs
    of the pages. *)
Record caches : Type := {
  lookup_cache : cache built_lookup;
  pairs_cache : cache (results_t * stats_t);
  strict_cache : cache (list row)
}.

Definition no_caches : caches :=
  {| lookup_cache := []; pairs_cache := []; strict_cache := [] |}.

(** Lines 332-337: the lookup of the loaded trees, as the decorated
    builder hands it back. *)
Definition session_lookup (cs : caches) (trees : trees_t)
  : result built_lookup * caches :=
  let '(lookup, c) :=
    build_prefix_lookup (lookup_cache cs) (combined_df trees) (dict_keys trees) in
  (lookup, {| lookup_cache := c; pairs_cache := pairs_cache cs;
              strict_cache := strict_cache cs |}).

(** Lines 349-350: the two calls of the page, the second one made when the
    first one has returned. *)
Definition run_analysis (rnd : Q -> Q) (cs : caches) (lookup : built_lookup)
  (markets : list string) : result (results_t * stats_t * list row) * caches :=
  let '(pairs, pc) :=
    analyze_pairs_cached rnd (pairs_cache cs) (lookup_keys lookup)
      (lookup_values lookup) markets in
  match pairs with
  | Raise e =>
      (Raise e, {| lookup_cache := lookup_cache cs; pairs_cache := pc;
                   strict_cache := strict_cache cs |})
  | Ok (results, stats) =>
      let '(strict, sc) :=
        get_strict_one_to_one_cached (strict_cache cs) (lookup_keys lookup)
          (lookup_values lookup) markets in
      (strict_df <- strict ;; Ok (results, stats, strict_df),
       {| lookup_cache := lookup_cache cs; pairs_cache := pc; strict_cache := sc |})
  end.

(** What the Analysis page stores in the session (lines 353-358). *)
Record analysis : Type := {
  st_combined_df : list code_record;
  st_lookup : lookup_t;
  st_results : results_t;
  st_stats : stats_t;
  st_strict_df : list row;
  st_markets : list string
}.

(** Lines 322-359: the computation of the Analysis page; [None] stands for
    the warning shown when fewer than two trees are loaded. *)
Definition analysis_page (rnd : Q -> Q) (cs : caches) (trees : trees_t)
  : option (result analysis) * caches :=
  if List.length trees <? 2 then (None, cs)
  else
    let markets := dict_keys trees in
    let '(built, cs) := session_lookup cs trees in
    match built with
    | Raise e => (Some (Raise e), cs)
    | Ok lookup =>
        let '(reports, cs) := run_analysis rnd cs lookup markets in
        (Some ('(results, stats, strict_df) <- reports ;;
               Ok {| st_combined_df := combined_df trees;
                     st_lookup := lookup_rebuilt lookup; st_results := results;
                     st_stats := stats; st_strict_df := strict_df;
                     st_markets := markets |}),
         cs)
    end.

(** The columns of [pd.DataFrame(rows)] are the keys of the rows: a frame
    made of no row has no column. *)
Definition has_column (name : string) (df : list row) : bool :=
  existsb (fun r => match dict_get name r with
                    | Some _ => true
                    | None => false
                    end) df.

(** Lines 421-425: the rows of a pair report shown under a filter;
    [pair_df["Relation"]] raises on a frame without this column. *)
Definition filter_rows (filter_relation : string) (pair_df : list row)
  : result (list row) :=
  if String.eqb filter_relation "All" then Ok pair_df
  else if has_column "Relation" pair_df then
    Ok (filter
          (fun r => match dict_get "Relation" r with
                    | Some (VStr s) => String.eqb s filter_relation
                    | _ => false
                    end)
          pair_df)
  else Raise KeyError.

(** [s.split(sep)] for a separator that is not empty: the occurrences of
    [sep] are found from left to right and do not overlap.  [skip] counts
    the characters of a separator still to pass, [cur] is the piece being
    read. *)
Fixpoint split_from (sep s : string) (skip : nat) (cur : string) : list string :=
  match s with
  | EmptyString => [cur]
  | String c r =>
      match skip with
      | S k => split_from sep r k cur
      | O =>
          if startswith sep s
          then cur :: split_from sep r (String.length sep - 1) EmptyString
          else split_from sep r 0 (cur ++ String c EmptyString)
      end
  end.

Definition str_split (sep s : string) : list string :=
  split_from sep s 0 EmptyString.

(** Line 413: the label of a pair in the selection box. *)
Definition pair_option (AB : string * string) : string :=
  (fst AB ++ " vs " ++ snd AB)%string.

(** Lines 417-418: the report of the selected label;
    [tuple(selected_pair.split(" vs "))] is a pair only when the split has
    two pieces, and the lookup raises on any other key. *)
Definition selected_report (results : results_t) (selected_pair : string)
  : result (list row) :=
  match str_split " vs " selected_pair with
  | [A; B] =>
      match dict_get (A, B) results with
      | Some pair_df => Ok pair_df
      | None => Raise KeyError
      end
  | _ => Raise KeyError
  end.

(** Lines 461-467: the two chosen columns of the product sheet, row by row
    (the columns of a sheet have the same length). *)
Definition prepare_asin_df (asin_cells hs_cells : list cell) : list entity :=
  let asin := map (fun c => strip (astype_str c)) asin_cells in
  let hs := map clean_code hs_cells in
  let rows :=
    map (fun ah => {| ASIN := fst ah; asin_hs_code := snd ah;
                      asin_prefix := slice_to DIGITS (snd ah) |})
        (combine asin hs) in
  filter (fun e => 4 <=? String.length (asin_hs_code e)) rows.

(** Line 469. *)
Definition target_markets_of (markets : list string) (source_market : string)
  : list string :=
  filter (fun m => negb (String.eqb m source_market)) markets.

(** Lines 461-472: the computation of the mapping page. *)
Definition asin_page (asin_raw : dataframe) (asin_col hs_col : string)
  (lookup : lookup_t) (markets : list string) (source_market : string)
  : result (list row) :=
  asin_cells <- df_column asin_col asin_raw ;;
  hs_cells <- df_column hs_col asin_raw ;;
  map_asins_fast (prepare_asin_df asin_cells hs_cells) lookup source_market
    (target_markets_of markets source_market).

(* ================================================================= *)
(** ** Vocabulary of the statements *)

(** *** Strings *)

(** The first and the last character of a string. *)
Definition first_char (s : string) : option ascii :=
  match s with
  | EmptyString => None
  | String c _ => Some c
  end.

Fixpoint last_char (s : string) : option ascii :=
  match s with
  | EmptyString => None
  | String c EmptyString => Some c
  | String _ r => last_char r
  end.

Definition ends_in_digit (key : string) : bool :=
  match last_char key with
  | Some c => is_digit c
  | None => false
  end.

Fixpoint all_space (s : string) : bool :=
  match s with
  | EmptyString => true
  | String c r => is_space c && all_space r
  end.

(** The character at an end of a string, if there is one, is no whitespace. *)
Definition no_space_at (end_char : option ascii) : Prop :=
  match end_char with
  | Some c => is_space c = false
  | None => True
  end.

(** *** Reports *)

(** The cell of a row as a string or as an integer, for reading reports. *)
Definition row_str (key : string) (r : row) : option string :=
  match dict_get key r with
  | Some (VStr s) => Some s
  | _ => None
  end.

Definition row_int (key : string) (r : row) : option nat :=
  match dict_get key r with
  | Some (VInt n) => Some n
  | _ => None
  end.

(** *** Lookups *)

(** A lookup of dictionaries seen as a lookup of objects. *)
Definition as_lookup (lookup : built_lookup) : lookup_t :=
  map (fun kv => (fst kv, MDict (snd kv))) lookup.

(** The number of codes a market has under a prefix of a lookup whose
    entries are dictionaries. *)
Definition code_count (d : dict string (list string)) (mkt : string) : nat :=
  List.length (dict_get_default mkt [] d).

Definition is_tuple (mc : market_codes) : Prop :=
  match mc with
  | MTuple _ => True
  | MDict _ => False
  end.

(** The dictionary that [build_prefix_lookup] stores under a prefix. *)
Definition inner_of (_df : list code_record) (markets : list string) (pfx : string)
  : dict string (list string) :=
  let group := filter (fun r => String.eqb (prefix r) pfx) _df in
  fold_left (fun inner mkt => dict_set mkt (group_codes group mkt) inner) markets [].

(** *** The classification rule *)

Inductive relation : Type :=
| NoMatch
| OneToOne
| OneToMany
| ManyToOne
| ManyToMany.

Definition label (r : relation) : string :=
  match r with
  | NoMatch => "No Match"
  | OneToOne => "One-to-One"
  | OneToMany => "One-to-Many"
  | ManyToOne => "Many-to-One"
  | ManyToMany => "Many-to-Many"
  end.

(** The rule as the specification words it. *)
Inductive relates : nat -> nat -> relation -> Prop :=
| relates_no_match cA cB : cA = 0 \/ cB = 0 -> relates cA cB NoMatch
| relates_one_to_one : relates 1 1 OneToOne
| relates_one_to_many cB : 1 < cB -> relates 1 cB OneToMany
| relates_many_to_one cA : 1 < cA -> relates cA 1 ManyToOne
| relates_many_to_many cA cB : 1 < cA -> 1 < cB -> relates cA cB ManyToMany.

(** The relation of lines 83-97 as a value, and the counter that goes with
    it. *)
Definition classify (cA cB : nat) : relation :=
  if (cA =? 0) || (cB =? 0) then NoMatch
  else if (cA =? 1) && (cB =? 1) then OneToOne
  else if (cA =? 1) && (1 <? cB) then OneToMany
  else if (1 <? cA) && (cB =? 1) then ManyToOne
  else ManyToMany.

Definition incr (r : relation) : rel_counts -> rel_counts :=
  match r with
  | NoMatch => incr_no_match
  | OneToOne => incr_one_to_one
  | OneToMany => incr_one_to_many
  | ManyToOne => incr_many_to_one
  | ManyToMany => incr_many_to_many
  end.

(** The relation of lines 174-183 as a value. *)
Definition mapper_classify (sc tc : nat) : relation :=
  if tc =? 0 then NoMatch
  else if (sc =? 1) && (tc =? 1) then OneToOne
  else if (sc =? 1) && (1 <? tc) then OneToMany
  else if (1 <? sc) && (tc =? 1) then ManyToOne
  else ManyToMany.

(** *** The pairwise classifier *)

(** The report row of a prefix for the pair [(A, B)]. *)
Definition pair_row (A B : string) (item : string * dict string (list string)) : row :=
  let codes_A := dict_get_default A [] (snd item) in
  let codes_B := dict_get_default B [] (snd item) in
  let r : row :=
    dict_of [("HS Prefix", VStr (fst item));
             ("Relation",
              VStr (label (classify (List.length codes_A) (List.length codes_B))));
             ((A ++ "_Count")%string, VInt (List.length codes_A));
             ((B ++ "_Count")%string, VInt (List.length codes_B))] in
  add_codes B codes_B (add_codes A codes_A r).

(** The counters after the prefixes of [items]. *)
Definition tally (A B : string) (items : built_lookup) (s : rel_counts) : rel_counts :=
  fold_left
    (fun s item => incr (classify (code_count (snd item) A) (code_count (snd item) B)) s)
    items s.

Definition counts_sum (s : rel_counts) : nat :=
  one_to_one s + one_to_many s + many_to_one s + many_to_many s + no_match s.

(** Exchanging the two sides of the counters. *)
Definition swap_counts (s : rel_counts) : rel_counts :=
  {| one_to_one := one_to_one s; one_to_many := many_to_one s;
     many_to_one := one_to_many s; many_to_many := many_to_many s;
     no_match := no_match s |}.

(** The rule of the specification on one row of a pair report. *)
Definition row_follows_rule (A B : string)
  (item : string * dict string (list string)) (r : row) : Prop :=
  let cA := code_count (snd item) A in
  let cB := code_count (snd item) B in
  exists rel,
    relates cA cB rel
    /\ (forall rel', relates cA cB rel' -> rel' = rel)
    /\ row_str "HS Prefix" r = Some (fst item)
    /\ row_str "Relation" r = Some (label rel)
    /\ row_int (A ++ "_Count") r = Some cA
    /\ row_int (B ++ "_Count") r = Some cB.

(** *** The strict alignment table *)

(** No market of [markets] has more than one code in [d]. *)
Definition at_most_one (d : dict string (list string)) (markets : list string) : bool :=
  forallb (fun m => code_count d m <=? 1) markets.

(** The markets of [markets] with exactly one code in [d]. *)
Definition with_one (d : dict string (list string)) (markets : list string)
  : list string :=
  filter (fun m => code_count d m =? 1) markets.

(** A prefix qualifies for the table. *)
Definition qualifies (markets : list string) (d : dict string (list string)) : bool :=
  at_most_one d markets && (2 <=? List.length (with_one d markets)).

(** The codes recorded for the markets by the scan of one prefix. *)
Definition scan_found (d : dict string (list string)) (markets : list string)
  : dict string string :=
  match scan_markets (MDict d) markets strict_init with
  | Ok st => codes_found st
  | Raise _ => []
  end.

(** *** The entity mapper *)

(** The codes of the markets at the prefix of an entity. *)
Definition entity_codes (items : built_lookup) (e : entity)
  : dict string (list string) :=
  dict_get_default (asin_prefix e) [] items.

(** What a row of the mapping report holds for its entity. *)
Definition entity_row_ok (items : built_lookup) (source_market : string)
  (target_markets : list string) (e : entity) (r : row) : Prop :=
  let d := entity_codes items e in
  row_str "ASIN" r = Some (ASIN e)
  /\ row_str "Source_Code" r = Some (asin_hs_code e)
  /\ row_str "Prefix" r = Some (asin_prefix e)
  /\ forall t, In t target_markets ->
       row_str (t ++ "_Relation") r
       = Some (target_relation (code_count d source_market) (code_count d t)).

(** *** The normalizer *)

(** The column name holds [word] as a substring, letter case apart. *)
Definition holds_word (word col : string) : Prop :=
  exists pre mid post, col = (pre ++ mid ++ post)%string /\ lower mid = word.

(** The column name looks like that of a code column. *)
Definition names_code (col : string) : Prop :=
  holds_word "hs" col \/ holds_word "hts" col \/ holds_word "code" col.

(** The column that the normalizer must pick among [columns]. *)
Definition chosen_column (columns : list string) (col : string) : Prop :=
  (exists before after,
     columns = before ++ col :: after
     /\ names_code col
     /\ Forall (fun c => ~ names_code c) before)
  \/ (Forall (fun c => ~ names_code c) columns
      /\ exists others, columns = col :: others).

(** [t] is [s] without its leading and trailing whitespace. *)
Definition trims (s t : string) : Prop :=
  exists l r,
    s = (l ++ t ++ r)%string
    /\ all_space l = true /\ all_space r = true
    /\ no_space_at (first_char t) /\ no_space_at (last_char t).

(** [u] is [t] without one trailing [".0"], or [t] itself when [t] does not
    end with [".0"]. *)
Definition strips_dot0 (t u : string) : Prop :=
  t = (u ++ ".0")%string \/ ((forall v, t <> (v ++ ".0")%string) /\ u = t).

(** The digits of a string, in order. *)
Definition digits_of (u : string) : string :=
  string_of_list_ascii (filter is_digit (list_ascii_of_string u)).

(** The cleaning of a raw code as the specification words it. *)
Definition normalizes (raw c : string) : Prop :=
  exists t u, trims raw t /\ strips_dot0 t u /\ c = digits_of u.

(** The codes kept from the cells of the code column. *)
Definition kept_codes (cells : list cell) : list string :=
  filter (fun c => 4 <=? String.length c) (map clean_code cells).

(** What a retained record holds. *)
Definition record_ok (market_name : string) (r : code_record) : Prop :=
  market r = market_name
  /\ 4 <= String.length (hs_code r)
  /\ (6 <= String.length (hs_code r) ->
      String.length (prefix r) = 6
      /\ exists rest, hs_code r = (prefix r ++ rest)%string)
  /\ (String.length (hs_code r) < 6 -> prefix r = hs_code r).

(** *** Sample data *)

(** Two markets and three prefixes: UAE has one code and KSA two at the
    first, UAE has none at the second, both have one at the third. *)
Definition example_lookup : built_lookup :=
  [("100001", [("UAE", ["10000110"]); ("KSA", ["10000110"; "10000120"])]);
   ("100002", [("UAE", []); ("KSA", ["10000210"])]);
   ("100003", [("UAE", ["10000310"]); ("KSA", ["10000399"])])].

(** Records of the two markets from which [build_prefix_lookup] builds
    [example_lookup]. *)
Definition example_records : list code_record :=
  [{| market := "UAE"; hs_code := "10000110"; prefix := "100001" |};
   {| market := "UAE"; hs_code := "10000310"; prefix := "100003" |};
   {| market := "KSA"; hs_code := "10000110"; prefix := "100001" |};
   {| market := "KSA"; hs_code := "10000120"; prefix := "100001" |};
   {| market := "KSA"; hs_code := "10000210"; prefix := "100002" |};
   {| market := "KSA"; hs_code := "10000399"; prefix := "100003" |}].

Definition example_markets : list string := ["UAE"; "KSA"; "EGY"].

Definition example_entities : list entity :=
  [{| ASIN := "B01"; asin_hs_code := "10000110"; asin_prefix := "100001" |};
   {| ASIN := "B02"; asin_hs_code := "99999999"; asin_prefix := "999999" |};
   {| ASIN := "B03"; asin_hs_code := "1000031"; asin_prefix := "100003" |}].

Definition entity_without_source_codes : entity :=
  {| ASIN := "B01"; asin_hs_code := "10000210"; asin_prefix := "100002" |}.

Definition example_df : dataframe :=
  [("Description", [CStr "Horses"; CStr "Wheat"; CNaN; CStr "Rice"; CStr "Tea"]);
   ("HTS Number", [CStr " 0101.21.00 "; CStr "1001.0"; CNaN; CStr "12.0";
                   CStr "090210"])].

(** *** Further vocabulary *)

Definition str_le (x y : string) : Prop := String.leb x y = true.

(** The key of the [i]-th sample code of a market. *)
Definition sample_key (name : string) (i : nat) : string :=
  (name ++ "_Code_" ++ str_of_nat i)%string.

(** The cells written by [add_codes], as pairs of key and value. *)
Definition code_cells (name : string) (codes : list string) : list (string * value) :=
  map (fun ic => (sample_key name (fst ic), VStr (snd ic)))
      (enumerate 1 (firstn 5 (sorted codes))).

(** What the sample cells of a market hold in a row. *)
Definition samples_ok (name : string) (codes : list string) (r : row) : Prop :=
  forall i c, i < 5 -> nth_error (sorted codes) i = Some c ->
    row_str (sample_key name (S i)) r = Some c.

(** The sample cells past the last code are not there. *)
Definition samples_end (name : string) (codes : list string) (r : row) : Prop :=
  forall i, List.length codes < i <= 5 -> dict_get (sample_key name i) r = None.

Definition relation_eqb (r r' : relation) : bool :=
  match r, r' with
  | NoMatch, NoMatch | OneToOne, OneToOne | OneToMany, OneToMany
  | ManyToOne, ManyToOne | ManyToMany, ManyToMany => true
  | _, _ => false
  end.

(** The counter of a relation. *)
Definition count_of (r : relation) (s : rel_counts) : nat :=
  match r with
  | NoMatch => no_match s
  | OneToOne => one_to_one s
  | OneToMany => one_to_many s
  | ManyToOne => many_to_one s
  | ManyToMany => many_to_many s
  end.

(** The prefixes at which the pair [(A, B)] has the relation [r]. *)
Definition prefixes_with (r : relation) (A B : string) (items : built_lookup)
  : built_lookup :=
  filter (fun item =>
            relation_eqb (classify (code_count (snd item) A) (code_count (snd item) B)) r)
         items.

(** What a row of the mapping report holds besides the cells of
    [entity_row_ok]: the sample codes of every target, and no relation for
    a market that is no target. *)
Definition entity_row_more (items : built_lookup) (target_markets : list string)
  (e : entity) (r : row) : Prop :=
  (forall t, In t target_markets ->
     samples_ok t (dict_get_default t [] (entity_codes items e)) r)
  /\ (forall m, ~ In m target_markets -> dict_get (m ++ "_Relation")%string r = None).

Fixpoint all_digits (s : string) : bool :=
  match s with
  | EmptyString => true
  | String c r => is_digit c && all_digits r
  end.

(** The table returned by the normalizer, as a data frame (line 47). *)
Definition records_frame (rows : list code_record) : dataframe :=
  [("market", map (fun r => CStr (market r)) rows);
   ("hs_code", map (fun r => CStr (hs_code r)) rows);
   ("prefix", map (fun r => CStr (prefix r)) rows)].

(** What holds of a record kept under a market. *)
Definition tree_record_ok (mkt : string) (r : code_record) : Prop :=
  market r = mkt
  /\ all_digits (hs_code r) = true
  /\ 4 <= String.length (hs_code r)
  /\ prefix r = slice_to DIGITS (hs_code r).

(** What holds of the loaded trees. *)
Definition trees_ok (trees : trees_t) : Prop :=
  NoDup (dict_keys trees)
  /\ Forall (fun kv =>
               tree_count (snd kv) = List.length (tree_df (snd kv))
               /\ Forall (tree_record_ok (fst kv)) (tree_df (snd kv)))
       trees.

(** The trees that the page can hold: none at the start, then any number
    of additions and removals. *)
Inductive reachable : trees_t -> Prop :=
| reach_start : reachable []
| reach_add trees df market_name trees' :
    reachable trees -> add_tree trees df market_name = Ok trees' ->
    reachable trees'
| reach_remove trees market_name trees' :
    reachable trees -> remove_tree trees market_name = Ok trees' ->
    reachable trees'.

Definition example_products : dataframe :=
  [("ASIN", [CStr " B01 "; CStr "B02"; CStr "B03"]);
   ("HS", [CStr "1000.01.10"; CStr "12"; CStr "100003.0"])].

Fixpoint no_char (x : ascii) (s : string) : bool :=
  match s with
  | EmptyString => true
  | String c r => negb (Ascii.eqb c x) && no_char x r
  end.

(** *** The caches *)

(** The cache of each decorated function after any number of calls. *)
Inductive lookup_cache_reachable : cache built_lookup -> Prop :=
| lookup_cache_start : lookup_cache_reachable []
| lookup_cache_call c _df markets :
    lookup_cache_reachable c ->
    lookup_cache_reachable (snd (build_prefix_lookup c _df markets)).

Inductive pairs_cache_reachable (rnd : Q -> Q)
  : cache (results_t * stats_t) -> Prop :=
| pairs_cache_start : pairs_cache_reachable rnd []
| pairs_cache_call c keys vals markets :
    pairs_cache_reachable rnd c ->
    pairs_cache_reachable rnd (snd (analyze_pairs_cached rnd c keys vals markets)).

Inductive strict_cache_reachable : cache (list row) -> Prop :=
| strict_cache_start : strict_cache_reachable []
| strict_cache_call c keys vals markets :
    strict_cache_reachable c ->
    strict_cache_reachable (snd (get_strict_one_to_one_cached c keys vals markets)).

(** The caches after any number of runs of the Analysis page, each on
    trees that the Load Trees page can hold. *)
Inductive caches_reachable (rnd : Q -> Q) : caches -> Prop :=
| caches_start : caches_reachable rnd no_caches
| caches_analysis cs trees :
    caches_reachable rnd cs -> reachable trees ->
    caches_reachable rnd (snd (analysis_page rnd cs trees)).

(** What holds of the caches that the Analysis page fills: the reports and
    the table kept for some markets are those of a lookup without prefixes,
    and this lookup is the one kept for the markets. *)
Definition caches_ok (rnd : Q -> Q) (cs : caches) : Prop :=
  lookup_cache_reachable (lookup_cache cs)
  /\ (forall markets v,
        dict_get markets (pairs_cache cs) = Some v ->
        analyze_pairs_cached_body rnd [] [] markets = Ok v
        /\ dict_get markets (lookup_cache cs) = Some [])
  /\ (forall markets rows,
        dict_get markets (strict_cache cs) = Some rows ->
        rows = [] /\ dict_get markets (lookup_cache cs) = Some []).

(** The statistics of a pair without any prefix. *)
Definition empty_stats : pair_stats :=
  {| counts := zero_counts; total_shared := 0; percentage := 0%Q |}.

(** The rows of a report that carry the relation [r]. *)
Definition rows_with (r : relation) (rows : list row) : list row :=
  filter (fun row => match row_str "Relation" row with
                     | Some s => String.eqb s (label r)
                     | None => false
                     end) rows.

(** The sheets of two markets, and the trees loaded from them: their
    records are [example_records]. *)
Definition uae_sheet : dataframe :=
  [("HS Code", [CStr "1000.01.10"; CStr "1000.03.10"])].

Definition ksa_sheet : dataframe :=
  [("HS Code", [CStr "1000.01.10"; CStr "1000.01.20"; CStr "1000.02.10";
                CStr "1000.03.99"])].

Definition example_trees : trees_t :=
  [("UAE",
    {| tree_df :=
         [{| market := "UAE"; hs_code := "10000110"; prefix := "100001" |};
          {| market := "UAE"; hs_code := "10000310"; prefix := "100003" |}];
       tree_count := 2; tree_column := "HS Code" |});
   ("KSA",
    {| tree_df :=
         [{| market := "KSA"; hs_code := "10000110"; prefix := "100001" |};
          {| market := "KSA"; hs_code := "10000120"; prefix := "100001" |};
          {| market := "KSA"; hs_code := "10000210"; prefix := "100002" |};
          {| market := "KSA"; hs_code := "10000399"; prefix := "100003" |}];
       tree_count := 4; tree_column := "HS Code" |})].

(** Two trees without any record, under the same names. *)
Definition empty_sheet : dataframe := [("HS Code", [])].

Definition empty_trees : trees_t :=
  [("UAE", {| tree_df := []; tree_count := 0; tree_column := "HS Code" |});
   ("KSA", {| tree_df := []; tree_count := 0; tree_column := "HS Code" |})].

(* ================================================================= *)
(** * Properties *)

(** ** Strings *)

Lemma append_assoc (a b c : string) :
  ((a ++ b) ++ c)%string = (a ++ (b ++ c))%string.
Proof. induction a as [|x a IH]; simpl; [reflexivity | now rewrite IH]. Qed.

Lemma length_append (a b : string) :
  String.length (a ++ b) = String.length a + String.length b.
Proof. induction a as [|x a IH]; simpl; [reflexivity | now rewrite IH]. Qed.

Lemma last_char_append (a b : string) :
  b <> EmptyString -> last_char (a ++ b) = last_char b.
Proof.
  intros Hb. induction a as [|x a IH]; simpl; [reflexivity|].
  rewrite IH. destruct (a ++ b)%string eqn:E; [|reflexivity].
  destruct a; simpl in E; [congruence | discriminate].
Qed.

Lemma last_char_neq (a b : string) : last_char a <> last_char b -> a <> b.
Proof. congruence. Qed.

Lemma append_inj_l (a b c : string) : (a ++ b)%string = (a ++ c)%string -> b = c.
Proof. induction a as [|x a IH]; simpl; intros E; [assumption|]. injection E. auto. Qed.

Lemma append_inj_r (a b c : string) : (a ++ c)%string = (b ++ c)%string -> a = b.
Proof.
  revert b. induction a as [|x a IH]; intros [|y b] E; simpl in *.
  - reflexivity.
  - apply (f_equal String.length) in E. simpl in E. rewrite length_append in E. lia.
  - apply (f_equal String.length) in E. simpl in E. rewrite length_append in E. lia.
  - injection E as -> E. f_equal. auto.
Qed.

(** ** Dictionaries *)

Section DictFacts.
Context {K V : Type} `{Hashable K}.

Lemma key_eqb_refl (k : K) : key_eqb k k = true.
Proof. destruct (key_eqb_spec k k); congruence. Qed.

Lemma key_eqb_neq (k k' : K) : k <> k' -> key_eqb k k' = false.
Proof. destruct (key_eqb_spec k k'); congruence. Qed.

Lemma dict_get_set_eq (k : K) (v : V) (d : dict K V) :
  dict_get k (dict_set k v d) = Some v.
Proof.
  induction d as [|[k' v'] d IH]; simpl.
  - now rewrite key_eqb_refl.
  - destruct (key_eqb_spec k k') as [->|Hne]; simpl.
    + now rewrite key_eqb_refl.
    + now rewrite (key_eqb_neq Hne).
Qed.

Lemma dict_get_set_neq (k k' : K) (v : V) (d : dict K V) :
  k <> k' -> dict_get k' (dict_set k v d) = dict_get k' d.
Proof.
  intros Hne. induction d as [|[k0 v0] d IH]; simpl.
  - rewrite key_eqb_neq; congruence.
  - destruct (key_eqb_spec k k0) as [->|Hk]; simpl.
    + rewrite !key_eqb_neq; congruence.
    + now rewrite IH.
Qed.

Lemma dict_keys_set (k : K) (v : V) (d : dict K V) :
  dict_keys (dict_set k v d)
  = if existsb (key_eqb k) (dict_keys d) then dict_keys d else dict_keys d ++ [k].
Proof.
  unfold dict_keys.
  induction d as [|[k' v'] d IH]; simpl; [reflexivity|].
  destruct (key_eqb_spec k k') as [->|Hk]; simpl; [reflexivity|].
  rewrite IH.
  now destruct (existsb (key_eqb k) (map fst d)).
Qed.

Lemma existsb_key_In (k : K) (l : list K) :
  existsb (key_eqb k) l = true <-> In k l.
Proof.
  rewrite existsb_exists. split.
  - intros (x & Hx & E). destruct (key_eqb_spec k x); congruence.
  - intros Hin. exists k. split; [assumption | apply key_eqb_refl].
Qed.

Lemma dict_set_NoDup (k : K) (v : V) (d : dict K V) :
  NoDup (dict_keys d) -> NoDup (dict_keys (dict_set k v d)).
Proof.
  intros Hd. rewrite dict_keys_set.
  destruct (existsb (key_eqb k) (dict_keys d)) eqn:E; [assumption|].
  apply NoDup_app; [assumption | repeat constructor; auto |].
  intros x Hx [<-|[]].
  apply existsb_key_In in Hx. congruence.
Qed.

Lemma dict_of_from_NoDup (pairs : list (K * V)) (d : dict K V) :
  NoDup (dict_keys d) ->
  NoDup (dict_keys (fold_left (fun d kv => dict_set (fst kv) (snd kv) d) pairs d)).
Proof.
  revert d. induction pairs as [|[k v] pairs IH]; simpl; intros d Hd; [assumption|].
  apply IH. now apply dict_set_NoDup.
Qed.

Lemma dict_of_NoDup (pairs : list (K * V)) : NoDup (dict_keys (dict_of pairs)).
Proof. apply dict_of_from_NoDup. constructor. Qed.

Lemma dict_In_get (k : K) (v : V) (d : dict K V) :
  NoDup (dict_keys d) -> In (k, v) d -> dict_get k d = Some v.
Proof.
  induction d as [|[k' v'] d IH]; simpl; [intros _ []|].
  intros Hnd [[= -> ->]|Hin].
  - now rewrite key_eqb_refl.
  - inversion Hnd as [|? ? Hnotin Hnd']; subst.
    destruct (key_eqb_spec k k') as [->|Hk].
    + exfalso. apply Hnotin. change k' with (fst (k', v)). now apply in_map.
    + auto.
Qed.

End DictFacts.

(** ** The memo *)

Section CacheFacts.
Context {V : Type}.

Lemma cache_data_hit (c : cache V) (key : list string) (body : result V) (v : V) :
  dict_get key c = Some v -> cache_data c key body = (Ok v, c).
Proof. unfold cache_data. now intros ->. Qed.

Lemma cache_data_miss (c : cache V) (key : list string) (body : result V) :
  dict_get key c = None ->
  cache_data c key body
  = (body, match body with
           | Ok v => dict_set key v c
           | Raise _ => c
           end).
Proof. unfold cache_data. intros ->. now destruct body. Qed.

(** A value that is kept stays, under its key. *)
Lemma cache_data_keeps (c : cache V) (key : list string) (body : result V)
  (k : list string) (v : V) :
  dict_get k c = Some v -> dict_get k (snd (cache_data c key body)) = Some v.
Proof.
  intros Hk. unfold cache_data.
  destruct (dict_get key c) as [w|] eqn:Hkey; [exact Hk|].
  destruct body as [w|e]; [|exact Hk]. cbn [snd].
  rewrite dict_get_set_neq; [exact Hk | congruence].
Qed.

(** A value found after a call was there before, or is the value that the
    body has just returned for the key of the call. *)
Lemma cache_data_kept (c : cache V) (key : list string) (body : result V)
  (k : list string) (v : V) :
  dict_get k (snd (cache_data c key body)) = Some v ->
  dict_get k c = Some v \/ (dict_get key c = None /\ k = key /\ body = Ok v).
Proof.
  unfold cache_data.
  destruct (dict_get key c) as [w|] eqn:Hkey; [now left|].
  destruct body as [w|e]; [|now left]. cbn [snd].
  destruct (list_eqb_spec k key) as [->|Hne].
  - rewrite dict_get_set_eq. intros [= ->]. right. auto.
  - rewrite dict_get_set_neq by congruence. now left.
Qed.

(** The value that a call returns was kept, or comes from the body; it is
    kept afterwards. *)
Lemma cache_data_returns (c : cache V) (key : list string) (body : result V)
  (v : V) :
  fst (cache_data c key body) = Ok v ->
  dict_get key (snd (cache_data c key body)) = Some v
  /\ (dict_get key c = Some v \/ (dict_get key c = None /\ body = Ok v)).
Proof.
  unfold cache_data.
  destruct (dict_get key c) as [w|] eqn:Hkey; cbn [fst snd].
  - intros [= ->]. auto.
  - destruct body as [w|e]; cbn [fst snd]; [|discriminate].
    intros [= ->]. rewrite dict_get_set_eq. auto.
Qed.

End CacheFacts.

(** ** Lookups whose entries are dictionaries *)

Lemma dict_set_as_lookup (k : string) (d : dict string (list string))
  (lookup : built_lookup) :
  dict_set k (MDict d) (as_lookup lookup) = as_lookup (dict_set k d lookup).
Proof.
  induction lookup as [|[k' d'] lookup IH]; simpl; [reflexivity|].
  destruct (String.eqb k k'); simpl; [reflexivity | now rewrite IH].
Qed.

Lemma dict_zip_MDict (keys : list string) (dvals : list (dict string (list string))) :
  dict_zip keys (map MDict dvals) = as_lookup (dict_zip keys dvals).
Proof.
  unfold dict_zip, dict_of.
  change (@nil (string * market_codes)) with (as_lookup []).
  generalize (@nil (string * dict string (list string))) as acc.
  revert dvals. induction keys as [|k keys IH]; intros [|d dvals] acc; simpl;
    try reflexivity.
  rewrite dict_set_as_lookup. apply IH.
Qed.

Lemma dict_get_as_lookup (k : string) (lookup : built_lookup) :
  dict_get k (as_lookup lookup) = option_map MDict (dict_get k lookup).
Proof.
  induction lookup as [|[k' d'] lookup IH]; simpl; [reflexivity|].
  now destruct (String.eqb k k').
Qed.

(** ** Keys of a report row *)

Lemma enumerate_bounds {X : Type} (l : list X) (start i : nat) (x : X) :
  In (i, x) (enumerate start l) -> start <= i < start + List.length l.
Proof.
  revert start. induction l as [|y l IH]; intros start; simpl; [intros []|].
  intros [[= <- <-]|Hin]; [lia|]. apply IH in Hin. lia.
Qed.

Lemma code_key_ends_in_digit (name : string) (i : nat) :
  1 <= i <= 5 ->
  ends_in_digit (name ++ "_Code_" ++ str_of_nat i) = true.
Proof.
  intros Hi. unfold ends_in_digit.
  rewrite last_char_append by (simpl; discriminate).
  destruct i as [|[|[|[|[|[|i]]]]]]; try lia; reflexivity.
Qed.

Lemma add_codes_other (name : string) (codes : list string) (r : row) (key : string) :
  ends_in_digit key = false ->
  dict_get key (add_codes name codes r) = dict_get key r.
Proof.
  intros Hkey. unfold add_codes.
  assert (Hb : forall i c, In (i, c) (enumerate 1 (firstn 5 (sorted codes))) ->
                           1 <= i <= 5).
  { intros i c Hin. apply enumerate_bounds in Hin.
    pose proof (firstn_le_length 5 (sorted codes)). lia. }
  revert r Hb. generalize (enumerate 1 (firstn 5 (sorted codes))) as l.
  induction l as [|[i c] l IH]; intros r Hb; cbn [fold_left fst snd];
    [reflexivity|].
  rewrite IH by (intros; eapply Hb; right; eassumption).
  apply dict_get_set_neq. intros E. subst key.
  rewrite code_key_ends_in_digit in Hkey; [discriminate|].
  eapply Hb. left. reflexivity.
Qed.

Ltac key_neq :=
  apply last_char_neq;
  rewrite ?last_char_append by (simpl; discriminate);
  simpl; discriminate.

Lemma count_key_no_digit (name : string) : ends_in_digit (name ++ "_Count") = false.
Proof. unfold ends_in_digit. now rewrite last_char_append by discriminate. Qed.

Lemma relation_key_no_digit (name : string) :
  ends_in_digit (name ++ "_Relation") = false.
Proof. unfold ends_in_digit. now rewrite last_char_append by discriminate. Qed.

(** ** The classification rule *)

Ltac count_cases cA cB :=
  destruct cA as [|[|cA]]; destruct cB as [|[|cB]].

Lemma pair_relation_classify (cA cB : nat) (s : rel_counts) :
  pair_relation cA cB s = (label (classify cA cB), incr (classify cA cB) s).
Proof. count_cases cA cB; reflexivity. Qed.

Lemma classify_relates (cA cB : nat) : relates cA cB (classify cA cB).
Proof.
  count_cases cA cB; cbn;
    try (apply relates_no_match; lia);
    try apply relates_one_to_one;
    try (apply relates_one_to_many; lia);
    try (apply relates_many_to_one; lia);
    try (apply relates_many_to_many; lia).
Qed.

Lemma relates_classify (cA cB : nat) (r : relation) :
  relates cA cB r -> r = classify cA cB.
Proof.
  intros Hr. destruct Hr as [cA cB [->| ->]| |cB H|cA H|cA cB HA HB].
  - reflexivity.
  - now destruct cA as [|[|cA]].
  - reflexivity.
  - now destruct cB as [|[|cB]]; try lia.
  - now destruct cA as [|[|cA]]; try lia.
  - now count_cases cA cB; try lia.
Qed.

(** ** One market pair *)

Lemma pair_step_dict (A B : string) (rows : list row) (s : rel_counts)
  (item : string * dict string (list string)) :
  pair_step A B (rows, s) (fst item, MDict (snd item))
  = Ok (rows ++ [pair_row A B item],
        incr (classify (code_count (snd item) A) (code_count (snd item) B)) s).
Proof.
  unfold pair_step, pair_row, code_count. cbn [mc_get bind].
  now rewrite pair_relation_classify.
Qed.

Lemma for_each_pair_step (A B : string) (items : built_lookup) (rows : list row)
  (s : rel_counts) :
  for_each (pair_step A B) (as_lookup items) (rows, s)
  = Ok (rows ++ map (pair_row A B) items, tally A B items s).
Proof.
  revert rows s. induction items as [|item items IH]; intros rows s.
  - simpl. now rewrite app_nil_r.
  - cbn [as_lookup map for_each]. rewrite pair_step_dict. cbn [bind].
    fold (as_lookup items). rewrite IH. cbn [tally fold_left].
    now rewrite <- app_assoc.
Qed.

Lemma analyze_pair_dicts (rnd : Q -> Q) (items : built_lookup) (A B : string) :
  analyze_pair rnd (as_lookup items) A B
  = Ok (map (pair_row A B) items, finish_stats rnd (tally A B items zero_counts)).
Proof. unfold analyze_pair. now rewrite for_each_pair_step. Qed.

Lemma pair_row_cells (A B : string) (item : string * dict string (list string)) :
  let cA := code_count (snd item) A in
  let cB := code_count (snd item) B in
  row_str "HS Prefix" (pair_row A B item) = Some (fst item)
  /\ row_str "Relation" (pair_row A B item) = Some (label (classify cA cB))
  /\ row_int (A ++ "_Count") (pair_row A B item) = Some cA
  /\ row_int (B ++ "_Count") (pair_row A B item) = Some cB.
Proof.
  intros cA cB. unfold row_str, row_int, pair_row.
  rewrite !add_codes_other
    by (try apply count_key_no_digit; reflexivity).
  unfold dict_of. cbn [fold_left fst snd].
  fold cA cB. change (List.length (dict_get_default A [] (snd item))) with cA.
  change (List.length (dict_get_default B [] (snd item))) with cB.
  repeat split.
  - rewrite !dict_get_set_neq by key_neq. reflexivity.
  - rewrite !dict_get_set_neq by key_neq. reflexivity.
  - destruct (string_dec A B) as [->|Hne].
    + now rewrite dict_get_set_eq.
    + rewrite dict_get_set_neq
        by (intros E; apply Hne; symmetry; eapply append_inj_r; exact E).
      now rewrite dict_get_set_eq.
  - now rewrite dict_get_set_eq.
Qed.

Lemma counts_sum_incr (r : relation) (s : rel_counts) :
  counts_sum (incr r s) = S (counts_sum s).
Proof. destruct r; unfold counts_sum; simpl; lia. Qed.

Lemma tally_cons (A B : string) (item : string * dict string (list string))
  (items : built_lookup) (s : rel_counts) :
  tally A B (item :: items) s
  = tally A B items
      (incr (classify (code_count (snd item) A) (code_count (snd item) B)) s).
Proof. reflexivity. Qed.

Lemma counts_sum_tally (A B : string) (items : built_lookup) (s : rel_counts) :
  counts_sum (tally A B items s) = counts_sum s + List.length items.
Proof.
  revert s. induction items as [|item items IH]; intros s.
  - simpl. lia.
  - rewrite tally_cons, IH, counts_sum_incr. simpl. lia.
Qed.

Lemma classify_swap (cA cB : nat) (s : rel_counts) :
  incr (classify cB cA) (swap_counts s) = swap_counts (incr (classify cA cB) s).
Proof. count_cases cA cB; reflexivity. Qed.

Lemma tally_swap (A B : string) (items : built_lookup) (s : rel_counts) :
  tally B A items (swap_counts s) = swap_counts (tally A B items s).
Proof.
  revert s. induction items as [|item items IH]; intros s; [reflexivity|].
  now rewrite !tally_cons, classify_swap, IH.
Qed.

(** ** All market pairs *)

Lemma pair_eq_dec (x y : string * string) : {x = y} + {x <> y}.
Proof. decide equality; apply string_dec. Defined.

Section AllPairs.
Variable rnd : Q -> Q.
Variable items : built_lookup.

Let body := fun (acc : results_t * stats_t) (AB : string * string) =>
  let '(results, stats) := acc in
  let '(A, B) := AB in
  '(rows, s) <- analyze_pair rnd (as_lookup items) A B ;;
  Ok (dict_set (A, B) rows results, dict_set (A, B) s stats).

Let rows_of (AB : string * string) : list row :=
  map (pair_row (fst AB) (snd AB)) items.

Let stats_of (AB : string * string) : pair_stats :=
  finish_stats rnd (tally (fst AB) (snd AB) items zero_counts).

Lemma pairs_loop (combos : list (string * string)) (results : results_t)
  (stats : stats_t) :
  exists results' stats',
    for_each body combos (results, stats) = Ok (results', stats')
    /\ (forall AB, In AB combos ->
          dict_get AB results' = Some (rows_of AB)
          /\ dict_get AB stats' = Some (stats_of AB))
    /\ (forall AB, ~ In AB combos ->
          dict_get AB results' = dict_get AB results
          /\ dict_get AB stats' = dict_get AB stats).
Proof.
  revert results stats.
  induction combos as [|[A B] combos IH]; intros results stats.
  - exists results, stats. simpl. repeat split; auto; contradiction.
  - cbn [for_each]. unfold body at 1. rewrite analyze_pair_dicts. cbn [bind].
    destruct (IH (dict_set (A, B) (rows_of (A, B)) results)
                 (dict_set (A, B) (stats_of (A, B)) stats))
      as (results' & stats' & Hrun & Hin & Hout).
    exists results', stats'. split; [exact Hrun|]. split.
    + intros AB [<-|HAB]; [|now apply Hin].
      destruct (in_dec pair_eq_dec (A, B) combos) as [Hyes|Hno];
        [now apply Hin|].
      destruct (Hout _ Hno) as [-> ->]. now rewrite !dict_get_set_eq.
    + intros AB Hnot. simpl in Hnot.
      destruct (Hout AB) as [-> ->]; [tauto|].
      rewrite !dict_get_set_neq by (intros E; apply Hnot; now left).
      split; reflexivity.
Qed.

Lemma analyze_pairs_body_items (keys : list string) (vals : list market_codes)
  (markets : list string) :
  dict_zip keys vals = as_lookup items ->
  exists results stats,
    analyze_pairs_cached_body rnd keys vals markets = Ok (results, stats)
    /\ forall A B, In (A, B) (combinations2 markets) ->
         dict_get (A, B) results = Some (map (pair_row A B) items)
         /\ dict_get (A, B) stats
            = Some (finish_stats rnd (tally A B items zero_counts)).
Proof.
  intros Hitems. unfold analyze_pairs_cached_body. rewrite Hitems.
  destruct (pairs_loop (combinations2 markets) [] [])
    as (results & stats & Hrun & Hin & _).
  exists results, stats. split; [exact Hrun|].
  intros A B HAB. exact (Hin (A, B) HAB).
Qed.

Lemma analyze_pairs_cached_dicts (keys : list string)
  (dvals : list (dict string (list string))) (markets : list string) :
  items = dict_zip keys dvals ->
  exists results stats,
    analyze_pairs_cached_body rnd keys (map MDict dvals) markets = Ok (results, stats)
    /\ forall A B, In (A, B) (combinations2 markets) ->
         dict_get (A, B) results = Some (map (pair_row A B) items)
         /\ dict_get (A, B) stats
            = Some (finish_stats rnd (tally A B items zero_counts)).
Proof.
  intros Hitems. apply analyze_pairs_body_items. rewrite Hitems.
  apply dict_zip_MDict.
Qed.

End AllPairs.

Lemma combinations2_complete {X : Type} (l : list X) (a b : X) :
  In a l -> In b l -> a <> b ->
  In (a, b) (combinations2 l) \/ In (b, a) (combinations2 l).
Proof.
  induction l as [|x l IH]; simpl; [intros []|].
  intros [->|Ha] [->|Hb] Hne.
  - congruence.
  - left. apply in_or_app. left. now apply in_map.
  - right. apply in_or_app. left. now apply in_map.
  - destruct (IH Ha Hb Hne); [left | right]; apply in_or_app; now right.
Qed.

Lemma dict_zip_NoDup {V : Type} (keys : list string) (vals : list V) :
  NoDup (dict_keys (dict_zip keys vals)).
Proof. apply dict_of_NoDup. Qed.

(** ** The pairwise classifier on a lookup of dictionaries *)

Lemma pair_rows_follow_rule (A B : string) (items : built_lookup) :
  Forall2 (row_follows_rule A B) items (map (pair_row A B) items).
Proof.
  induction items as [|item items IH]; simpl; constructor; [|exact IH].
  destruct (pair_row_cells A B item) as (Hp & Hr & HcA & HcB).
  exists (classify (code_count (snd item) A) (code_count (snd item) B)).
  split; [apply classify_relates|].
  split; [apply relates_classify|].
  auto.
Qed.

(** A quotient of two counts [a <= b], [0 < b], lies between 0 and 1. *)
Lemma ratio_bounds (a b : nat) :
  a <= b -> 0 < b ->
  (0 <= inject_Z (Z.of_nat a) / inject_Z (Z.of_nat b) <= 1)%Q.
Proof.
  intros Hab Hb.
  assert (Hpos : (0 < inject_Z (Z.of_nat b))%Q).
  { change 0%Q with (inject_Z 0). rewrite <- Zlt_Qlt. lia. }
  split.
  - apply Qle_shift_div_l; [exact Hpos|].
    rewrite Qmult_0_l. change 0%Q with (inject_Z 0). rewrite <- Zle_Qle. lia.
  - apply Qle_shift_div_r; [exact Hpos|].
    rewrite Qmult_1_l. rewrite <- Zle_Qle. lia.
Qed.

Section Percentage.
Variable rnd : Q -> Q.
Hypothesis rnd_monotone : forall x y : Q, (x <= y)%Q -> (rnd x <= rnd y)%Q.
Hypothesis rnd_0 : (rnd 0 == 0)%Q.
Hypothesis rnd_1 : (rnd 1 == 1)%Q.
Hypothesis rnd_100 : (rnd 100 == 100)%Q.

Lemma finish_stats_bounds (s : rel_counts) :
  (0 <= percentage (finish_stats rnd s) <= 100)%Q.
Proof.
  unfold finish_stats. cbn [percentage].
  set (total := one_to_one s + one_to_many s + many_to_one s + many_to_many s).
  destruct (0 <? total) eqn:Hpos.
  - apply Nat.ltb_lt in Hpos.
    destruct (@ratio_bounds (one_to_one s) total) as [Hlo Hhi];
      [unfold total; lia | exact Hpos |].
    unfold py_fmul, py_truediv.
    set (q := (inject_Z (Z.of_nat (one_to_one s)) / inject_Z (Z.of_nat total))%Q)
      in *.
    assert (Hq0 : (0 <= rnd q)%Q).
    { apply Qle_trans with (rnd 0); [now rewrite rnd_0; apply Qle_refl|].
      now apply rnd_monotone. }
    assert (Hq1 : (rnd q <= 1)%Q).
    { apply Qle_trans with (rnd 1); [now apply rnd_monotone|].
      rewrite rnd_1. apply Qle_refl. }
    split.
    + apply Qle_trans with (rnd 0); [now rewrite rnd_0; apply Qle_refl|].
      apply rnd_monotone.
      apply Qmult_le_0_compat; [exact Hq0 | discriminate].
    + apply Qle_trans with (rnd 100); [|rewrite rnd_100; apply Qle_refl].
      apply rnd_monotone.
      apply Qle_trans with (1 * 100)%Q; [|apply Qle_refl].
      apply Qmult_le_compat_r; [exact Hq1 | discriminate].
  - split; discriminate.
Qed.

End Percentage.

(** ** The strict alignment table on a lookup of dictionaries *)

Lemma scan_markets_dict (d : dict string (list string)) (markets : list string)
  (st : strict_state) :
  exists st',
    scan_markets (MDict d) markets st = Ok st'
    /\ is_strict st' = is_strict st && at_most_one d markets
    /\ (at_most_one d markets = true ->
        markets_with_codes st'
        = markets_with_codes st + List.length (with_one d markets))
    /\ (forall m c, In m markets -> at_most_one d markets = true ->
          dict_get_default m [] d = [c] ->
          dict_get m (codes_found st') = Some c)
    /\ (forall m, code_count d m = 0 ->
          dict_get m (codes_found st') = dict_get m (codes_found st))
    /\ (forall m, ~ In m markets ->
          dict_get m (codes_found st') = dict_get m (codes_found st)).
Proof.
  revert st. induction markets as [|m0 rest IH]; intros st.
  - exists st. simpl. rewrite andb_true_r.
    split; [reflexivity|]. split; [reflexivity|]. split; [intros _; lia|].
    split; [intros m c []|]. split; reflexivity.
  - cbn [scan_markets mc_get bind]. unfold at_most_one, with_one, code_count in *.
    cbn [forallb filter].
    destruct (dict_get_default m0 [] d) as [|c0 [|c1 l]] eqn:E0; cbn.
    + destruct (IH st) as (st' & Hrun & Hs & Hn & Hone & Hzero & Hout).
      exists st'. split; [exact Hrun|]. split; [exact Hs|]. split; [exact Hn|].
      split; [|split; [exact Hzero|]].
      * intros m c [<-|Hin] Hall Hm; [congruence | eauto].
      * intros m Hm. apply Hout. tauto.
    + destruct (IH {| is_strict := is_strict st;
                      codes_found := dict_set m0 c0 (codes_found st);
                      markets_with_codes := markets_with_codes st + 1 |})
        as (st' & Hrun & Hs & Hn & Hone & Hzero & Hout).
      exists st'. split; [exact Hrun|]. split; [exact Hs|]. cbn in *.
      split; [intros Hall; rewrite (Hn Hall); lia|].
      split; [|split].
      * intros m c [<-|Hin] Hall Hm; [|eauto].
        destruct (in_dec string_dec m0 rest) as [Hyes|Hno]; [eauto|].
        rewrite (Hout m0 Hno). assert (c = c0) by congruence. subst c.
        apply dict_get_set_eq.
      * intros m Hm. rewrite (Hzero m Hm).
        apply dict_get_set_neq. intros ->. rewrite E0 in Hm. discriminate.
      * intros m Hm. rewrite Hout by tauto.
        apply dict_get_set_neq. intros ->. tauto.
    + eexists. split; [reflexivity|]. cbn. rewrite andb_false_r.
      split; [reflexivity|]. split; [discriminate|].
      split; [discriminate|]. split; reflexivity.
Qed.

Lemma code_key_inj (m m' : string) :
  ("Code_" ++ m)%string = ("Code_" ++ m')%string -> m = m'.
Proof. apply append_inj_l. Qed.

Lemma strict_row_fold (f : string -> string) (markets : list string) (r : row) :
  let r' :=
    fold_left (fun r mkt => dict_set ("Code_" ++ mkt)%string (VStr (f mkt)) r)
      markets r in
  (forall m, In m markets -> dict_get ("Code_" ++ m)%string r' = Some (VStr (f m)))
  /\ (forall key, (forall m, In m markets -> key <> ("Code_" ++ m)%string) ->
        dict_get key r' = dict_get key r).
Proof.
  revert r. induction markets as [|m0 rest IH]; intros r; cbn [fold_left].
  - split; [intros m []|reflexivity].
  - destruct (IH (dict_set ("Code_" ++ m0)%string (VStr (f m0)) r)) as [Hin Hout].
    split.
    + intros m [<-|Hm]; [|now apply Hin].
      destruct (in_dec string_dec m0 rest) as [Hyes|Hno]; [now apply Hin|].
      rewrite Hout; [apply dict_get_set_eq|].
      intros m Hm E. apply code_key_inj in E. congruence.
    + intros key Hkey. rewrite Hout by (intros m Hm; apply Hkey; now right).
      apply dict_get_set_neq. intros E. apply (Hkey m0); [now left | now symmetry].
Qed.

Lemma strict_row_cells (pfx : string) (markets : list string)
  (found : dict string string) :
  row_str "HS Prefix" (strict_row pfx markets found) = Some pfx
  /\ forall m, In m markets ->
       row_str ("Code_" ++ m) (strict_row pfx markets found)
       = Some (dict_get_default m "" found).
Proof.
  unfold strict_row, row_str.
  destruct (strict_row_fold (fun m => dict_get_default m "" found) markets
              (dict_of [("HS Prefix", VStr pfx)])) as [Hin Hout].
  split.
  - rewrite Hout; [reflexivity|]. intros m _. discriminate.
  - intros m Hm. now rewrite (Hin m Hm).
Qed.

Lemma strict_step_dict (markets : list string) (rows : list row)
  (item : string * dict string (list string)) :
  strict_step markets rows (fst item, MDict (snd item))
  = Ok (if qualifies markets (snd item)
        then rows ++ [strict_row (fst item) markets (scan_found (snd item) markets)]
        else rows).
Proof.
  unfold strict_step, scan_found, qualifies.
  destruct (scan_markets_dict (snd item) markets strict_init)
    as (st & -> & Hs & Hn & _). cbn [bind].
  rewrite Hs. cbn [is_strict strict_init andb].
  destruct (at_most_one (snd item) markets) eqn:Hall; cbn [andb]; [|reflexivity].
  rewrite (Hn eq_refl). cbn [markets_with_codes strict_init Nat.add].
  now destruct (2 <=? List.length (with_one (snd item) markets)).
Qed.

Lemma for_each_strict_step (markets : list string) (items : built_lookup)
  (rows : list row) :
  for_each (strict_step markets) (as_lookup items) rows
  = Ok (rows ++ map (fun item => strict_row (fst item) markets
                                   (scan_found (snd item) markets))
                  (filter (fun item => qualifies markets (snd item)) items)).
Proof.
  revert rows. induction items as [|item items IH]; intros rows.
  - simpl. now rewrite app_nil_r.
  - cbn [as_lookup map for_each]. rewrite strict_step_dict. cbn [bind filter].
    fold (as_lookup items). rewrite IH.
    destruct (qualifies markets (snd item)); cbn [map]; [|reflexivity].
    now rewrite <- app_assoc.
Qed.

Lemma scan_found_cells (d : dict string (list string)) (markets : list string)
  (m : string) :
  at_most_one d markets = true -> In m markets ->
  (code_count d m = 0 -> dict_get_default m "" (scan_found d markets) = "")
  /\ (forall c, dict_get_default m [] d = [c] ->
        dict_get_default m "" (scan_found d markets) = c).
Proof.
  intros Hall Hm. unfold scan_found.
  destruct (scan_markets_dict d markets strict_init)
    as (st & -> & _ & _ & Hone & Hzero & _).
  unfold dict_get_default at 1 3. split.
  - intros Hz. now rewrite (Hzero m Hz).
  - intros c Hc. now rewrite (Hone m c Hm Hall Hc).
Qed.

Lemma qualifies_spec (markets : list string) (d : dict string (list string)) :
  qualifies markets d = true
  <-> (forall m, In m markets -> code_count d m <= 1)
      /\ 2 <= List.length (with_one d markets).
Proof.
  unfold qualifies, at_most_one.
  rewrite andb_true_iff, forallb_forall, Nat.leb_le.
  split; intros [Hall Htwo]; (split; [|exact Htwo]); intros m Hm.
  - apply Nat.leb_le. auto.
  - apply Nat.leb_le. auto.
Qed.

(** On a list without repetition, at least two elements pass a test exactly
    when two different elements do. *)
Lemma two_in_filter {X : Type} (p : X -> bool) (l : list X) :
  NoDup l ->
  (2 <= List.length (filter p l)
   <-> exists a b, In a l /\ In b l /\ a <> b /\ p a = true /\ p b = true).
Proof.
  intros Hnd. pose proof (NoDup_filter p Hnd) as Hf. split.
  - destruct (filter p l) as [|a [|b t]] eqn:E; simpl; try lia. intros _.
    assert (Ha : In a (filter p l)) by (rewrite E; now left).
    assert (Hb : In b (filter p l)) by (rewrite E; right; now left).
    apply filter_In in Ha, Hb. exists a, b.
    repeat split; try tauto.
    inversion Hf as [|? ? Hnotin _]; subst. intros ->. apply Hnotin. now left.
  - intros (a & b & Ha & Hb & Hne & Hpa & Hpb).
    assert (Ha' : In a (filter p l)) by (apply filter_In; tauto).
    assert (Hb' : In b (filter p l)) by (apply filter_In; tauto).
    destruct (filter p l) as [|x [|y t]]; simpl in *; try tauto; try lia.
    destruct Ha' as [->|[]], Hb' as [->|[]]. congruence.
Qed.

(** ** The entity mapper: claims C1, C8, C10 *)

Lemma unique_fold_In (l seen : list string) (x : string) :
  In x (fold_left
          (fun seen x => if existsb (String.eqb x) seen then seen else seen ++ [x])
          l seen)
  <-> In x seen \/ In x l.
Proof.
  revert seen. induction l as [|y l IH]; intros seen; cbn [fold_left].
  - simpl. tauto.
  - rewrite IH. destruct (existsb (String.eqb y) seen) eqn:E.
    + apply existsb_exists in E. destruct E as (z & Hz & Ez).
      apply String.eqb_eq in Ez. subst z. simpl. intuition (subst; auto).
    + rewrite in_app_iff. simpl. tauto.
Qed.

Lemma unique_In (l : list string) (x : string) : In x (unique l) <-> In x l.
Proof. unfold unique. rewrite unique_fold_In. simpl. tauto. Qed.

Lemma dict_of_keyed_get {V : Type} (f : string -> V) (l : list string)
  (acc : dict string V) (p : string) :
  In p l ->
  dict_get p (fold_left (fun d kv => dict_set (fst kv) (snd kv) d)
                (map (fun p => (p, f p)) l) acc)
  = Some (f p).
Proof.
  revert acc. induction l as [|q l IH]; intros acc; cbn [map fold_left fst snd].
  - intros [].
  - intros [->|Hin].
    + destruct (in_dec string_dec p l) as [Hyes|Hno]; [now apply IH|].
      clear IH. assert (Hget : dict_get p (dict_set p (f p) acc) = Some (f p))
        by apply dict_get_set_eq.
      revert Hget. generalize (dict_set p (f p) acc) as d.
      induction l as [|q l IHl]; intros d Hget; cbn [map fold_left fst snd].
      * exact Hget.
      * apply IHl; [simpl in Hno; tauto|].
        rewrite dict_get_set_neq; [exact Hget|]. simpl in Hno. intros ->. tauto.
    + now apply IH.
Qed.

Lemma mini_lookup_get (items : built_lookup) (asin_df : list entity) (e : entity) :
  In e asin_df ->
  dict_get_default (asin_prefix e) (MDict [])
    (dict_of (map (fun p => (p, dict_get_default p (MDict []) (as_lookup items)))
                (unique (map asin_prefix asin_df))))
  = MDict (entity_codes items e).
Proof.
  intros He. unfold dict_get_default at 1, dict_of.
  rewrite dict_of_keyed_get
    by (apply (proj2 (unique_In _ _)); now apply in_map).
  unfold entity_codes, dict_get_default. rewrite dict_get_as_lookup.
  unfold built_lookup, dict in *.
  destruct (dict_get (asin_prefix e) items); reflexivity.
Qed.

Lemma target_step_dict (d : dict string (list string)) (sc : nat) (res : row)
  (target : string) :
  target_step (MDict d) sc res target
  = Ok (add_codes target (dict_get_default target [] d)
          (dict_set (target ++ "_Relation")%string
             (VStr (target_relation sc (code_count d target))) res)).
Proof. reflexivity. Qed.

Lemma for_each_target_step (d : dict string (list string)) (sc : nat)
  (targets : list string) (res : row) :
  exists res',
    for_each (target_step (MDict d) sc) targets res = Ok res'
    /\ (forall t, In t targets ->
          dict_get (t ++ "_Relation")%string res'
          = Some (VStr (target_relation sc (code_count d t))))
    /\ (forall key, ends_in_digit key = false ->
          (forall t, In t targets -> key <> (t ++ "_Relation")%string) ->
          dict_get key res' = dict_get key res).
Proof.
  revert res. induction targets as [|t0 rest IH]; intros res.
  - exists res. split; [reflexivity|]. split; [intros t []|reflexivity].
  - cbn [for_each]. rewrite target_step_dict. cbn [bind].
    destruct (IH (add_codes t0 (dict_get_default t0 [] d)
                    (dict_set (t0 ++ "_Relation")%string
                       (VStr (target_relation sc (code_count d t0))) res)))
      as (res' & Hrun & Hin & Hout).
    exists res'. split; [exact Hrun|]. split.
    + intros t [<-|Ht]; [|now apply Hin].
      destruct (in_dec string_dec t0 rest) as [Hyes|Hno]; [now apply Hin|].
      rewrite Hout.
      * rewrite add_codes_other by apply relation_key_no_digit.
        apply dict_get_set_eq.
      * apply relation_key_no_digit.
      * intros t Ht E. apply append_inj_r in E. congruence.
    + intros key Hdig Hkey.
      rewrite Hout by (auto; intros t Ht; apply Hkey; now right).
      rewrite add_codes_other by exact Hdig.
      apply dict_get_set_neq. intros E. apply (Hkey t0); [now left | now symmetry].
Qed.

Lemma entity_step_dict (mini : lookup_t) (items : built_lookup)
  (source_market : string) (target_markets : list string) (results : list row)
  (e : entity) :
  dict_get_default (asin_prefix e) (MDict []) mini = MDict (entity_codes items e) ->
  exists r,
    entity_step mini source_market target_markets results e = Ok (results ++ [r])
    /\ entity_row_ok items source_market target_markets e r.
Proof.
  intros Hmini. unfold entity_step. rewrite Hmini. cbn [mc_get bind].
  destruct (for_each_target_step (entity_codes items e)
              (List.length (dict_get_default source_market [] (entity_codes items e)))
              target_markets
              (dict_of [("ASIN", VStr (ASIN e));
                        ("Source_Code", VStr (asin_hs_code e));
                        ("Prefix", VStr (asin_prefix e))]))
    as (res & Hrun & Hin & Hout).
  rewrite Hrun. cbn [bind]. exists res. split; [reflexivity|].
  unfold entity_row_ok, row_str.
  rewrite !Hout by (try reflexivity; intros t _; key_neq).
  repeat split.
  intros t Ht. now rewrite (Hin t Ht).
Qed.

Lemma for_each_entity_step (mini : lookup_t) (items : built_lookup)
  (source_market : string) (target_markets : list string) (l : list entity)
  (results : list row) :
  (forall e, In e l ->
     dict_get_default (asin_prefix e) (MDict []) mini
     = MDict (entity_codes items e)) ->
  exists rows,
    for_each (entity_step mini source_market target_markets) l results
    = Ok (results ++ rows)
    /\ Forall2 (entity_row_ok items source_market target_markets) l rows.
Proof.
  revert results. induction l as [|e l IH]; intros results Hmini.
  - exists []. simpl. rewrite app_nil_r. split; [reflexivity | constructor].
  - cbn [for_each].
    destruct (entity_step_dict mini items source_market target_markets results e)
      as (r & -> & Hr); [apply Hmini; now left|]. cbn [bind].
    destruct (IH (results ++ [r])) as (rows & Hrun & Hrows);
      [intros e' He'; apply Hmini; now right|].
    exists (r :: rows). rewrite Hrun, <- app_assoc. split; [reflexivity|].
    now constructor.
Qed.

Lemma map_asins_fast_dicts (asin_df : list entity) (items : built_lookup)
  (source_market : string) (target_markets : list string) :
  exists rows,
    map_asins_fast asin_df (as_lookup items) source_market target_markets = Ok rows
    /\ Forall2 (entity_row_ok items source_market target_markets) asin_df rows.
Proof.
  unfold map_asins_fast.
  destruct (for_each_entity_step
              (dict_of (map (fun p => (p, dict_get_default p (MDict [])
                                            (as_lookup items)))
                          (unique (map asin_prefix asin_df))))
              items source_market target_markets asin_df [])
    as (rows & Hrun & Hrows).
  - intros e He. now apply mini_lookup_get.
  - exists rows. split; [exact Hrun | exact Hrows].
Qed.

Lemma target_relation_label (sc tc : nat) :
  target_relation sc tc = label (mapper_classify sc tc).
Proof. count_cases sc tc; reflexivity. Qed.

(** The mapper follows the pairwise rule as soon as the source market has a
    code at the prefix, or the target has none. *)
Lemma mapper_classify_agrees (sc tc : nat) :
  sc <> 0 \/ tc = 0 -> mapper_classify sc tc = classify sc tc.
Proof. count_cases sc tc; intros [H|H]; try reflexivity; congruence. Qed.

(** Where it does not: a source market without codes and a target with
    some. *)
Lemma mapper_classify_source_empty (tc : nat) :
  tc <> 0 ->
  mapper_classify 0 tc = ManyToMany /\ classify 0 tc = NoMatch.
Proof. destruct tc as [|[|tc]]; intros H; [congruence | | ]; split; reflexivity. Qed.

(** The sample lookup is the one built from the sample records, and the
    mapper receives it as it was built. *)
Example example_lookup_built :
  build_prefix_lookup_body example_records ["UAE"; "KSA"] = example_lookup
  /\ lookup_rebuilt example_lookup = as_lookup example_lookup.
Proof. split; reflexivity. Qed.

(** C1 (the code departs from the claim).  The prefix "100002" of
    [example_lookup] has no code for UAE and one code for KSA.  For an entity
    with this prefix, source market UAE and target KSA, so [sc = 0] and
    [tc = 1], the mapper reports Many-to-Many, where the pairwise rule on
    [(sc, tc)] gives NoMatch, and only NoMatch. *)
Theorem mapper_source_without_codes :
  let d := entity_codes example_lookup entity_without_source_codes in
  code_count d "UAE" = 0
  /\ code_count d "KSA" = 1
  /\ (exists r,
        map_asins_fast [entity_without_source_codes] (as_lookup example_lookup)
          "UAE" ["KSA"] = Ok [r]
        /\ row_str "KSA_Relation" r = Some (label ManyToMany))
  /\ relates 0 1 NoMatch
  /\ (forall rel, relates 0 1 rel -> rel = NoMatch).
Proof.
  cbv zeta. split; [reflexivity|]. split; [reflexivity|]. split.
  - eexists. split; reflexivity.
  - split; [apply (classify_relates 0 1) | apply (@relates_classify 0 1)].
Qed.

(** C8.  On a lookup whose entries are dictionaries the mapper returns one
    row per entity.  For an entity whose prefix is not a key of the lookup,
    every market has zero codes at the prefix and the row reports No Match
    for every target market. *)
Theorem unknown_prefix_no_match (asin_df : list entity) (items : built_lookup)
  (source_market : string) (target_markets : list string) :
  exists rows,
    map_asins_fast asin_df (as_lookup items) source_market target_markets = Ok rows
    /\ Forall2
         (fun e r =>
            dict_get (asin_prefix e) (as_lookup items) = None ->
            (forall m, code_count (entity_codes items e) m = 0)
            /\ forall t, In t target_markets ->
                 row_str (t ++ "_Relation") r = Some (label NoMatch))
         asin_df rows.
Proof.
  destruct (map_asins_fast_dicts asin_df items source_market target_markets)
    as (rows & Hrun & Hrows).
  exists rows. split; [exact Hrun|].
  eapply Forall2_impl; [|exact Hrows].
  intros e r (_ & _ & _ & Hrel) Habsent.
  rewrite dict_get_as_lookup in Habsent.
  assert (Hd : entity_codes items e = []).
  { unfold entity_codes, dict_get_default. unfold built_lookup, dict in *.
    destruct (dict_get (asin_prefix e) items); [discriminate | reflexivity]. }
  rewrite Hd in *. split; [reflexivity|].
  intros t Ht. rewrite (Hrel t Ht). reflexivity.
Qed.

(** The second sample entity has a prefix that the sample lookup does not
    have. *)
Lemma unknown_prefix_no_match_witness :
  exists r1 r2 r3,
    map_asins_fast example_entities (as_lookup example_lookup) "UAE" ["KSA"; "EGY"]
    = Ok [r1; r2; r3]
    /\ row_str "KSA_Relation" r2 = Some (label NoMatch)
    /\ row_str "EGY_Relation" r2 = Some (label NoMatch).
Proof.
  destruct (unknown_prefix_no_match example_entities example_lookup "UAE"
              ["KSA"; "EGY"]) as (rows & Hrun & Hrows).
  inversion Hrows as [|e1 r1 l1 rows1 _ Hrows1]; subst.
  inversion Hrows1 as [|e2 r2 l2 rows2 H2 Hrows2]; subst.
  inversion Hrows2 as [|e3 r3 l3 rows3 _ Hrows3]; subst.
  inversion Hrows3; subst.
  exists r1, r2, r3. split; [exact Hrun|].
  destruct H2 as [_ Hrel]; [reflexivity|].
  split; [apply (Hrel "KSA") | apply (Hrel "EGY")]; simpl; auto.
Defined.

(** C10.  On a lookup whose entries are dictionaries the mapper returns as
    many rows as there are entities, and the row at each position is that of
    the entity at this position: it holds the entity's id, code and prefix,
    and for every target market the label of a relation. *)
Theorem mapper_one_row_per_entity (asin_df : list entity) (items : built_lookup)
  (source_market : string) (target_markets : list string) :
  exists rows,
    map_asins_fast asin_df (as_lookup items) source_market target_markets = Ok rows
    /\ List.length rows = List.length asin_df
    /\ Forall2
         (fun e r =>
            row_str "ASIN" r = Some (ASIN e)
            /\ row_str "Source_Code" r = Some (asin_hs_code e)
            /\ row_str "Prefix" r = Some (asin_prefix e)
            /\ forall t, In t target_markets ->
                 exists rel, row_str (t ++ "_Relation") r = Some (label rel))
         asin_df rows.
Proof.
  destruct (map_asins_fast_dicts asin_df items source_market target_markets)
    as (rows & Hrun & Hrows).
  exists rows. split; [exact Hrun|].
  split; [symmetry; eapply Forall2_length; exact Hrows|].
  eapply Forall2_impl; [|exact Hrows].
  intros e r (Hid & Hcode & Hpfx & Hrel).
  repeat (split; [assumption|]).
  intros t Ht. rewrite (Hrel t Ht), target_relation_label. eauto.
Qed.

(** ** The normalizer: the code column (claim C9) *)

Lemma startswith_spec (p s : string) :
  startswith p s = true <-> exists t, s = (p ++ t)%string.
Proof.
  revert s. induction p as [|a p IH]; intros s; simpl.
  - split; [intros _; now exists s | reflexivity].
  - destruct s as [|b s].
    + split; [discriminate | intros [t E]; discriminate].
    + rewrite andb_true_iff, IH. split.
      * intros [Hab [t ->]]. apply Ascii.eqb_eq in Hab. subst b. now exists t.
      * intros [t [= <- ->]]. split; [apply Ascii.eqb_refl | now exists t].
Qed.

Lemma contains_spec (p s : string) :
  contains p s = true <-> exists pre post, s = (pre ++ p ++ post)%string.
Proof.
  induction s as [|c s IH]; simpl.
  - rewrite orb_false_r, startswith_spec. split.
    + intros [t E]. now exists EmptyString, t.
    + intros (pre & post & E). destruct pre; [now exists post | discriminate].
  - rewrite orb_true_iff, startswith_spec, IH. split.
    + intros [[t E]|(pre & post & E)].
      * now exists EmptyString, t.
      * exists (String c pre), post. simpl. now rewrite E.
    + intros (pre & post & E). destruct pre as [|x pre]; simpl in E.
      * left. now exists post.
      * right. injection E as _ E. now exists pre, post.
Qed.

Lemma lower_append (a b : string) :
  lower (a ++ b) = (lower a ++ lower b)%string.
Proof. induction a as [|x a IH]; simpl; [reflexivity | now rewrite IH]. Qed.

Lemma lower_split (s x y : string) :
  lower s = (x ++ y)%string ->
  exists a b, s = (a ++ b)%string /\ lower a = x /\ lower b = y.
Proof.
  revert s. induction x as [|c x IH]; intros s E; simpl in E.
  - exists EmptyString, s. auto.
  - destruct s as [|d s]; simpl in E; [discriminate|].
    injection E as Hc E. destruct (IH s E) as (a & b & -> & Ha & Hb).
    exists (String d a), b. simpl. rewrite Ha, Hc. auto.
Qed.

Lemma contains_lower_spec (word col : string) :
  contains word (lower col) = true <-> holds_word word col.
Proof.
  rewrite contains_spec. unfold holds_word. split.
  - intros (x & y & E). apply lower_split in E.
    destruct E as (pre & rest & -> & _ & E). apply lower_split in E.
    destruct E as (mid & post & -> & Hmid & _). now exists pre, mid, post.
  - intros (pre & mid & post & -> & <-).
    exists (lower pre), (lower post). now rewrite !lower_append.
Qed.

Lemma is_code_name_spec (col : string) :
  is_code_name col = true <-> names_code col.
Proof.
  unfold is_code_name, names_code.
  now rewrite !orb_true_iff, !contains_lower_spec, or_assoc.
Qed.

Lemma find_code_col_some (columns : list string) (col : string) :
  find_code_col columns = Some col ->
  exists before after,
    columns = before ++ col :: after
    /\ names_code col
    /\ Forall (fun c => ~ names_code c) before.
Proof.
  induction columns as [|c columns IH]; simpl; [discriminate|].
  destruct (is_code_name c) eqn:E.
  - intros [= ->]. exists [], columns.
    split; [reflexivity|]. split; [now apply is_code_name_spec | constructor].
  - intros Hfind. destruct (IH Hfind) as (before & after & -> & Hcol & Hbefore).
    exists (c :: before), after. split; [reflexivity|]. split; [exact Hcol|].
    constructor; [|exact Hbefore].
    rewrite <- is_code_name_spec. congruence.
Qed.

Lemma find_code_col_none (columns : list string) :
  find_code_col columns = None -> Forall (fun c => ~ names_code c) columns.
Proof.
  induction columns as [|c columns IH]; simpl; [constructor|].
  destruct (is_code_name c) eqn:E; [discriminate|].
  intros Hfind. constructor; [|auto].
  rewrite <- is_code_name_spec. congruence.
Qed.

Lemma select_code_col_spec (columns : list string) :
  columns <> [] ->
  exists col, select_code_col columns = Ok col /\ chosen_column columns col.
Proof.
  intros Hne. unfold select_code_col.
  destruct (find_code_col columns) as [col|] eqn:E.
  - exists col. split; [reflexivity|]. left. now apply find_code_col_some.
  - destruct columns as [|first others]; [congruence|].
    exists first. split; [reflexivity|]. right.
    split; [now apply find_code_col_none | now exists others].
Qed.

Lemma chosen_column_In (columns : list string) (col : string) :
  chosen_column columns col -> In col columns.
Proof.
  intros [(before & after & -> & _)|[_ (others & ->)]].
  - apply in_or_app. right. now left.
  - now left.
Qed.

Lemma dict_get_of_key {V : Type} (k : string) (d : dict string V) :
  In k (dict_keys d) -> exists v, dict_get k d = Some v.
Proof.
  induction d as [|[k' v'] d IH]; simpl; [intros []|].
  destruct (String.eqb_spec k k') as [->|Hne]; [eauto|].
  intros [E|Hin]; [congruence | auto].
Qed.

Lemma process_tree_data_runs (df : dataframe) (market_name : string) (digits : nat) :
  df <> [] ->
  exists code_col cells,
    chosen_column (map fst df) code_col
    /\ dict_get code_col df = Some cells
    /\ process_tree_data df market_name digits
       = Ok (map (fun c => {| market := market_name; hs_code := c;
                              prefix := slice_to digits c |}) (kept_codes cells),
             code_col, List.length (kept_codes cells)).
Proof.
  intros Hne. unfold process_tree_data.
  destruct (@select_code_col_spec (map fst df)) as (col & -> & Hcol).
  { destruct df; [congruence | discriminate]. }
  cbn [bind]. destruct (@dict_get_of_key _ col df) as [cells Hcells].
  { now apply chosen_column_In. }
  exists col, cells. split; [exact Hcol|]. split; [exact Hcells|].
  unfold df_column. rewrite Hcells. cbn [bind]. unfold kept_codes.
  now rewrite length_map.
Qed.

(** C9.  On a table with at least one column the normalizer returns, and
    the column it reports is the first, in the order of the table, whose
    name holds "hs", "hts" or "code" as a substring, letter case apart; when
    no name does, it is the first column of the table. *)
Theorem code_column_selection (df : dataframe) (market_name : string) (digits : nat) :
  df <> [] ->
  exists rows code_col n,
    process_tree_data df market_name digits = Ok (rows, code_col, n)
    /\ ((exists before after,
           map fst df = before ++ code_col :: after
           /\ names_code code_col
           /\ Forall (fun c => ~ names_code c) before)
        \/ (Forall (fun c => ~ names_code c) (map fst df)
            /\ exists others, map fst df = code_col :: others)).
Proof.
  intros Hne.
  destruct (process_tree_data_runs market_name digits Hne)
    as (col & cells & Hcol & _ & Hrun).
  do 3 eexists. split; [exact Hrun | exact Hcol].
Qed.

(** The choice of the column on the sample sheet. *)
Lemma code_column_selection_witness :
  exists rows code_col n,
    process_tree_data example_df "UAE" DIGITS = Ok (rows, code_col, n)
    /\ ((exists before after,
           map fst example_df = before ++ code_col :: after
           /\ names_code code_col
           /\ Forall (fun c => ~ names_code c) before)
        \/ (Forall (fun c => ~ names_code c) (map fst example_df)
            /\ exists others, map fst example_df = code_col :: others)).
Proof.
  apply (@code_column_selection example_df "UAE" DIGITS). discriminate.
Defined.

(** A table without columns makes [df.columns[0]] raise. *)
Lemma no_column_raises (market_name : string) (digits : nat) :
  process_tree_data [] market_name digits = Raise IndexError.
Proof. reflexivity. Qed.

(** ** The normalizer: cleaning, filter and prefix (claim C7) *)

Lemma lstrip_spec (s : string) :
  exists l, s = (l ++ lstrip s)%string /\ all_space l = true
            /\ no_space_at (first_char (lstrip s)).
Proof.
  induction s as [|c s (l & Hs & Hl & Hfirst)]; simpl.
  - exists EmptyString. simpl. auto.
  - destruct (is_space c) eqn:E.
    + exists (String c l). simpl. rewrite E, Hl, <- Hs. auto.
    + exists EmptyString. simpl. auto.
Qed.

Lemma rstrip_spec (s : string) :
  exists r, s = (rstrip s ++ r)%string /\ all_space r = true
            /\ no_space_at (last_char (rstrip s)).
Proof.
  induction s as [|c s (r & Hs & Hr & Hlast)]; simpl.
  - exists EmptyString. simpl. auto.
  - destruct (rstrip s) as [|x rest] eqn:E.
    + simpl in Hs. subst s. destruct (is_space c) eqn:Ec.
      * exists (String c r). simpl. rewrite Ec, Hr. auto.
      * exists r. simpl. auto.
    + exists r. split; [simpl; now rewrite Hs at 1|]. split; [exact Hr|].
      exact Hlast.
Qed.

Lemma strip_spec (s : string) : trims s (strip s).
Proof.
  unfold strip.
  destruct (rstrip_spec s) as (r & Hs & Hr & Hlast).
  destruct (lstrip_spec (rstrip s)) as (l & Hrs & Hl & Hfirst).
  exists l, r. split; [|split; [exact Hl|split; [exact Hr|split; [exact Hfirst|]]]].
  - rewrite <- append_assoc, <- Hrs. exact Hs.
  - destruct (lstrip (rstrip s)) as [|x t] eqn:E; [exact I|].
    rewrite Hrs in Hlast. rewrite last_char_append in Hlast by discriminate.
    exact Hlast.
Qed.

Lemma sub_dot0_spec (s : string) :
  last_char s <> Some newline -> strips_dot0 s (sub_dot0 s).
Proof.
  induction s as [|c s IH]; intros Hlast.
  - right. split; [|reflexivity]. intros [|x v]; discriminate.
  - cbn [sub_dot0].
    destruct (String.eqb_spec (String c s) ".0") as [E|Hne].
    { left. now rewrite E. }
    destruct (String.eqb_spec (String c s) (".0" ++ String newline EmptyString))
      as [E|Hne'].
    { exfalso. apply Hlast. now rewrite E. }
    destruct s as [|x s'].
    + right. split; [|reflexivity].
      intros [|a [|b v]] E; simpl in E; discriminate.
    + assert (Hlast' : last_char (String x s') <> Some newline)
        by (intros H; apply Hlast; exact H).
      destruct (IH Hlast') as [E|[Hnone E]].
      * left. simpl. now rewrite E at 1.
      * right. rewrite E. split; [|reflexivity].
        intros [|a v] Ev; simpl in Ev; [congruence|].
        injection Ev as _ Ev. now apply (Hnone v).
Qed.

Lemma sub_nondigit_spec (s : string) : sub_nondigit s = digits_of s.
Proof.
  unfold digits_of. induction s as [|c s IH]; simpl; [reflexivity|].
  destruct (is_digit c); simpl; now rewrite IH.
Qed.

Lemma clean_code_spec (raw : cell) : normalizes (astype_str raw) (clean_code raw).
Proof.
  unfold clean_code. exists (strip (astype_str raw)), (sub_dot0 (strip (astype_str raw))).
  split; [apply strip_spec|]. split; [|apply sub_nondigit_spec].
  apply sub_dot0_spec.
  destruct (strip_spec (astype_str raw)) as (_ & _ & _ & _ & _ & _ & Hlast).
  intros E. rewrite E in Hlast. simpl in Hlast. discriminate.
Qed.

Lemma slice_to_short (n : nat) (s : string) :
  String.length s <= n -> slice_to n s = s.
Proof.
  unfold slice_to. revert s. induction n as [|n IH]; intros [|c s]; simpl;
    try reflexivity; try lia.
  intros H. f_equal. apply IH. lia.
Qed.

Lemma slice_to_long (n : nat) (s : string) :
  n <= String.length s ->
  String.length (slice_to n s) = n
  /\ exists rest, s = (slice_to n s ++ rest)%string.
Proof.
  unfold slice_to. revert s. induction n as [|n IH]; intros s H.
  - destruct s; simpl; (split; [reflexivity|]); eexists; reflexivity.
  - destruct s as [|c s]; simpl in *; [lia|].
    destruct (IH s) as [Hlen [rest Hrest]]; [lia|].
    split; [now rewrite Hlen|]. exists rest. now rewrite Hrest at 1.
Qed.

(** C7.  On a table with at least one column the normalizer returns.  Each
    cell of the code column, read as text, is trimmed of its leading and
    trailing whitespace, loses one trailing [".0"] if it ends with it, and
    then loses every character that is no digit.  The records returned are,
    in order, those of the cleaned codes of four digits or more.  With the
    prefix width 6, the prefix of a record is made of the first six
    characters of its code when the code has six or more, and is the whole
    code otherwise. *)
Theorem normalizer_rows (df : dataframe) (market_name : string) :
  df <> [] ->
  exists rows code_col n cells codes,
    process_tree_data df market_name DIGITS = Ok (rows, code_col, n)
    /\ dict_get code_col df = Some cells
    /\ Forall2 (fun raw c => normalizes (astype_str raw) c) cells codes
    /\ map hs_code rows = filter (fun c => 4 <=? String.length c) codes
    /\ n = List.length rows
    /\ Forall (record_ok market_name) rows.
Proof.
  intros Hne.
  destruct (process_tree_data_runs market_name DIGITS Hne)
    as (col & cells & _ & Hcells & Hrun).
  do 3 eexists. exists cells, (map clean_code cells).
  split; [exact Hrun|]. split; [exact Hcells|]. split; [|split; [|split]].
  - clear. induction cells as [|raw cells IH]; simpl; constructor;
      [apply clean_code_spec | exact IH].
  - rewrite map_map. cbn [hs_code]. apply map_id.
  - now rewrite length_map.
  - apply Forall_forall. intros r Hr. apply in_map_iff in Hr.
    destruct Hr as (c & <- & Hc). apply filter_In in Hc. destruct Hc as [_ Hlen].
    apply Nat.leb_le in Hlen. unfold record_ok. cbn [market hs_code prefix].
    split; [reflexivity|]. split; [exact Hlen|]. split.
    + intros H6. now apply slice_to_long.
    + intros H6. apply slice_to_short. unfold DIGITS. lia.
Qed.

(** The records of the sample sheet. *)
Lemma normalizer_rows_witness :
  exists rows code_col n cells codes,
    process_tree_data example_df "UAE" DIGITS = Ok (rows, code_col, n)
    /\ dict_get code_col example_df = Some cells
    /\ Forall2 (fun raw c => normalizes (astype_str raw) c) cells codes
    /\ map hs_code rows = filter (fun c => 4 <=? String.length c) codes
    /\ n = List.length rows
    /\ Forall (record_ok "UAE") rows.
Proof.
  apply (@normalizer_rows example_df "UAE"). discriminate.
Defined.

Example normalizer_example :
  process_tree_data example_df "UAE" DIGITS
  = Ok ([{| market := "UAE"; hs_code := "01012100"; prefix := "010121" |};
         {| market := "UAE"; hs_code := "1001"; prefix := "1001" |};
         {| market := "UAE"; hs_code := "090210"; prefix := "090210" |}],
        "HTS Number", 3).
Proof. reflexivity. Qed.

(** ** The Analysis page *)

Lemma dict_set_not_nil {K V : Type} `{Hashable K} (k : K) (v : V) (d : dict K V) :
  dict_set k v d <> [].
Proof. destruct d as [|[k' v'] d]; simpl; [|destruct (key_eqb k k')]; discriminate. Qed.

Lemma dict_fold_not_nil {K V : Type} `{Hashable K} (pairs : list (K * V))
  (acc : dict K V) :
  acc <> [] ->
  fold_left (fun d kv => dict_set (fst kv) (snd kv) d) pairs acc <> [].
Proof.
  revert acc. induction pairs as [|kv pairs IH]; intros acc Hacc; simpl;
    [exact Hacc|].
  apply IH. apply dict_set_not_nil.
Qed.

Lemma dict_set_Forall {K V : Type} `{Hashable K} (P : V -> Prop) (k : K) (v : V)
  (d : dict K V) :
  P v -> Forall (fun kv => P (snd kv)) d ->
  Forall (fun kv => P (snd kv)) (dict_set k v d).
Proof.
  intros Hv Hd. induction Hd as [|[k' v'] d Hkv Hd IH]; simpl.
  - constructor; [exact Hv | constructor].
  - destruct (key_eqb k k'); constructor; auto.
Qed.

Lemma dict_fold_Forall {K V : Type} `{Hashable K} (P : V -> Prop)
  (pairs : list (K * V)) (acc : dict K V) :
  Forall (fun kv => P (snd kv)) pairs -> Forall (fun kv => P (snd kv)) acc ->
  Forall (fun kv => P (snd kv))
    (fold_left (fun d kv => dict_set (fst kv) (snd kv) d) pairs acc).
Proof.
  intros Hpairs. revert acc.
  induction Hpairs as [|kv pairs Hkv Hpairs IH]; intros acc Hacc; simpl;
    [exact Hacc|].
  apply IH. now apply dict_set_Forall.
Qed.

(** What the page hands to the cached functions: a lookup that is not
    empty when the built one is not, and whose entries are tuples. *)
Lemma packed_lookup (lookup : built_lookup) :
  lookup <> [] ->
  exists pfx items rest,
    dict_zip (lookup_keys lookup) (lookup_values lookup)
    = (pfx, MTuple items) :: rest.
Proof.
  intros Hne.
  assert (Hall : Forall (fun kv => is_tuple (snd kv))
                   (dict_zip (lookup_keys lookup) (lookup_values lookup))).
  { unfold dict_zip, dict_of. apply dict_fold_Forall; [|constructor].
    unfold lookup_keys, lookup_values, dict_keys. clear Hne.
    induction lookup as [|kv lookup IH]; simpl; constructor; [exact I | exact IH]. }
  assert (Hnil : dict_zip (lookup_keys lookup) (lookup_values lookup) <> []).
  { unfold dict_zip, dict_of, lookup_keys, lookup_values, dict_keys.
    destruct lookup as [|kv lookup]; [congruence|]. cbn [map combine fold_left].
    apply dict_fold_not_nil. apply dict_set_not_nil. }
  destruct (dict_zip (lookup_keys lookup) (lookup_values lookup))
    as [|[pfx mc] rest]; [congruence|].
  inversion Hall as [|? ? Hmc _]; subst. destruct mc as [d|items]; [contradiction|].
  now exists pfx, items, rest.
Qed.

(** With two markets or more and a prefix in the lookup, the body of the
    classifier, on what the page hands to it, stops at the first [.get] on a
    tuple. *)
Lemma analyze_packed_raises (rnd : Q -> Q) (lookup : built_lookup)
  (markets : list string) :
  lookup <> [] -> 2 <= List.length markets ->
  analyze_pairs_cached_body rnd (lookup_keys lookup) (lookup_values lookup) markets
  = Raise AttributeError.
Proof.
  intros Hne Hmk. unfold analyze_pairs_cached_body.
  destruct (packed_lookup Hne) as (pfx & items & rest & ->).
  destruct markets as [|A [|B markets]]; simpl in Hmk; try lia.
  reflexivity.
Qed.

(** So do the two calls of the page, unless the memo of the classifier
    holds a value for these markets. *)
Lemma run_analysis_raises (rnd : Q -> Q) (cs : caches) (lookup : built_lookup)
  (markets : list string) :
  lookup <> [] -> 2 <= List.length markets ->
  dict_get markets (pairs_cache cs) = None ->
  run_analysis rnd cs lookup markets = (Raise AttributeError, cs).
Proof.
  intros Hne Hmk Hmiss. unfold run_analysis, analyze_pairs_cached.
  rewrite (cache_data_miss _ _ _ Hmiss),
    (@analyze_packed_raises rnd lookup markets Hne Hmk).
  now destruct cs.
Qed.

(** The strict extractor, called with the same arguments, stops in the same
    way as soon as there is a market. *)
Lemma strict_on_packed_raises (lookup : built_lookup) (markets : list string) :
  lookup <> [] -> markets <> [] ->
  get_strict_one_to_one_cached_body (lookup_keys lookup) (lookup_values lookup) markets
  = Raise AttributeError.
Proof.
  intros Hne Hmk. unfold get_strict_one_to_one_cached_body.
  destruct (packed_lookup Hne) as (pfx & items & rest & ->).
  destruct markets as [|A markets]; [congruence | reflexivity].
Qed.

Lemma dict_set_fresh {K V : Type} `{Hashable K} (k : K) (v : V) (d : dict K V) :
  ~ In k (dict_keys d) -> dict_set k v d = d ++ [(k, v)].
Proof.
  induction d as [|[k' v'] d IH]; simpl; [reflexivity|].
  unfold dict_keys in *. simpl. intros Hnotin.
  rewrite key_eqb_neq by (intros ->; tauto). rewrite IH by tauto. reflexivity.
Qed.

Lemma dict_fold_id {K V : Type} `{Hashable K} (d acc : dict K V) :
  NoDup (dict_keys (acc ++ d)) ->
  fold_left (fun d kv => dict_set (fst kv) (snd kv) d) d acc = acc ++ d.
Proof.
  revert acc. induction d as [|[k v] d IH]; intros acc Hnd; simpl.
  - now rewrite app_nil_r.
  - assert (Hfresh : ~ In k (dict_keys acc)).
    { unfold dict_keys in *. rewrite map_app in Hnd. simpl in Hnd.
      apply NoDup_remove_2 in Hnd. rewrite in_app_iff in Hnd. tauto. }
    rewrite dict_set_fresh by exact Hfresh.
    rewrite IH; rewrite <- app_assoc; [reflexivity | exact Hnd].
Qed.

Lemma dict_of_id {K V : Type} `{Hashable K} (d : dict K V) :
  NoDup (dict_keys d) -> dict_of d = d.
Proof. intros Hnd. unfold dict_of. now rewrite dict_fold_id. Qed.

(** The lookup kept for the mapper is the built one: its entries are
    dictionaries again. *)
Lemma lookup_rebuilt_spec (lookup : built_lookup) :
  NoDup (dict_keys lookup) ->
  Forall (fun kv => NoDup (dict_keys (snd kv))) lookup ->
  lookup_rebuilt lookup = as_lookup lookup.
Proof.
  intros Hkeys Hvals.
  transitivity (dict_of (as_lookup lookup)).
  - unfold lookup_rebuilt, lookup_keys, lookup_values, dict_keys, dict_of.
    clear Hkeys. generalize (@nil (string * market_codes)) as acc.
    induction Hvals as [|kv l Hkv Hl IH]; intros acc;
      cbn [map combine fold_left as_lookup fst snd rebuild_value];
      [reflexivity|].
    rewrite (dict_of_id _ Hkv). apply IH.
  - apply dict_of_id. unfold as_lookup, dict_keys in *. now rewrite map_map.
Qed.

(** ** The classifier and the extractor as the Analysis page calls them:
    claims C2 to C6 *)

(** The sample trees are loaded from the two sample sheets, and the lookup
    built from them on a first run is the sample lookup. *)
Example example_trees_loaded :
  (exists trees,
     add_tree [] uae_sheet "UAE" = Ok trees
     /\ add_tree trees ksa_sheet "KSA" = Ok example_trees)
  /\ fst (session_lookup no_caches example_trees) = Ok example_lookup.
Proof. split; [eexists; split; reflexivity | reflexivity]. Qed.

(** C2 (the code departs from the claim).  With the trees of UAE and KSA
    loaded from the sample sheets, UAE has one code and KSA two at the
    prefix "100001": the rule gives OneToMany there, and only OneToMany.
    The Analysis page packs every entry of the lookup into a tuple of items
    (line 341) and calls the classifier with these tuples (line 349), so
    that the first [market_codes.get] (line 79) raises [AttributeError]: the
    call and the page stop there and no relation is assigned to any prefix.
    On the entries read back into dictionaries, which the page builds for
    the mapper only (lines 344-346), the body of the classifier gives the
    row of the rule. *)
Theorem classifier_on_packed_lookup (rnd : Q -> Q) :
  fst (session_lookup no_caches example_trees) = Ok example_lookup
  /\ (exists d,
        dict_get "100001" example_lookup = Some d
        /\ code_count d "UAE" = 1 /\ code_count d "KSA" = 2)
  /\ relates 1 2 OneToMany
  /\ (forall rel, relates 1 2 rel -> rel = OneToMany)
  /\ fst (analyze_pairs_cached rnd [] (lookup_keys example_lookup)
            (lookup_values example_lookup) ["UAE"; "KSA"])
     = Raise AttributeError
  /\ fst (analysis_page rnd no_caches example_trees) = Some (Raise AttributeError)
  /\ (exists results stats r rest,
        analyze_pairs_cached_body rnd (lookup_keys example_lookup)
          (map snd (lookup_rebuilt example_lookup)) ["UAE"; "KSA"]
        = Ok (results, stats)
        /\ dict_get ("UAE", "KSA") results = Some (r :: rest)
        /\ row_str "HS Prefix" r = Some "100001"
        /\ row_str "Relation" r = Some (label OneToMany)).
Proof.
  split; [reflexivity|].
  split; [eexists; repeat split; reflexivity|].
  split; [apply (classify_relates 1 2)|].
  split; [apply (@relates_classify 1 2)|].
  split; [reflexivity|]. split; [reflexivity|].
  do 4 eexists. repeat split; reflexivity.
Qed.

(** C3 (the code departs from the claim).  At the prefix "100003" of the
    sample trees UAE and KSA have one code each, so that the prefix
    qualifies for the strict table.  The extractor is called with the
    entries of the lookup packed into tuples (lines 341 and 350): its first
    [market_codes.get] (line 130) raises [AttributeError].  On the page the
    call of the classifier, one line above, has raised already, and no row
    is made for any prefix.  On the entries read back into dictionaries the
    body of the extractor gives the row of the prefix. *)
Theorem extractor_on_packed_lookup (rnd : Q -> Q) :
  fst (session_lookup no_caches example_trees) = Ok example_lookup
  /\ (exists d,
        dict_get "100003" example_lookup = Some d
        /\ (forall m, In m ["UAE"; "KSA"] -> code_count d m <= 1)
        /\ with_one d ["UAE"; "KSA"] = ["UAE"; "KSA"])
  /\ fst (get_strict_one_to_one_cached [] (lookup_keys example_lookup)
            (lookup_values example_lookup) ["UAE"; "KSA"])
     = Raise AttributeError
  /\ fst (analysis_page rnd no_caches example_trees) = Some (Raise AttributeError)
  /\ (exists r,
        get_strict_one_to_one_cached_body (lookup_keys example_lookup)
          (map snd (lookup_rebuilt example_lookup)) ["UAE"; "KSA"]
        = Ok [r]
        /\ row_str "HS Prefix" r = Some "100003"
        /\ row_str "Code_UAE" r = Some "10000310"
        /\ row_str "Code_KSA" r = Some "10000399").
Proof.
  split; [reflexivity|].
  split.
  { eexists. split; [reflexivity|]. split; [|reflexivity].
    intros m [<-|[<-|[]]]; vm_compute; lia. }
  split; [reflexivity|]. split; [reflexivity|].
  eexists. repeat split; reflexivity.
Qed.

(** C4 (the code departs from the claim).  The lookup of the sample trees
    has three prefixes.  Called by the page with its entries packed into
    tuples, the classifier raises [AttributeError] and gives no count.
    Called with entries that are dictionaries, it keeps its result under
    the key [markets] alone (line 65): a later call with the same markets
    and a lookup of one prefix returns the counts of the three prefixes of
    the earlier lookup. *)
Theorem totals_on_page_and_from_memo (rnd : Q -> Q) :
  List.length (dict_keys example_lookup) = 3
  /\ fst (analyze_pairs_cached rnd [] (lookup_keys example_lookup)
            (lookup_values example_lookup) ["UAE"; "KSA"])
     = Raise AttributeError
  /\ fst (analysis_page rnd no_caches example_trees) = Some (Raise AttributeError)
  /\ (exists first c results stats s,
        analyze_pairs_cached rnd [] (lookup_keys example_lookup)
          (map MDict (map snd example_lookup)) ["UAE"; "KSA"]
        = (Ok first, c)
        /\ fst (analyze_pairs_cached rnd c ["100001"]
                  [MDict [("UAE", ["10000110"]); ("KSA", ["10000110"])]]
                  ["UAE"; "KSA"])
           = Ok (results, stats)
        /\ List.length
             (dict_keys (dict_zip ["100001"]
                           [MDict [("UAE", ["10000110"]); ("KSA", ["10000110"])]]))
           = 1
        /\ dict_get ("UAE", "KSA") stats = Some s
        /\ one_to_one (counts s) + one_to_many (counts s) + many_to_one (counts s)
           + many_to_many (counts s) + no_match (counts s) = 3).
Proof.
  split; [reflexivity|]. split; [reflexivity|]. split; [reflexivity|].
  do 5 eexists. repeat split; reflexivity.
Qed.

(** C5 (the code departs from the claim).  Called by the page with the
    entries of the lookup packed into tuples, the classifier raises
    [AttributeError] for the markets in either order, so that there are no
    counts to compare.  Called with entries that are dictionaries, it keeps
    the result of each order of the markets under its own key, whatever the
    lookup: when the memo holds a result for (KSA, UAE) from an earlier
    lookup, the two calls on the sample lookup return counts of two
    different lookups, and the OneToOne and NoMatch counts differ. *)
Theorem symmetry_on_page_and_from_memo (rnd : Q -> Q) :
  fst (analyze_pairs_cached rnd [] (lookup_keys example_lookup)
         (lookup_values example_lookup) ["UAE"; "KSA"])
  = Raise AttributeError
  /\ fst (analyze_pairs_cached rnd [] (lookup_keys example_lookup)
            (lookup_values example_lookup) ["KSA"; "UAE"])
     = Raise AttributeError
  /\ (exists earlier c0 results stats c1 results' stats' s s',
        analyze_pairs_cached rnd [] ["100001"]
          [MDict [("UAE", ["10000110"]); ("KSA", ["10000110"; "10000120"])]]
          ["KSA"; "UAE"]
        = (Ok earlier, c0)
        /\ analyze_pairs_cached rnd c0 (lookup_keys example_lookup)
             (map MDict (map snd example_lookup)) ["UAE"; "KSA"]
           = (Ok (results, stats), c1)
        /\ fst (analyze_pairs_cached rnd c1 (lookup_keys example_lookup)
                  (map MDict (map snd example_lookup)) ["KSA"; "UAE"])
           = Ok (results', stats')
        /\ dict_get ("UAE", "KSA") stats = Some s
        /\ dict_get ("KSA", "UAE") stats' = Some s'
        /\ one_to_one (counts s) = 1 /\ one_to_one (counts s') = 0
        /\ no_match (counts s) = 1 /\ no_match (counts s') = 0).
Proof.
  split; [reflexivity|]. split; [reflexivity|].
  do 9 eexists. repeat split; reflexivity.
Qed.

(** C6 (the code departs from the claim).  For the sample trees the pair
    (UAE, KSA) shares two prefixes, one of them OneToOne.  The classifier,
    called by the page with the entries of the lookup packed into tuples,
    raises [AttributeError] at line 79, before the lines 111-113 that
    compute [total_shared] and the percentage: the page stops, nothing is
    kept in the memo, and the pair has no statistics.  On the entries read
    back into dictionaries the body of the classifier gives the total 2 and
    the percentage of 1 out of 2. *)
Theorem percentage_not_reached (rnd : Q -> Q) :
  fst (session_lookup no_caches example_trees) = Ok example_lookup
  /\ analyze_pairs_cached rnd [] (lookup_keys example_lookup)
       (lookup_values example_lookup) ["UAE"; "KSA"]
     = (Raise AttributeError, [])
  /\ fst (analysis_page rnd no_caches example_trees) = Some (Raise AttributeError)
  /\ pairs_cache (snd (analysis_page rnd no_caches example_trees)) = []
  /\ (exists results stats s,
        analyze_pairs_cached_body rnd (lookup_keys example_lookup)
          (map snd (lookup_rebuilt example_lookup)) ["UAE"; "KSA"]
        = Ok (results, stats)
        /\ dict_get ("UAE", "KSA") stats = Some s
        /\ one_to_one (counts s) = 1
        /\ total_shared s = 2
        /\ percentage s
           = rnd (rnd (inject_Z (Z.of_nat 1) / inject_Z (Z.of_nat 2)) * 100)%Q).
Proof.
  split; [reflexivity|]. split; [reflexivity|]. split; [reflexivity|].
  split; [reflexivity|].
  do 3 eexists. repeat split; reflexivity.
Qed.

(** ** The prefix lookup as it is built *)

Lemma unique_fold_NoDup (l seen : list string) :
  NoDup seen ->
  NoDup (fold_left
           (fun seen x => if existsb (String.eqb x) seen then seen else seen ++ [x])
           l seen).
Proof.
  revert seen. induction l as [|x l IH]; intros seen Hseen; cbn [fold_left];
    [exact Hseen|].
  apply IH. destruct (existsb (String.eqb x) seen) eqn:E; [exact Hseen|].
  apply NoDup_app; [exact Hseen | repeat constructor; auto |].
  intros y Hy [<-|[]].
  assert (Hex : existsb (String.eqb x) seen = true); [|congruence].
  apply existsb_exists. exists x. split; [exact Hy | apply String.eqb_refl].
Qed.

Lemma unique_NoDup (l : list string) : NoDup (unique l).
Proof. apply unique_fold_NoDup. constructor. Qed.

Lemma insert_sorted_In (x y : string) (l : list string) :
  In y (insert_sorted x l) <-> y = x \/ In y l.
Proof.
  induction l as [|z l IH]; simpl; [intuition congruence|].
  destruct (String.leb x z); simpl; [intuition congruence|].
  rewrite IH. intuition congruence.
Qed.

Lemma sorted_In (y : string) (l : list string) : In y (sorted l) <-> In y l.
Proof.
  unfold sorted. induction l as [|x l IH]; simpl; [tauto|].
  rewrite insert_sorted_In, IH. intuition congruence.
Qed.

Lemma dict_set_keyed {V : Type} (f : string -> V) (k : string) (d : dict string V) :
  Forall (fun kv => snd kv = f (fst kv)) d ->
  Forall (fun kv => snd kv = f (fst kv)) (dict_set k (f k) d).
Proof.
  intros Hd. induction Hd as [|[k' v'] d Hkv Hd IH]; simpl.
  - constructor; [reflexivity | constructor].
  - destruct (String.eqb k k'); constructor; auto.
Qed.

Lemma dict_fold_keyed {V : Type} (f : string -> V) (keys : list string)
  (acc : dict string V) :
  Forall (fun kv => snd kv = f (fst kv)) acc ->
  Forall (fun kv => snd kv = f (fst kv))
    (fold_left (fun d k => dict_set k (f k) d) keys acc).
Proof.
  revert acc. induction keys as [|k keys IH]; intros acc Hacc; simpl;
    [exact Hacc|].
  apply IH. now apply dict_set_keyed.
Qed.

Lemma fold_left_of_map {A B C : Type} (f : A -> C -> A) (g : B -> C) (l : list B)
  (a : A) :
  fold_left f (map g l) a = fold_left (fun a b => f a (g b)) l a.
Proof. revert a. induction l as [|b l IH]; intros a; simpl; [reflexivity | apply IH]. Qed.

Lemma dict_fold_keyed_get {V : Type} (f : string -> V) (keys : list string)
  (acc : dict string V) (k : string) :
  In k keys ->
  dict_get k (fold_left (fun d k => dict_set k (f k) d) keys acc) = Some (f k).
Proof.
  intros Hk.
  pose proof (@dict_of_keyed_get V f keys acc k Hk) as Hget.
  rewrite fold_left_of_map in Hget. exact Hget.
Qed.

Lemma dict_set_keys_In {V : Type} (k k' : string) (v : V) (d : dict string V) :
  In k' (dict_keys (dict_set k v d)) <-> k' = k \/ In k' (dict_keys d).
Proof.
  rewrite dict_keys_set.
  destruct (existsb (key_eqb k) (dict_keys d)) eqn:E.
  - apply existsb_key_In in E. intuition congruence.
  - rewrite in_app_iff. simpl. intuition congruence.
Qed.

Lemma dict_fold_keys_In {V : Type} (f : string -> V) (keys : list string)
  (acc : dict string V) (k : string) :
  In k (dict_keys (fold_left (fun d k => dict_set k (f k) d) keys acc))
  <-> In k keys \/ In k (dict_keys acc).
Proof.
  revert acc. induction keys as [|k0 keys IH]; intros acc; simpl; [tauto|].
  rewrite IH, dict_set_keys_In. intuition congruence.
Qed.

(** The lookup has the prefixes of the records and no other; under a
    prefix, each market of [markets] has the list, without repetition, of
    the codes of its records with this prefix, so that the length of the
    list is the number of its distinct codes. *)
Lemma build_prefix_lookup_spec (_df : list code_record) (markets : list string) :
  let lookup := build_prefix_lookup_body _df markets in
  NoDup (dict_keys lookup)
  /\ (forall pfx, In pfx (dict_keys lookup) <-> exists r, In r _df /\ prefix r = pfx)
  /\ (forall pfx d m, In (pfx, d) lookup -> In m markets ->
        exists codes,
          dict_get m d = Some codes
          /\ NoDup codes
          /\ forall c, In c codes
               <-> exists r, In r _df /\ prefix r = pfx /\ market r = m
                             /\ hs_code r = c).
Proof.
  cbv zeta. unfold build_prefix_lookup_body.
  change (fun lookup pfx =>
            dict_set pfx
              (fold_left
                 (fun inner mkt =>
                    dict_set mkt
                      (group_codes
                         (filter (fun r => String.eqb (prefix r) pfx) _df) mkt)
                      inner)
                 markets [])
              lookup)
    with (fun lookup pfx => dict_set pfx (inner_of _df markets pfx) lookup).
  split; [|split].
  - generalize (sorted (unique (map prefix _df))) as keys.
    intros keys. generalize (@NoDup_nil string).
    change (@nil string) with (dict_keys (@nil (string * dict string (list string)))).
    generalize (@nil (string * dict string (list string))) as acc.
    induction keys as [|k keys IH]; intros acc Hacc; simpl; [exact Hacc|].
    apply IH. now apply dict_set_NoDup.
  - intros pfx. rewrite dict_fold_keys_In, sorted_In, unique_In, in_map_iff.
    simpl. split.
    + intros [(r & Hp & Hr)|[]]. now exists r.
    + intros (r & Hr & Hp). left. now exists r.
  - intros pfx d m Hin Hm.
    pose proof (dict_fold_keyed (inner_of _df markets)
                  (sorted (unique (map prefix _df))) (Forall_nil _)) as Hkeyed.
    rewrite Forall_forall in Hkeyed. specialize (Hkeyed _ Hin). cbn in Hkeyed.
    subst d. unfold inner_of.
    rewrite (dict_fold_keyed_get
               (group_codes (filter (fun r => String.eqb (prefix r) pfx) _df))
               markets [] m Hm).
    eexists. split; [reflexivity|]. split; [apply unique_NoDup|].
    intros c. unfold group_codes. rewrite unique_In, in_map_iff. split.
    + intros (r & Hc & Hr). apply filter_In in Hr. destruct Hr as [Hr Hmk].
      apply filter_In in Hr. destruct Hr as [Hr Hp].
      apply String.eqb_eq in Hmk, Hp. now exists r.
    + intros (r & Hr & Hp & Hmk & Hc). exists r. split; [exact Hc|].
      apply filter_In. split; [|now apply String.eqb_eq].
      apply filter_In. split; [exact Hr | now apply String.eqb_eq].
Qed.

(* ================================================================= *)
(** * Further properties *)

(** ** What the memo of each function holds *)

Lemma lookup_cache_values (c : cache built_lookup) :
  lookup_cache_reachable c ->
  forall markets lookup,
    dict_get markets c = Some lookup ->
    exists records, lookup = build_prefix_lookup_body records markets.
Proof.
  induction 1 as [|c _df markets0 _ IH]; intros markets lookup Hget;
    [discriminate|].
  apply cache_data_kept in Hget.
  destruct Hget as [Hget|(_ & -> & [= <-])]; [now apply IH | now exists _df].
Qed.

Lemma pairs_cache_values (rnd : Q -> Q) (c : cache (results_t * stats_t)) :
  pairs_cache_reachable rnd c ->
  forall markets v,
    dict_get markets c = Some v ->
    exists keys vals, analyze_pairs_cached_body rnd keys vals markets = Ok v.
Proof.
  induction 1 as [|c keys0 vals0 markets0 _ IH]; intros markets v Hget;
    [discriminate|].
  apply cache_data_kept in Hget.
  destruct Hget as [Hget|(_ & -> & Hbody)]; [now apply IH | now exists keys0, vals0].
Qed.

Lemma strict_cache_values (c : cache (list row)) :
  strict_cache_reachable c ->
  forall markets rows,
    dict_get markets c = Some rows ->
    exists keys vals, get_strict_one_to_one_cached_body keys vals markets = Ok rows.
Proof.
  induction 1 as [|c keys0 vals0 markets0 _ IH]; intros markets rows Hget;
    [discriminate|].
  apply cache_data_kept in Hget.
  destruct Hget as [Hget|(_ & -> & Hbody)]; [now apply IH | now exists keys0, vals0].
Qed.

(** The builder returns, and what it returns was built for the same
    markets: from the records passed when the memo holds nothing for
    them. *)
Lemma build_prefix_lookup_returns (c : cache built_lookup)
  (_df : list code_record) (markets : list string) :
  lookup_cache_reachable c ->
  exists records,
    fst (build_prefix_lookup c _df markets)
    = Ok (build_prefix_lookup_body records markets)
    /\ (dict_get markets c = None -> records = _df).
Proof.
  intros Hc. unfold build_prefix_lookup.
  destruct (dict_get markets c) as [lookup|] eqn:Hget.
  - destruct (lookup_cache_values Hc _ Hget) as [records ->].
    exists records. rewrite (cache_data_hit _ _ _ Hget). split; [reflexivity|].
    discriminate.
  - exists _df. rewrite (cache_data_miss _ _ _ Hget). auto.
Qed.

(** What the classifier returns was computed by its body for the same
    markets: on the lookup passed when the memo holds nothing for them. *)
Lemma analyze_pairs_cached_returns (rnd : Q -> Q) (c : cache (results_t * stats_t))
  (keys : list string) (vals : list market_codes) (markets : list string)
  (v : results_t * stats_t) :
  pairs_cache_reachable rnd c ->
  fst (analyze_pairs_cached rnd c keys vals markets) = Ok v ->
  exists keys' vals',
    analyze_pairs_cached_body rnd keys' vals' markets = Ok v
    /\ (dict_get markets c = None -> keys' = keys /\ vals' = vals).
Proof.
  intros Hc Hrun. apply cache_data_returns in Hrun.
  destruct Hrun as [_ [Hhit|[Hmiss Hbody]]].
  - destruct (pairs_cache_values Hc _ Hhit) as (keys' & vals' & Hbody).
    exists keys', vals'. split; [exact Hbody|]. congruence.
  - exists keys, vals. auto.
Qed.

Lemma get_strict_cached_returns (c : cache (list row))
  (keys : list string) (vals : list market_codes) (markets : list string)
  (rows : list row) :
  strict_cache_reachable c ->
  fst (get_strict_one_to_one_cached c keys vals markets) = Ok rows ->
  exists keys' vals',
    get_strict_one_to_one_cached_body keys' vals' markets = Ok rows
    /\ (dict_get markets c = None -> keys' = keys /\ vals' = vals).
Proof.
  intros Hc Hrun. apply cache_data_returns in Hrun.
  destruct Hrun as [_ [Hhit|[Hmiss Hbody]]].
  - destruct (strict_cache_values Hc _ Hhit) as (keys' & vals' & Hbody).
    exists keys', vals'. split; [exact Hbody|]. congruence.
  - exists keys, vals. auto.
Qed.

(** A loop of the classifier or of the extractor that comes to its end has
    met dictionaries only. *)
Lemma pair_loop_dicts (A B : string) (lookup : lookup_t)
  (acc acc' : list row * rel_counts) :
  for_each (pair_step A B) lookup acc = Ok acc' ->
  exists items, lookup = as_lookup items.
Proof.
  revert acc. induction lookup as [|[pfx mc] lookup IH]; intros acc Hrun.
  - now exists [].
  - cbn [for_each] in Hrun. destruct mc as [d|tuple].
    + destruct acc as [rows s].
      pose proof (pair_step_dict A B rows s (pfx, d)) as E. cbn [fst snd] in E.
      rewrite E in Hrun. cbn [bind] in Hrun.
      destruct (IH _ Hrun) as [items ->]. now exists ((pfx, d) :: items).
    + destruct acc as [rows s]. discriminate Hrun.
Qed.

Lemma strict_loop_dicts (markets : list string) (lookup : lookup_t)
  (rows rows' : list row) :
  markets <> [] ->
  for_each (strict_step markets) lookup rows = Ok rows' ->
  exists items, lookup = as_lookup items.
Proof.
  intros Hmk. revert rows. induction lookup as [|[pfx mc] lookup IH]; intros rows Hrun.
  - now exists [].
  - cbn [for_each] in Hrun. destruct mc as [d|tuple].
    + pose proof (strict_step_dict markets rows (pfx, d)) as E. cbn [fst snd] in E.
      rewrite E in Hrun. cbn [bind] in Hrun.
      destruct (IH _ Hrun) as [items ->]. now exists ((pfx, d) :: items).
    + destruct markets as [|m markets]; [congruence | discriminate Hrun].
Qed.

Lemma as_lookup_keys (items : built_lookup) :
  dict_keys (as_lookup items) = dict_keys items.
Proof. unfold as_lookup, dict_keys. rewrite map_map. reflexivity. Qed.

Lemma as_lookup_inj (items items' : built_lookup) :
  as_lookup items = as_lookup items' -> items = items'.
Proof.
  revert items'. induction items as [|[k d] items IH]; intros [|[k' d'] items'];
    simpl; try discriminate; [reflexivity|].
  intros [= -> -> E]. now rewrite (IH _ E).
Qed.

(** The report and the statistics of a pair in what the classifier
    returns: those of a lookup of dictionaries without repeated prefix,
    which is the lookup passed when the memo holds nothing for the
    markets. *)
Lemma analyze_pairs_cached_report (rnd : Q -> Q) (c : cache (results_t * stats_t))
  (keys : list string) (vals : list market_codes) (markets : list string)
  (results : results_t) (stats : stats_t) (A B : string) :
  pairs_cache_reachable rnd c ->
  fst (analyze_pairs_cached rnd c keys vals markets) = Ok (results, stats) ->
  In (A, B) (combinations2 markets) ->
  exists items,
    (dict_get markets c = None -> dict_zip keys vals = as_lookup items)
    /\ NoDup (dict_keys items)
    /\ dict_get (A, B) results = Some (map (pair_row A B) items)
    /\ dict_get (A, B) stats = Some (finish_stats rnd (tally A B items zero_counts)).
Proof.
  intros Hc Hrun HAB.
  destruct (@analyze_pairs_cached_returns rnd c keys vals markets _ Hc Hrun)
    as (keys' & vals' & Hbody & Hmiss).
  assert (Hitems : exists items, dict_zip keys' vals' = as_lookup items).
  { unfold analyze_pairs_cached_body in Hbody.
    destruct (combinations2 markets) as [|[A0 B0] combos]; [contradiction|].
    cbn [for_each] in Hbody. unfold analyze_pair in Hbody.
    destruct (for_each (pair_step A0 B0) (dict_zip keys' vals') ([], zero_counts))
      as [acc'|e] eqn:Hloop; [|discriminate Hbody].
    exact (@pair_loop_dicts _ _ _ _ _ Hloop). }
  destruct Hitems as [items Hitems]. exists items.
  split; [intros Hnone; destruct (Hmiss Hnone) as [<- <-]; exact Hitems|].
  split.
  { rewrite <- as_lookup_keys, <- Hitems. apply dict_zip_NoDup. }
  destruct (@analyze_pairs_body_items rnd items keys' vals' markets Hitems)
    as (results' & stats' & Hbody' & Hpairs).
  rewrite Hbody in Hbody'. injection Hbody' as <- <-.
  exact (Hpairs A B HAB).
Qed.


(** ** Sorting and the sample codes of a row *)

Lemma insert_sorted_Sorted (x : string) (l : list string) :
  Sorted str_le l -> Sorted str_le (insert_sorted x l).
Proof.
  induction l as [|y l IH]; intros Hl; simpl.
  - repeat constructor.
  - destruct (String.leb x y) eqn:E.
    + constructor; [exact Hl | constructor; exact E].
    + inversion Hl as [|? ? Hl' Hhd]; subst.
      constructor; [now apply IH|].
      assert (Hyx : str_le y x).
      { destruct (String.leb_total x y) as [H|H]; [congruence | exact H]. }
      destruct l as [|z l]; simpl; [now constructor|].
      destruct (String.leb x z); constructor; [exact Hyx|].
      now inversion Hhd.
Qed.

Lemma sorted_Sorted (l : list string) : Sorted str_le (sorted l).
Proof.
  unfold sorted. induction l as [|x l IH]; simpl; [constructor|].
  now apply insert_sorted_Sorted.
Qed.

Lemma insert_sorted_Permutation (x : string) (l : list string) :
  Permutation (insert_sorted x l) (x :: l).
Proof.
  induction l as [|y l IH]; simpl; [reflexivity|].
  destruct (String.leb x y); [reflexivity|].
  rewrite IH. apply perm_swap.
Qed.

Lemma sorted_Permutation (l : list string) : Permutation (sorted l) l.
Proof.
  unfold sorted. induction l as [|x l IH]; simpl; [reflexivity|].
  rewrite insert_sorted_Permutation. now constructor.
Qed.

Lemma sorted_length (l : list string) : List.length (sorted l) = List.length l.
Proof. apply Permutation_length, sorted_Permutation. Qed.

Lemma str_of_nat_small_inj (i j : nat) :
  1 <= i <= 5 -> 1 <= j <= 5 -> str_of_nat i = str_of_nat j -> i = j.
Proof.
  intros Hi Hj.
  destruct i as [|[|[|[|[|[|i]]]]]]; try lia;
    destruct j as [|[|[|[|[|[|j]]]]]]; try lia;
    intros E; try reflexivity; discriminate E.
Qed.

Lemma str_of_nat_small_length (i : nat) :
  1 <= i <= 5 -> String.length (str_of_nat i) = 1.
Proof. intros Hi. destruct i as [|[|[|[|[|[|i]]]]]]; try lia; reflexivity. Qed.

Lemma append_same_length_inj (a b x y : string) :
  String.length x = String.length y ->
  (a ++ x)%string = (b ++ y)%string -> a = b /\ x = y.
Proof.
  intros Hlen. revert b. induction a as [|c a IH]; intros [|d b] E; simpl in E.
  - auto.
  - apply (f_equal String.length) in E. simpl in E. rewrite length_append in E. lia.
  - apply (f_equal String.length) in E. simpl in E. rewrite length_append in E. lia.
  - injection E as -> E. destruct (IH b E) as [-> ->]. auto.
Qed.

Lemma sample_key_inj (name name' : string) (i j : nat) :
  1 <= i <= 5 -> 1 <= j <= 5 ->
  sample_key name i = sample_key name' j -> name = name' /\ i = j.
Proof.
  intros Hi Hj E. unfold sample_key in E.
  apply append_same_length_inj in E.
  - destruct E as [-> E]. split; [reflexivity|].
    apply append_inj_l in E. now apply str_of_nat_small_inj.
  - rewrite !length_append, !str_of_nat_small_length by assumption. reflexivity.
Qed.

Lemma dict_fold_get_other {K V : Type} `{Hashable K} (pairs : list (K * V))
  (acc : dict K V) (k : K) :
  ~ In k (map fst pairs) ->
  dict_get k (fold_left (fun d kv => dict_set (fst kv) (snd kv) d) pairs acc)
  = dict_get k acc.
Proof.
  revert acc. induction pairs as [|[k' v'] pairs IH]; intros acc Hk; simpl;
    [reflexivity|].
  simpl in Hk. rewrite IH by tauto. apply dict_get_set_neq. tauto.
Qed.

Lemma dict_fold_get_in {K V : Type} `{Hashable K} (pairs : list (K * V))
  (acc : dict K V) (k : K) (v : V) :
  NoDup (map fst pairs) -> In (k, v) pairs ->
  dict_get k (fold_left (fun d kv => dict_set (fst kv) (snd kv) d) pairs acc)
  = Some v.
Proof.
  revert acc. induction pairs as [|[k' v'] pairs IH]; intros acc Hnd Hin;
    simpl in *; [contradiction|].
  inversion Hnd as [|? ? Hnotin Hnd']; subst.
  destruct Hin as [[= -> ->]|Hin].
  - rewrite dict_fold_get_other by exact Hnotin. apply dict_get_set_eq.
  - now apply IH.
Qed.

Lemma add_codes_fold (name : string) (codes : list string) (r : row) :
  add_codes name codes r
  = fold_left (fun d kv => dict_set (fst kv) (snd kv) d) (code_cells name codes) r.
Proof. unfold add_codes, code_cells. now rewrite fold_left_of_map. Qed.

Lemma enumerate_nth {X : Type} (l : list X) (start i : nat) (x : X) :
  nth_error l i = Some x -> In (start + i, x) (enumerate start l).
Proof.
  revert start i. induction l as [|y l IH]; intros start [|i]; simpl; try discriminate.
  - intros [= ->]. left. f_equal. lia.
  - intros H. right. replace (start + S i) with (S start + i) by lia. now apply IH.
Qed.

Lemma enumerate_In_nth {X : Type} (l : list X) (start i : nat) (x : X) :
  In (i, x) (enumerate start l) -> nth_error l (i - start) = Some x /\ start <= i.
Proof.
  revert start. induction l as [|y l IH]; intros start; simpl; [intros []|].
  intros [[= <- <-]|Hin].
  - rewrite Nat.sub_diag. auto.
  - apply IH in Hin. destruct Hin as [Hn Hle].
    replace (i - start) with (S (i - S start)) by lia. simpl. split; [exact Hn | lia].
Qed.

Lemma enumerate_index_NoDup {X : Type} (l : list X) (start : nat) :
  NoDup (map fst (enumerate start l)).
Proof.
  revert start. induction l as [|x l IH]; intros start; simpl; constructor;
    [|apply IH].
  intros Hin. apply in_map_iff in Hin. destruct Hin as ([j y] & Hj & Hin).
  simpl in Hj. subst j. apply enumerate_bounds in Hin. lia.
Qed.

Lemma code_cells_keys_NoDup (name : string) (codes : list string) :
  NoDup (map fst (code_cells name codes)).
Proof.
  unfold code_cells. rewrite map_map. cbn [fst].
  assert (Hb : forall i c, In (i, c) (enumerate 1 (firstn 5 (sorted codes))) ->
                           1 <= i <= 5).
  { intros i c Hin. apply enumerate_bounds in Hin.
    pose proof (firstn_le_length 5 (sorted codes)). lia. }
  pose proof (enumerate_index_NoDup (firstn 5 (sorted codes)) 1) as Hidx.
  revert Hb Hidx. generalize (enumerate 1 (firstn 5 (sorted codes))) as l.
  induction l as [|[i c] l IH]; intros Hb Hidx; simpl; constructor.
  - intros Hin. apply in_map_iff in Hin. destruct Hin as ([j d] & Hkey & Hin).
    simpl in Hkey. apply sample_key_inj in Hkey.
    + destruct Hkey as [_ ->]. inversion Hidx as [|? ? Hnotin _]; subst.
      apply Hnotin. apply in_map_iff. exists (i, d). auto.
    + eapply Hb. right. exact Hin.
    + eapply Hb. left. reflexivity.
  - apply IH; [intros j d Hin; eapply Hb; right; exact Hin|].
    now inversion Hidx.
Qed.

(** The sample cells of a market after [add_codes]: the cell number
    [i + 1] holds the code at position [i] of the sorted codes, for the
    first five positions. *)
Lemma add_codes_cell (name : string) (codes : list string) (r : row)
  (i : nat) (c : string) :
  i < 5 -> nth_error (sorted codes) i = Some c ->
  dict_get (sample_key name (S i)) (add_codes name codes r) = Some (VStr c).
Proof.
  intros Hi Hc. rewrite add_codes_fold.
  apply dict_fold_get_in; [apply code_cells_keys_NoDup|].
  unfold code_cells. apply in_map_iff. exists (S i, c). split; [reflexivity|].
  change (S i) with (1 + i). apply enumerate_nth.
  rewrite nth_error_firstn. destruct (Nat.ltb_spec i 5); [exact Hc | lia].
Qed.

(** A key that is no sample key of the market is left as it was. *)
Lemma add_codes_untouched (name : string) (codes : list string) (r : row)
  (key : string) :
  (forall i, 1 <= i <= Nat.min 5 (List.length codes) -> key <> sample_key name i) ->
  dict_get key (add_codes name codes r) = dict_get key r.
Proof.
  intros Hkey. rewrite add_codes_fold. apply dict_fold_get_other.
  unfold code_cells. rewrite map_map. cbn [fst]. intros Hin.
  apply in_map_iff in Hin. destruct Hin as ([i c] & <- & Hin).
  apply enumerate_bounds in Hin. rewrite length_firstn, sorted_length in Hin.
  apply (Hkey i); [simpl in *; lia | reflexivity].
Qed.

Lemma sample_key_ends_in_digit (name : string) (i : nat) :
  1 <= i <= 5 -> ends_in_digit (sample_key name i) = true.
Proof. apply code_key_ends_in_digit. Qed.

Lemma ends_in_digit_neq (k k' : string) :
  ends_in_digit k = true -> ends_in_digit k' = false -> k <> k'.
Proof. intros Hk Hk' ->. congruence. Qed.

Lemma pair_row_samples (A B : string) (item : string * dict string (list string)) :
  samples_ok A (dict_get_default A [] (snd item)) (pair_row A B item)
  /\ samples_ok B (dict_get_default B [] (snd item)) (pair_row A B item)
  /\ (A <> B ->
      samples_end A (dict_get_default A [] (snd item)) (pair_row A B item)
      /\ samples_end B (dict_get_default B [] (snd item)) (pair_row A B item)).
Proof.
  unfold pair_row, samples_ok, samples_end, row_str.
  set (codes_A := dict_get_default A [] (snd item)).
  set (codes_B := dict_get_default B [] (snd item)).
  set (r0 := dict_of _).
  assert (Hbase : forall name i, 1 <= i <= 5 -> dict_get (sample_key name i) r0 = None).
  { intros name i Hi. unfold r0, dict_of. cbn [fold_left fst snd].
    pose proof (sample_key_ends_in_digit name Hi) as Hd.
    rewrite !dict_get_set_neq; [reflexivity| | | |];
      apply not_eq_sym, (ends_in_digit_neq Hd);
      try apply count_key_no_digit; reflexivity. }
  split; [|split].
  - intros i c Hi Hc. destruct (string_dec A B) as [<-|Hne].
    + now rewrite (add_codes_cell A codes_A _ Hi Hc).
    + rewrite add_codes_untouched.
      * now rewrite (add_codes_cell A codes_A _ Hi Hc).
      * intros j Hj E. apply sample_key_inj in E; [tauto | lia | lia].
  - intros i c Hi Hc. now rewrite (add_codes_cell B codes_B _ Hi Hc).
  - intros Hne. split; intros i Hi.
    + rewrite !add_codes_untouched; [apply Hbase; lia | |].
      * intros j Hj E. apply sample_key_inj in E; [lia | lia | lia].
      * intros j Hj E. apply sample_key_inj in E; [tauto | lia | lia].
    + rewrite !add_codes_untouched; [apply Hbase; lia | |].
      * intros j Hj E. apply sample_key_inj in E; [|lia|lia].
        destruct E as [E _]. congruence.
      * intros j Hj E. apply sample_key_inj in E; [lia | lia | lia].
Qed.

(** X1.  In a pair report that the classifier returns, whatever calls came
    before, the rows are those of the prefixes of a lookup of dictionaries,
    which is the lookup passed when the memo holds nothing for the markets.
    The cell [<market>_Code_<i>] of a row holds the [i]-th code of the
    market at the prefix in sorted order, for [i] up to five and up to the
    number of codes; the count cells hold the full numbers of codes, also
    above five; and for two different markets the sample cells past the
    last code are absent. *)
Theorem pair_report_samples (rnd : Q -> Q) (c : cache (results_t * stats_t))
  (keys : list string) (vals : list market_codes) (markets : list string)
  (results : results_t) (stats : stats_t) (A B : string) :
  pairs_cache_reachable rnd c ->
  fst (analyze_pairs_cached rnd c keys vals markets) = Ok (results, stats) ->
  In (A, B) (combinations2 markets) ->
  exists items rows,
    (dict_get markets c = None -> dict_zip keys vals = as_lookup items)
    /\ dict_get (A, B) results = Some rows
    /\ Forall2
         (fun item r =>
            let codes_A := dict_get_default A [] (snd item) in
            let codes_B := dict_get_default B [] (snd item) in
            Sorted str_le (sorted codes_A) /\ Permutation (sorted codes_A) codes_A
            /\ Sorted str_le (sorted codes_B) /\ Permutation (sorted codes_B) codes_B
            /\ samples_ok A codes_A r /\ samples_ok B codes_B r
            /\ row_int (A ++ "_Count") r = Some (List.length codes_A)
            /\ row_int (B ++ "_Count") r = Some (List.length codes_B)
            /\ (A <> B -> samples_end A codes_A r /\ samples_end B codes_B r))
         items rows.
Proof.
  intros Hc Hrun HAB.
  destruct (@analyze_pairs_cached_report rnd c keys vals markets results stats
              A B Hc Hrun HAB) as (items & Hmiss & _ & Hrows & _).
  exists items. eexists. split; [exact Hmiss|]. split; [exact Hrows|].
  clear. induction items as [|item items IH]; simpl; constructor; [|exact IH].
  destruct (pair_row_samples A B item) as (HA & HB & Hend).
  destruct (pair_row_cells A B item) as (_ & _ & HcA & HcB).
  repeat split; auto using sorted_Sorted, sorted_Permutation; now apply Hend.
Qed.

(** The samples on the sample lookup, for the pair (UAE, KSA), on a first
    call. *)
Lemma pair_report_samples_witness :
  exists results stats,
    fst (analyze_pairs_cached (fun q => q) [] (lookup_keys example_lookup)
           (map MDict (map snd example_lookup)) ["UAE"; "KSA"])
    = Ok (results, stats)
    /\ exists items rows,
         (dict_get ["UAE"; "KSA"] (@nil (list string * (results_t * stats_t))) = None ->
          dict_zip (lookup_keys example_lookup) (map MDict (map snd example_lookup))
          = as_lookup items)
         /\ dict_get ("UAE", "KSA") results = Some rows
         /\ Forall2
              (fun item r =>
                 let codes_A := dict_get_default "UAE" [] (snd item) in
                 let codes_B := dict_get_default "KSA" [] (snd item) in
                 Sorted str_le (sorted codes_A) /\ Permutation (sorted codes_A) codes_A
                 /\ Sorted str_le (sorted codes_B)
                 /\ Permutation (sorted codes_B) codes_B
                 /\ samples_ok "UAE" codes_A r /\ samples_ok "KSA" codes_B r
                 /\ row_int ("UAE" ++ "_Count") r = Some (List.length codes_A)
                 /\ row_int ("KSA" ++ "_Count") r = Some (List.length codes_B)
                 /\ ("UAE" <> "KSA" ->
                     samples_end "UAE" codes_A r /\ samples_end "KSA" codes_B r))
              items rows.
Proof.
  do 2 eexists. split; [reflexivity|].
  eapply (@pair_report_samples (fun q => q) [] (lookup_keys example_lookup)
           (map MDict (map snd example_lookup)) ["UAE"; "KSA"] _ _ "UAE" "KSA").
  - constructor.
  - reflexivity.
  - simpl. left. reflexivity.
Defined.

(** ** The counters and the rows of a pair report *)

Lemma relation_eqb_spec (r r' : relation) : reflect (r = r') (relation_eqb r r').
Proof. destruct r, r'; constructor; congruence. Qed.

Lemma label_eqb (r r' : relation) : String.eqb (label r) (label r') = relation_eqb r r'.
Proof. destruct r, r'; reflexivity. Qed.

Lemma label_not_All (r : relation) : String.eqb (label r) "All" = false.
Proof. destruct r; reflexivity. Qed.

Lemma count_of_incr (r r' : relation) (s : rel_counts) :
  count_of r (incr r' s) = count_of r s + (if relation_eqb r' r then 1 else 0).
Proof. destruct r, r'; simpl; lia. Qed.

Lemma count_of_tally (r : relation) (A B : string) (items : built_lookup)
  (s : rel_counts) :
  count_of r (tally A B items s)
  = count_of r s + List.length (prefixes_with r A B items).
Proof.
  revert s. induction items as [|item items IH]; intros s.
  - simpl. lia.
  - rewrite tally_cons, IH, count_of_incr. unfold prefixes_with. cbn [filter].
    destruct (relation_eqb _ r); simpl; lia.
Qed.

Lemma rows_with_pair_rows (r : relation) (A B : string) (items : built_lookup) :
  rows_with r (map (pair_row A B) items)
  = map (pair_row A B) (prefixes_with r A B items).
Proof.
  unfold rows_with, prefixes_with.
  induction items as [|item items IH]; simpl; [reflexivity|].
  destruct (pair_row_cells A B item) as (_ & -> & _).
  rewrite label_eqb.
  destruct (relation_eqb
              (classify (code_count (snd item) A) (code_count (snd item) B)) r);
    simpl; now rewrite IH.
Qed.

Lemma has_column_pair_rows (A B : string) (items : built_lookup) :
  has_column "Relation" (map (pair_row A B) items)
  = match items with
    | [] => false
    | _ :: _ => true
    end.
Proof.
  destruct items as [|item items]; [reflexivity|]. cbn [map has_column existsb].
  destruct (pair_row_cells A B item) as (_ & Hrel & _). unfold row_str in Hrel.
  now destruct (dict_get "Relation" (pair_row A B item)).
Qed.

(** The filter of line 425 for the label of a relation. *)
Lemma filter_rows_label (r : relation) (rows : list row) :
  filter_rows (label r) rows
  = if has_column "Relation" rows then Ok (rows_with r rows) else Raise KeyError.
Proof.
  unfold filter_rows, rows_with. rewrite label_not_All.
  destruct (has_column "Relation" rows); [|reflexivity].
  f_equal. apply filter_ext. intros row. unfold row_str.
  now destruct (dict_get "Relation" row) as [[s|n]|].
Qed.

Lemma filter_complement_length {X : Type} (p : X -> bool) (l : list X) :
  List.length (filter p l) + List.length (filter (fun x => negb (p x)) l)
  = List.length l.
Proof.
  induction l as [|x l IH]; simpl; [reflexivity|].
  destruct (p x); simpl; lia.
Qed.

(** X2.  In what the classifier returns, whatever calls came before, the
    counter of a relation in the statistics of a pair is the number of the
    rows of the pair report that carry this relation.  The filter "All"
    shows every row; on a report with a row the filter of a relation shows
    the rows that carry it; on a report without rows, which has no column,
    the filter of a relation raises [KeyError]. *)
Theorem counters_count_rows (rnd : Q -> Q) (c : cache (results_t * stats_t))
  (keys : list string) (vals : list market_codes) (markets : list string)
  (results : results_t) (stats : stats_t) (A B : string) :
  pairs_cache_reachable rnd c ->
  fst (analyze_pairs_cached rnd c keys vals markets) = Ok (results, stats) ->
  In (A, B) (combinations2 markets) ->
  exists rows s,
    dict_get (A, B) results = Some rows
    /\ dict_get (A, B) stats = Some s
    /\ filter_rows "All" rows = Ok rows
    /\ forall r,
         count_of r (counts s) = List.length (rows_with r rows)
         /\ Forall (fun row => row_str "Relation" row = Some (label r))
              (rows_with r rows)
         /\ (rows <> [] -> filter_rows (label r) rows = Ok (rows_with r rows))
         /\ (rows = [] -> filter_rows (label r) rows = Raise KeyError).
Proof.
  intros Hc Hrun HAB.
  destruct (@analyze_pairs_cached_report rnd c keys vals markets results stats
              A B Hc Hrun HAB) as (items & _ & _ & Hrows & Hs).
  do 2 eexists. split; [exact Hrows|]. split; [exact Hs|].
  split; [reflexivity|]. intros r.
  rewrite filter_rows_label, has_column_pair_rows, rows_with_pair_rows.
  split; [|split; [|split]].
  - rewrite length_map. cbn [counts finish_stats].
    rewrite count_of_tally. destruct r; reflexivity.
  - apply Forall_forall. intros row Hrow. apply in_map_iff in Hrow.
    destruct Hrow as (item & <- & Hitem). unfold prefixes_with in Hitem.
    apply filter_In in Hitem. destruct Hitem as [_ Hr].
    destruct (relation_eqb_spec
                (classify (code_count (snd item) A) (code_count (snd item) B)) r)
      as [<-|]; [|discriminate].
    apply pair_row_cells.
  - destruct items; [intros Hne; now elim Hne | reflexivity].
  - destruct items; [reflexivity | discriminate].
Qed.

(** The counters and the rows on the sample lookup, on a first call. *)
Lemma counters_count_rows_witness :
  exists results stats,
    fst (analyze_pairs_cached (fun q => q) [] (lookup_keys example_lookup)
           (map MDict (map snd example_lookup)) ["UAE"; "KSA"])
    = Ok (results, stats)
    /\ exists rows s,
         dict_get ("UAE", "KSA") results = Some rows
         /\ dict_get ("UAE", "KSA") stats = Some s
         /\ filter_rows "All" rows = Ok rows
         /\ forall r,
              count_of r (counts s) = List.length (rows_with r rows)
              /\ Forall (fun row => row_str "Relation" row = Some (label r))
                   (rows_with r rows)
              /\ (rows <> [] -> filter_rows (label r) rows = Ok (rows_with r rows))
              /\ (rows = [] -> filter_rows (label r) rows = Raise KeyError).
Proof.
  do 2 eexists. split; [reflexivity|].
  eapply (@counters_count_rows (fun q => q) [] (lookup_keys example_lookup)
           (map MDict (map snd example_lookup)) ["UAE"; "KSA"] _ _ "UAE" "KSA").
  - constructor.
  - reflexivity.
  - simpl. left. reflexivity.
Defined.

(** X3.  In the statistics that the classifier returns for a pair,
    whatever calls came before, [total_shared] counts the prefixes at which
    both markets have a code and [no_match] those at which one of them has
    none, in a lookup of dictionaries without repeated prefix, which is the
    lookup passed when the memo holds nothing for the markets; the two add
    up to the number of prefixes of this lookup. *)
Theorem total_shared_meaning (rnd : Q -> Q) (c : cache (results_t * stats_t))
  (keys : list string) (vals : list market_codes) (markets : list string)
  (results : results_t) (stats : stats_t) (A B : string) :
  pairs_cache_reachable rnd c ->
  fst (analyze_pairs_cached rnd c keys vals markets) = Ok (results, stats) ->
  In (A, B) (combinations2 markets) ->
  exists items s,
    (dict_get markets c = None -> dict_zip keys vals = as_lookup items)
    /\ NoDup (dict_keys items)
    /\ dict_get (A, B) stats = Some s
    /\ total_shared s
       = List.length
           (filter (fun item => (0 <? code_count (snd item) A)
                                && (0 <? code_count (snd item) B))
                   items)
    /\ no_match (counts s)
       = List.length
           (filter (fun item => (code_count (snd item) A =? 0)
                                || (code_count (snd item) B =? 0))
                   items)
    /\ total_shared s + no_match (counts s) = List.length (dict_keys items)
    /\ one_to_one (counts s) <= total_shared s.
Proof.
  intros Hc Hrun HAB.
  destruct (@analyze_pairs_cached_report rnd c keys vals markets results stats
              A B Hc Hrun HAB) as (items & Hmiss & Hnd & _ & Hs).
  exists items. eexists. split; [exact Hmiss|]. split; [exact Hnd|].
  split; [exact Hs|].
  cbn [counts total_shared finish_stats].
  pose proof (counts_sum_tally A B items zero_counts) as Hsum.
  pose proof (count_of_tally NoMatch A B items zero_counts) as Hnm.
  unfold counts_sum in Hsum. cbn [count_of] in Hnm. simpl in Hsum, Hnm.
  assert (Hfilter : prefixes_with NoMatch A B items
                    = filter (fun item => (code_count (snd item) A =? 0)
                                          || (code_count (snd item) B =? 0)) items).
  { unfold prefixes_with. apply filter_ext. intros item.
    destruct (code_count (snd item) A) as [|[|cA]];
      destruct (code_count (snd item) B) as [|[|cB]]; reflexivity. }
  rewrite Hfilter in Hnm.
  pose proof (filter_complement_length
                (fun item => (code_count (snd item) A =? 0)
                             || (code_count (snd item) B =? 0)) items) as Hcompl.
  assert (Hboth : filter (fun item => negb ((code_count (snd item) A =? 0)
                                            || (code_count (snd item) B =? 0))) items
                  = filter (fun item => (0 <? code_count (snd item) A)
                                        && (0 <? code_count (snd item) B)) items).
  { apply filter_ext. intros item.
    destruct (code_count (snd item) A), (code_count (snd item) B); reflexivity. }
  cbv beta in Hcompl. rewrite Hboth in Hcompl.
  unfold dict_keys. rewrite length_map.
  repeat split; lia.
Qed.

(** On the sample lookup, on a first call: two shared prefixes among
    three. *)
Lemma total_shared_meaning_witness :
  exists results stats s,
    fst (analyze_pairs_cached (fun q => q) [] (lookup_keys example_lookup)
           (map MDict (map snd example_lookup)) ["UAE"; "KSA"])
    = Ok (results, stats)
    /\ dict_get ("UAE", "KSA") stats = Some s
    /\ total_shared s = 2 /\ no_match (counts s) = 1.
Proof.
  do 2 eexists.
  destruct (@total_shared_meaning (fun q => q) [] (lookup_keys example_lookup)
              (map MDict (map snd example_lookup)) ["UAE"; "KSA"] _ _ "UAE" "KSA"
              (pairs_cache_start _) eq_refl (or_introl eq_refl))
    as (items & s & _ & _ & Hs & _).
  exists s. split; [reflexivity|]. split; [exact Hs|].
  vm_compute in Hs. injection Hs as <-. split; reflexivity.
Defined.

(** ** The pairs of markets *)

Lemma combinations2_In {X : Type} (l : list X) (a b : X) :
  In (a, b) (combinations2 l) -> In a l /\ In b l.
Proof.
  induction l as [|x l IH]; simpl; [intros []|].
  intros Hin. apply in_app_or in Hin. destruct Hin as [Hin|Hin].
  - apply in_map_iff in Hin. destruct Hin as (y & [= <- <-] & Hy). auto.
  - destruct (IH Hin). auto.
Qed.

Lemma combinations2_once {X : Type} (l : list X) (a b : X) :
  NoDup l -> In (a, b) (combinations2 l) ->
  a <> b /\ ~ In (b, a) (combinations2 l).
Proof.
  induction l as [|x l IH]; simpl; [intros _ []|].
  intros Hnd Hin. inversion Hnd as [|? ? Hx Hl]; subst.
  apply in_app_or in Hin. destruct Hin as [Hin|Hin].
  - apply in_map_iff in Hin. destruct Hin as (y & [= <- <-] & Hy).
    split; [intros ->; contradiction|].
    intros Hba. apply in_app_or in Hba. destruct Hba as [Hba|Hba].
    + apply in_map_iff in Hba. destruct Hba as (z & [= <- <-] & _). contradiction.
    + apply combinations2_In in Hba. tauto.
  - destruct (IH Hl Hin) as [Hne Hnot]. split; [exact Hne|].
    intros Hba. apply in_app_or in Hba. destruct Hba as [Hba|Hba]; [|contradiction].
    apply in_map_iff in Hba. destruct Hba as (z & [= <- <-] & _).
    apply combinations2_In in Hin. tauto.
Qed.

Lemma combinations2_NoDup {X : Type} (l : list X) :
  NoDup l -> NoDup (combinations2 l).
Proof.
  induction l as [|x l IH]; simpl; intros Hnd; [constructor|].
  inversion Hnd as [|? ? Hx Hl]; subst.
  apply NoDup_app.
  - clear IH Hx Hnd. induction Hl as [|y l Hy Hl IHl]; simpl; constructor; [|exact IHl].
    intros Hin. apply in_map_iff in Hin. destruct Hin as (z & [= <-] & Hz).
    contradiction.
  - now apply IH.
  - intros [a b] Hin Hin'. apply in_map_iff in Hin.
    destruct Hin as (y & [= <- <-] & _). apply combinations2_In in Hin'. tauto.
Qed.

Lemma combinations2_length {X : Type} (l : list X) :
  2 * List.length (combinations2 l) = List.length l * (List.length l - 1).
Proof.
  induction l as [|x l IH]; simpl; [reflexivity|].
  rewrite length_app, length_map. rewrite Nat.sub_0_r.
  destruct (List.length l) as [|n]; simpl in *; nia.
Qed.

Lemma fresh_key_existsb {K : Type} `{Hashable K} (k : K) (ks rest : list K) :
  NoDup (ks ++ k :: rest) -> existsb (key_eqb k) ks = false.
Proof.
  intros Hnd. destruct (existsb (key_eqb k) ks) eqn:E; [|reflexivity].
  apply existsb_key_In in E. apply NoDup_remove_2 in Hnd.
  exfalso. apply Hnd. apply in_or_app. now left.
Qed.

Lemma pairs_loop_keys (rnd : Q -> Q) (lookup : lookup_t)
  (combos : list (string * string)) (results results' : results_t)
  (stats stats' : stats_t) :
  NoDup (dict_keys results ++ combos) -> NoDup (dict_keys stats ++ combos) ->
  for_each
    (fun (acc : results_t * stats_t) (AB : string * string) =>
       let '(results, stats) := acc in
       let '(A, B) := AB in
       '(rows, s) <- analyze_pair rnd lookup A B ;;
       Ok (dict_set (A, B) rows results, dict_set (A, B) s stats))
    combos (results, stats) = Ok (results', stats') ->
  dict_keys results' = dict_keys results ++ combos
  /\ dict_keys stats' = dict_keys stats ++ combos.
Proof.
  revert results stats. induction combos as [|[A B] combos IH];
    intros results stats Hr Hs; cbn [for_each].
  - intros [= <- <-]. now rewrite !app_nil_r.
  - destruct (analyze_pair rnd lookup A B) as [[rows s]|e]; cbn [bind];
      [|discriminate].
    intros Hrun. apply IH in Hrun.
    + destruct Hrun as [-> ->].
      rewrite !dict_keys_set.
      rewrite (fresh_key_existsb _ _ _ Hr), (fresh_key_existsb _ _ _ Hs).
      rewrite <- !app_assoc. auto.
    + rewrite dict_keys_set, (fresh_key_existsb _ _ _ Hr), <- app_assoc.
      exact Hr.
    + rewrite dict_keys_set, (fresh_key_existsb _ _ _ Hs), <- app_assoc.
      exact Hs.
Qed.

(** X4.  Whenever the classifier returns, whatever calls came before and
    whatever the entries of the lookup are, with distinct markets the
    reports and the statistics are those of the pairs of [combinations], in
    their order, and each two markets meet once. *)
Theorem pair_reports_of_distinct_markets (rnd : Q -> Q)
  (c : cache (results_t * stats_t)) (keys : list string)
  (vals : list market_codes) (markets : list string)
  (results : results_t) (stats : stats_t) :
  pairs_cache_reachable rnd c ->
  fst (analyze_pairs_cached rnd c keys vals markets) = Ok (results, stats) ->
  NoDup markets ->
  dict_keys results = combinations2 markets
  /\ dict_keys stats = combinations2 markets
  /\ 2 * List.length results = List.length markets * (List.length markets - 1)
  /\ forall A B, In (A, B) (dict_keys results) ->
       In A markets /\ In B markets /\ A <> B /\ ~ In (B, A) (dict_keys results).
Proof.
  intros Hc Hrun Hnd.
  destruct (@analyze_pairs_cached_returns rnd c keys vals markets _ Hc Hrun)
    as (keys' & vals' & Hbody & _).
  pose proof (combinations2_NoDup Hnd) as Hcombos.
  unfold analyze_pairs_cached_body in Hbody.
  apply pairs_loop_keys in Hbody; [|exact Hcombos|exact Hcombos].
  destruct Hbody as [Hr Hs]. simpl in Hr, Hs.
  split; [exact Hr|]. split; [exact Hs|]. split.
  - unfold dict_keys in Hr. rewrite <- (length_map fst results), Hr.
    apply combinations2_length.
  - rewrite Hr. intros A B HAB.
    destruct (combinations2_In _ _ _ HAB) as [HA HB].
    destruct (combinations2_once _ _ Hnd HAB) as [Hne Hnot]. auto.
Qed.

(** The three pairs of the three sample markets, on a first call. *)
Lemma pair_reports_of_distinct_markets_witness :
  exists results stats,
    fst (analyze_pairs_cached (fun q => q) [] (lookup_keys example_lookup)
           (map MDict (map snd example_lookup)) example_markets)
    = Ok (results, stats)
    /\ dict_keys results = [("UAE", "KSA"); ("UAE", "EGY"); ("KSA", "EGY")]
    /\ 2 * List.length results = 3 * 2.
Proof.
  do 2 eexists. split; [reflexivity|].
  destruct (@pair_reports_of_distinct_markets (fun q => q) []
              (lookup_keys example_lookup) (map MDict (map snd example_lookup))
              example_markets _ _ (pairs_cache_start _) eq_refl)
    as (Hkeys & _ & Hlen & _).
  - repeat constructor; simpl; intuition discriminate.
  - split; [exact Hkeys | exact Hlen].
Defined.

(** X5.  With fewer than two markets there is no pair: the body of the
    classifier returns no report and no statistics, whatever the lookup
    holds, and so does the classifier, whatever calls came before. *)
Theorem no_pair_without_two_markets (rnd : Q -> Q) (keys : list string)
  (vals : list market_codes) (markets : list string) :
  List.length markets < 2 ->
  analyze_pairs_cached_body rnd keys vals markets = Ok ([], [])
  /\ forall c, pairs_cache_reachable rnd c ->
       fst (analyze_pairs_cached rnd c keys vals markets) = Ok ([], []).
Proof.
  intros Hlen.
  assert (Hbody : forall keys vals,
             analyze_pairs_cached_body rnd keys vals markets = Ok ([], [])).
  { intros keys0 vals0.
    destruct markets as [|A [|B markets]]; simpl in Hlen; try lia; reflexivity. }
  split; [apply Hbody|]. intros c Hc. unfold analyze_pairs_cached.
  destruct (dict_get markets c) as [v|] eqn:Hget.
  - rewrite (cache_data_hit _ _ _ Hget). cbn [fst].
    destruct (pairs_cache_values Hc _ Hget) as (keys' & vals' & Hv).
    rewrite Hbody in Hv. now symmetry.
  - rewrite (cache_data_miss _ _ _ Hget). apply Hbody.
Qed.

Lemma no_pair_without_two_markets_witness :
  analyze_pairs_cached_body (fun q => q) (lookup_keys example_lookup)
    (lookup_values example_lookup) ["UAE"] = Ok ([], [])
  /\ fst (analyze_pairs_cached (fun q => q) [] (lookup_keys example_lookup)
            (lookup_values example_lookup) ["UAE"]) = Ok ([], []).
Proof.
  destruct (@no_pair_without_two_markets (fun q => q) (lookup_keys example_lookup)
              (lookup_values example_lookup) ["UAE"]) as [Hbody Hcached].
  - simpl. lia.
  - split; [exact Hbody | apply Hcached; constructor].
Defined.

(** X6.  When the memo holds nothing for the markets, the classifier
    called without any prefix returns, for every pair, an empty report, zero
    counts and the percentage 0.  This value is kept: every later call with
    the same markets returns it, whatever lookup is passed. *)
Theorem empty_lookup_stats (rnd : Q -> Q) (c : cache (results_t * stats_t))
  (vals : list market_codes) (markets : list string) (A B : string) :
  dict_get markets c = None ->
  In (A, B) (combinations2 markets) ->
  exists results stats c',
    analyze_pairs_cached rnd c [] vals markets = (Ok (results, stats), c')
    /\ dict_get (A, B) results = Some []
    /\ dict_get (A, B) stats = Some empty_stats
    /\ forall keys' vals',
         analyze_pairs_cached rnd c' keys' vals' markets = (Ok (results, stats), c').
Proof.
  intros Hmiss HAB.
  destruct (@analyze_pairs_body_items rnd [] [] vals markets eq_refl)
    as (results & stats & Hbody & Hpairs).
  exists results, stats, (dict_set markets (results, stats) c).
  unfold analyze_pairs_cached. rewrite (cache_data_miss _ _ _ Hmiss), Hbody.
  split; [reflexivity|].
  destruct (Hpairs A B HAB) as [Hr Hs].
  split; [exact Hr|]. split; [exact Hs|].
  intros keys' vals'. apply cache_data_hit. apply dict_get_set_eq.
Qed.

Lemma empty_lookup_stats_witness :
  exists results stats c',
    analyze_pairs_cached (fun q => q) [] [] [] ["UAE"; "KSA"]
    = (Ok (results, stats), c')
    /\ dict_get ("UAE", "KSA") results = Some []
    /\ dict_get ("UAE", "KSA") stats = Some empty_stats
    /\ forall keys' vals',
         analyze_pairs_cached (fun q => q) c' keys' vals' ["UAE"; "KSA"]
         = (Ok (results, stats), c').
Proof.
  apply (@empty_lookup_stats (fun q => q) [] [] ["UAE"; "KSA"] "UAE" "KSA").
  - reflexivity.
  - simpl. left. reflexivity.
Defined.

(** ** The strict alignment table: order, columns, relation to the pairs *)

Lemma get_strict_body_items (keys : list string) (vals : list market_codes)
  (markets : list string) (items : built_lookup) :
  dict_zip keys vals = as_lookup items ->
  get_strict_one_to_one_cached_body keys vals markets
  = Ok (map (fun item => strict_row (fst item) markets
                           (scan_found (snd item) markets))
            (filter (fun item => qualifies markets (snd item)) items)).
Proof.
  intros Hitems. unfold get_strict_one_to_one_cached_body.
  now rewrite Hitems, for_each_strict_step.
Qed.

Lemma get_strict_dicts (keys : list string)
  (dvals : list (dict string (list string))) (markets : list string) :
  get_strict_one_to_one_cached_body keys (map MDict dvals) markets
  = Ok (map (fun item => strict_row (fst item) markets
                           (scan_found (snd item) markets))
            (filter (fun item => qualifies markets (snd item))
                    (dict_zip keys dvals))).
Proof. apply get_strict_body_items. apply dict_zip_MDict. Qed.

(** Without any market no prefix gets a row, whatever the entries are. *)
Lemma strict_loop_no_market (lookup : lookup_t) (rows : list row) :
  for_each (strict_step []) lookup rows = Ok rows.
Proof.
  induction lookup as [|[pfx mc] lookup IH]; [reflexivity|].
  cbn [for_each]. exact IH.
Qed.

(** The table that the extractor returns: that of a lookup of dictionaries
    without repeated prefix, which is the lookup passed when the memo holds
    nothing for the markets and there is a market. *)
Lemma get_strict_cached_table (c : cache (list row)) (keys : list string)
  (vals : list market_codes) (markets : list string) (rows : list row) :
  strict_cache_reachable c ->
  fst (get_strict_one_to_one_cached c keys vals markets) = Ok rows ->
  exists items,
    (dict_get markets c = None -> markets <> [] ->
     dict_zip keys vals = as_lookup items)
    /\ NoDup (dict_keys items)
    /\ rows = map (fun item => strict_row (fst item) markets
                                 (scan_found (snd item) markets))
                  (filter (fun item => qualifies markets (snd item)) items).
Proof.
  intros Hc Hrun.
  destruct (@get_strict_cached_returns c keys vals markets rows Hc Hrun)
    as (keys' & vals' & Hbody & Hmiss).
  destruct markets as [|m markets].
  - exists []. split; [intros _ Hne; now elim Hne|]. split; [constructor|].
    unfold get_strict_one_to_one_cached_body in Hbody.
    rewrite strict_loop_no_market in Hbody. now injection Hbody as <-.
  - assert (Hitems : exists items, dict_zip keys' vals' = as_lookup items).
    { unfold get_strict_one_to_one_cached_body in Hbody.
      refine (@strict_loop_dicts (m :: markets) _ _ _ _ Hbody). discriminate. }
    destruct Hitems as [items Hitems]. exists items.
    split; [intros Hnone _; destruct (Hmiss Hnone) as [<- <-]; exact Hitems|].
    split; [rewrite <- as_lookup_keys, <- Hitems; apply dict_zip_NoDup|].
    rewrite (@get_strict_body_items keys' vals' (m :: markets) items Hitems) in Hbody.
    now injection Hbody as <-.
Qed.

Lemma NoDup_filter_keys {V : Type} (p : string * V -> bool) (d : dict string V) :
  NoDup (dict_keys d) -> NoDup (dict_keys (filter p d)).
Proof.
  unfold dict_keys. induction d as [|kv d IH]; simpl; intros Hnd; [constructor|].
  inversion Hnd as [|? ? Hk Hd]; subst.
  destruct (p kv); simpl; [|auto]. constructor; [|auto].
  intros Hin. apply Hk. apply in_map_iff in Hin.
  destruct Hin as (kv' & E & Hin). apply filter_In in Hin.
  apply in_map_iff. exists kv'. tauto.
Qed.

Lemma NoDup_map_Some {X : Type} (l : list X) : NoDup l -> NoDup (map Some l).
Proof.
  induction 1 as [|x l Hx Hl IH]; simpl; constructor; [|exact IH].
  intros Hin. apply in_map_iff in Hin. destruct Hin as (y & [= ->] & Hy).
  contradiction.
Qed.

Lemma strict_rows_prefixes (markets : list string) (items : built_lookup) :
  map (row_str "HS Prefix")
    (map (fun item => strict_row (fst item) markets
                        (scan_found (snd item) markets)) items)
  = map (fun item => Some (fst item)) items.
Proof.
  rewrite map_map. apply map_ext. intros item. apply strict_row_cells.
Qed.

(** X7.  In a table that the extractor returns, whatever calls came before,
    the rows are those of the prefixes that qualify in a lookup of
    dictionaries without repeated prefix, in the order of this lookup, which
    is the lookup passed when the memo holds nothing for the markets: no
    prefix has two rows, and there are no more rows than prefixes. *)
Theorem strict_rows_in_order (c : cache (list row)) (keys : list string)
  (vals : list market_codes) (markets : list string) (rows : list row) :
  strict_cache_reachable c ->
  fst (get_strict_one_to_one_cached c keys vals markets) = Ok rows ->
  exists items,
    (dict_get markets c = None -> markets <> [] ->
     dict_zip keys vals = as_lookup items)
    /\ NoDup (dict_keys items)
    /\ map (row_str "HS Prefix") rows
       = map (fun item => Some (fst item))
             (filter (fun item => qualifies markets (snd item)) items)
    /\ NoDup (map (row_str "HS Prefix") rows)
    /\ List.length rows <= List.length items.
Proof.
  intros Hc Hrun.
  destruct (@get_strict_cached_table c keys vals markets rows Hc Hrun)
    as (items & Hmiss & Hnd & ->).
  exists items. split; [exact Hmiss|]. split; [exact Hnd|].
  split; [apply strict_rows_prefixes|]. split.
  - rewrite strict_rows_prefixes.
    pose proof (NoDup_filter_keys (fun item => qualifies markets (snd item))
                  items Hnd) as Hnd'.
    unfold dict_keys in Hnd'.
    rewrite <- (map_map fst Some). now apply NoDup_map_Some.
  - rewrite length_map. apply filter_length_le.
Qed.

(** The table of the sample lookup, on a first call: the prefix "100003"
    alone. *)
Lemma strict_rows_in_order_witness :
  exists rows,
    fst (get_strict_one_to_one_cached [] (lookup_keys example_lookup)
           (map MDict (map snd example_lookup)) ["UAE"; "KSA"]) = Ok rows
    /\ map (row_str "HS Prefix") rows = [Some "100003"].
Proof.
  eexists. split; [reflexivity|].
  destruct (@strict_rows_in_order [] (lookup_keys example_lookup)
              (map MDict (map snd example_lookup)) ["UAE"; "KSA"] _
              strict_cache_start eq_refl)
    as (items & Hmiss & _ & Hpfx & _).
  rewrite Hpfx.
  assert (E : items = example_lookup).
  { apply as_lookup_inj. symmetry. apply Hmiss; [reflexivity | discriminate]. }
  rewrite E. reflexivity.
Defined.

Lemma with_one_length_le (d : dict string (list string)) (markets : list string) :
  List.length (with_one d markets) <= List.length markets.
Proof. apply filter_length_le. Qed.

Lemma no_qualifying_prefix (markets : list string) (items : built_lookup) :
  List.length markets < 2 ->
  filter (fun item => qualifies markets (snd item)) items = [].
Proof.
  intros Hlen. induction items as [|item items IH]; simpl; [reflexivity|].
  unfold qualifies at 1.
  pose proof (with_one_length_le (snd item) markets) as Hle.
  destruct (Nat.leb_spec 2 (List.length (with_one (snd item) markets))); [lia|].
  rewrite andb_false_r. exact IH.
Qed.

(** X8.  With fewer than two markets the strict table is empty, whatever
    the lookup of dictionaries holds: so for the body of the extractor, and
    so for the extractor whatever calls came before. *)
Theorem strict_needs_two_markets (keys : list string)
  (dvals : list (dict string (list string))) (markets : list string) :
  List.length markets < 2 ->
  get_strict_one_to_one_cached_body keys (map MDict dvals) markets = Ok []
  /\ forall c, strict_cache_reachable c ->
       fst (get_strict_one_to_one_cached c keys (map MDict dvals) markets) = Ok [].
Proof.
  intros Hlen.
  assert (Hbody : get_strict_one_to_one_cached_body keys (map MDict dvals) markets
                  = Ok []).
  { rewrite get_strict_dicts. now rewrite no_qualifying_prefix. }
  split; [exact Hbody|]. intros c Hc.
  destruct (fst (get_strict_one_to_one_cached c keys (map MDict dvals) markets))
    as [rows|e] eqn:Hrun.
  - destruct (@get_strict_cached_table c keys _ markets rows Hc Hrun)
    as (items & _ & _ & ->).
    now rewrite no_qualifying_prefix.
  - unfold get_strict_one_to_one_cached, cache_data in Hrun.
    destruct (dict_get markets c); [discriminate|].
    rewrite Hbody in Hrun. discriminate.
Qed.

Lemma strict_needs_two_markets_witness :
  get_strict_one_to_one_cached_body (lookup_keys example_lookup)
    (map MDict (map snd example_lookup)) ["UAE"] = Ok []
  /\ fst (get_strict_one_to_one_cached [] (lookup_keys example_lookup)
            (map MDict (map snd example_lookup)) ["UAE"]) = Ok [].
Proof.
  destruct (@strict_needs_two_markets (lookup_keys example_lookup)
              (map snd example_lookup) ["UAE"]) as [Hbody Hcached].
  - simpl. lia.
  - split; [exact Hbody | apply Hcached; constructor].
Defined.

Lemma qualifies_two (A B : string) (d : dict string (list string)) :
  qualifies [A; B] d = relation_eqb (classify (code_count d A) (code_count d B)) OneToOne.
Proof.
  unfold qualifies, at_most_one, with_one. cbn [forallb filter].
  destruct (code_count d A) as [|[|cA]]; destruct (code_count d B) as [|[|cB]];
    reflexivity.
Qed.

(** X9.  When neither memo holds anything for the two markets [A] and [B]
    and the entries of the lookup are dictionaries, the strict table is the
    list of the One-to-One prefixes of the pair report of [(A, B)]. *)
Theorem strict_table_of_two_markets (rnd : Q -> Q)
  (pc : cache (results_t * stats_t)) (sc : cache (list row))
  (keys : list string) (vals : list market_codes) (items : built_lookup)
  (A B : string) :
  dict_get [A; B] pc = None ->
  dict_get [A; B] sc = None ->
  dict_zip keys vals = as_lookup items ->
  exists strict_rows results stats pair_rows s,
    fst (get_strict_one_to_one_cached sc keys vals [A; B]) = Ok strict_rows
    /\ fst (analyze_pairs_cached rnd pc keys vals [A; B]) = Ok (results, stats)
    /\ dict_get (A, B) results = Some pair_rows
    /\ dict_get (A, B) stats = Some s
    /\ map (row_str "HS Prefix") strict_rows
       = map (row_str "HS Prefix") (rows_with OneToOne pair_rows)
    /\ List.length strict_rows = one_to_one (counts s).
Proof.
  intros Hpc Hsc Hitems.
  destruct (@analyze_pairs_body_items rnd items keys vals [A; B] Hitems)
    as (results & stats & Hrun & Hpairs).
  destruct (Hpairs A B) as [Hrows Hs]; [simpl; now left|].
  eexists. exists results, stats. do 2 eexists.
  unfold get_strict_one_to_one_cached, analyze_pairs_cached.
  rewrite (cache_data_miss _ _ _ Hpc), (cache_data_miss _ _ _ Hsc).
  split; [apply (@get_strict_body_items keys vals _ items Hitems)|].
  split; [exact Hrun|].
  split; [exact Hrows|]. split; [exact Hs|].
  rewrite rows_with_pair_rows.
  assert (Hfilter : filter (fun item => qualifies [A; B] (snd item)) items
                    = prefixes_with OneToOne A B items).
  { unfold prefixes_with. apply filter_ext. intros item. apply qualifies_two. }
  rewrite Hfilter. split.
  - rewrite !map_map. apply map_ext. intros item.
    destruct (pair_row_cells A B item) as (-> & _).
    apply strict_row_cells.
  - rewrite length_map. cbn [counts finish_stats].
    pose proof (count_of_tally OneToOne A B items zero_counts) as H.
    simpl in H. now rewrite H.
Qed.

Lemma strict_table_of_two_markets_witness :
  exists strict_rows results stats pair_rows s,
    fst (get_strict_one_to_one_cached [] (lookup_keys example_lookup)
           (map MDict (map snd example_lookup)) ["UAE"; "KSA"]) = Ok strict_rows
    /\ fst (analyze_pairs_cached (fun q => q) [] (lookup_keys example_lookup)
              (map MDict (map snd example_lookup)) ["UAE"; "KSA"])
       = Ok (results, stats)
    /\ dict_get ("UAE", "KSA") results = Some pair_rows
    /\ dict_get ("UAE", "KSA") stats = Some s
    /\ map (row_str "HS Prefix") strict_rows
       = map (row_str "HS Prefix") (rows_with OneToOne pair_rows)
    /\ List.length strict_rows = one_to_one (counts s).
Proof.
  apply (@strict_table_of_two_markets (fun q => q) [] []
           (lookup_keys example_lookup) (map MDict (map snd example_lookup))
           example_lookup "UAE" "KSA"); reflexivity.
Defined.

(** X10.  When neither memo holds anything for the markets and the entries
    of the lookup are dictionaries, every pair report has, at each prefix of
    the strict table, a row whose relation is One-to-One or No Match. *)
Theorem strict_prefix_pairwise (rnd : Q -> Q)
  (pc : cache (results_t * stats_t)) (sc : cache (list row))
  (keys : list string) (vals : list market_codes) (items : built_lookup)
  (markets : list string) :
  dict_get markets pc = None ->
  dict_get markets sc = None ->
  dict_zip keys vals = as_lookup items ->
  exists strict_rows results stats,
    fst (get_strict_one_to_one_cached sc keys vals markets) = Ok strict_rows
    /\ fst (analyze_pairs_cached rnd pc keys vals markets) = Ok (results, stats)
    /\ forall r A B, In r strict_rows -> In (A, B) (combinations2 markets) ->
         exists pair_rows row,
           dict_get (A, B) results = Some pair_rows
           /\ In row pair_rows
           /\ row_str "HS Prefix" row = row_str "HS Prefix" r
           /\ (row_str "Relation" row = Some (label OneToOne)
               \/ row_str "Relation" row = Some (label NoMatch)).
Proof.
  intros Hpc Hsc Hitems.
  destruct (@analyze_pairs_body_items rnd items keys vals markets Hitems)
    as (results & stats & Hrun & Hpairs).
  eexists. exists results, stats.
  unfold get_strict_one_to_one_cached, analyze_pairs_cached.
  rewrite (cache_data_miss _ _ _ Hpc), (cache_data_miss _ _ _ Hsc).
  split; [apply (@get_strict_body_items keys vals _ items Hitems)|].
  split; [exact Hrun|].
  intros r A B Hr HAB. destruct (Hpairs A B HAB) as [Hrows _].
  apply in_map_iff in Hr. destruct Hr as ([pfx d] & <- & Hin).
  apply filter_In in Hin. destruct Hin as [Hin Hq]. cbn [fst snd] in *.
  exists (map (pair_row A B) items), (pair_row A B (pfx, d)).
  split; [exact Hrows|]. split; [now apply in_map|].
  destruct (pair_row_cells A B (pfx, d)) as (-> & -> & _).
  destruct (strict_row_cells pfx markets (scan_found d markets)) as [-> _].
  split; [reflexivity|].
  apply qualifies_spec in Hq. destruct Hq as [Hall _].
  destruct (combinations2_In _ _ _ HAB) as [HA HB].
  cbn [snd]. pose proof (Hall A HA). pose proof (Hall B HB).
  destruct (code_count d A) as [|[|cA]]; destruct (code_count d B) as [|[|cB]];
    try lia; auto.
Qed.

Lemma strict_prefix_pairwise_witness :
  exists strict_rows results stats,
    fst (get_strict_one_to_one_cached [] (lookup_keys example_lookup)
           (map MDict (map snd example_lookup)) example_markets) = Ok strict_rows
    /\ fst (analyze_pairs_cached (fun q => q) [] (lookup_keys example_lookup)
              (map MDict (map snd example_lookup)) example_markets)
       = Ok (results, stats)
    /\ forall r A B, In r strict_rows -> In (A, B) (combinations2 example_markets) ->
         exists pair_rows row,
           dict_get (A, B) results = Some pair_rows
           /\ In row pair_rows
           /\ row_str "HS Prefix" row = row_str "HS Prefix" r
           /\ (row_str "Relation" row = Some (label OneToOne)
               \/ row_str "Relation" row = Some (label NoMatch)).
Proof.
  apply (@strict_prefix_pairwise (fun q => q) [] []
           (lookup_keys example_lookup) (map MDict (map snd example_lookup))
           example_lookup example_markets); reflexivity.
Defined.

Lemma strict_row_keys (pfx : string) (markets : list string)
  (found : dict string string) :
  NoDup markets ->
  dict_keys (strict_row pfx markets found)
  = "HS Prefix" :: map (fun m => ("Code_" ++ m)%string) markets.
Proof.
  intros Hnd. unfold strict_row, dict_of. cbn [fold_left fst snd dict_set].
  change ("HS Prefix" :: map (fun m => ("Code_" ++ m)%string) markets)
    with (dict_keys [("HS Prefix", VStr pfx)]
          ++ map (fun m => ("Code_" ++ m)%string) markets).
  assert (Hfresh : forall m, In m markets ->
             ~ In ("Code_" ++ m)%string (dict_keys [("HS Prefix", VStr pfx)])).
  { intros m _ [E|[]]. discriminate. }
  revert Hfresh. generalize [("HS Prefix", VStr pfx)] as r.
  induction markets as [|m markets IH]; intros r Hfresh; cbn [fold_left map].
  - now rewrite app_nil_r.
  - inversion Hnd as [|? ? Hm Hms]; subst.
    rewrite IH; [| exact Hms |].
    + rewrite dict_keys_set.
      destruct (existsb (key_eqb ("Code_" ++ m)%string) (dict_keys r)) eqn:E.
      * apply existsb_key_In in E. exfalso. apply (Hfresh m); [now left | exact E].
      * now rewrite <- app_assoc.
    + intros m' Hm' Hin. rewrite dict_keys_set in Hin.
      destruct (existsb (key_eqb ("Code_" ++ m)%string) (dict_keys r)).
      * apply (Hfresh m'); [now right | exact Hin].
      * apply in_app_or in Hin. destruct Hin as [Hin|[E|[]]].
        -- apply (Hfresh m'); [now right | exact Hin].
        -- apply code_key_inj in E. congruence.
Qed.

(** X11.  Whenever the extractor returns, whatever calls came before and
    whatever the entries of the lookup are, with distinct markets every row
    of the table has the prefix column followed by one code column per
    market, in the order of the markets. *)
Theorem strict_row_columns (c : cache (list row)) (keys : list string)
  (vals : list market_codes) (markets : list string) (rows : list row) :
  strict_cache_reachable c ->
  fst (get_strict_one_to_one_cached c keys vals markets) = Ok rows ->
  NoDup markets ->
  Forall (fun r => dict_keys r
                   = "HS Prefix" :: map (fun m => ("Code_" ++ m)%string) markets)
    rows.
Proof.
  intros Hc Hrun Hnd.
  destruct (@get_strict_cached_table c keys _ markets rows Hc Hrun)
    as (items & _ & _ & ->).
  apply Forall_forall. intros r Hr. apply in_map_iff in Hr.
  destruct Hr as (item & <- & _). now apply strict_row_keys.
Qed.

Lemma strict_row_columns_witness :
  exists rows,
    fst (get_strict_one_to_one_cached [] (lookup_keys example_lookup)
           (map MDict (map snd example_lookup)) example_markets) = Ok rows
    /\ rows <> []
    /\ Forall (fun r => dict_keys r
                        = ["HS Prefix"; "Code_UAE"; "Code_KSA"; "Code_EGY"]) rows.
Proof.
  eexists. split; [reflexivity|]. split; [discriminate|].
  apply (@strict_row_columns [] (lookup_keys example_lookup)
           (map MDict (map snd example_lookup)) example_markets).
  - constructor.
  - reflexivity.
  - repeat constructor; simpl; intuition discriminate.
Defined.

(** ** The entity mapper: sample codes, agreement with the rule *)

Lemma target_steps_keep_sample (d : dict string (list string)) (sc : nat)
  (targets : list string) (t : string) (i : nat) (c : string) :
  i < 5 -> nth_error (sorted (dict_get_default t [] d)) i = Some c ->
  forall res res',
    dict_get (sample_key t (S i)) res = Some (VStr c) ->
    for_each (target_step (MDict d) sc) targets res = Ok res' ->
    dict_get (sample_key t (S i)) res' = Some (VStr c).
Proof.
  intros Hi Hc. induction targets as [|t0 rest IH]; intros res res' Hget;
    cbn [for_each].
  - intros [= <-]. exact Hget.
  - rewrite target_step_dict. cbn [bind]. apply IH.
    destruct (string_dec t0 t) as [->|Hne].
    + now apply add_codes_cell.
    + rewrite add_codes_untouched.
      * rewrite dict_get_set_neq; [exact Hget|].
        apply not_eq_sym, ends_in_digit_neq;
          [apply sample_key_ends_in_digit; lia | apply relation_key_no_digit].
      * intros j Hj E. apply sample_key_inj in E; [|lia|lia].
        destruct E as [E _]. congruence.
Qed.

Lemma for_each_target_step_samples (d : dict string (list string)) (sc : nat)
  (targets : list string) (res res' : row) :
  for_each (target_step (MDict d) sc) targets res = Ok res' ->
  forall t, In t targets -> samples_ok t (dict_get_default t [] d) res'.
Proof.
  revert res. induction targets as [|t0 rest IH]; intros res Hrun t Ht;
    [destruct Ht|].
  cbn [for_each] in Hrun. rewrite target_step_dict in Hrun. cbn [bind] in Hrun.
  destruct (in_dec string_dec t rest) as [Hin|Hnot]; [eapply IH; eassumption|].
  destruct Ht as [->|Ht]; [|contradiction].
  intros i c Hi Hc. unfold row_str.
  erewrite target_steps_keep_sample; [reflexivity | exact Hi | exact Hc | | exact Hrun].
  now apply add_codes_cell.
Qed.

Lemma entity_step_full (mini : lookup_t) (items : built_lookup)
  (source_market : string) (target_markets : list string) (results : list row)
  (e : entity) :
  dict_get_default (asin_prefix e) (MDict []) mini = MDict (entity_codes items e) ->
  exists r,
    entity_step mini source_market target_markets results e = Ok (results ++ [r])
    /\ entity_row_ok items source_market target_markets e r
    /\ entity_row_more items target_markets e r.
Proof.
  intros Hmini.
  destruct (entity_step_dict mini items source_market target_markets results e Hmini)
    as (r & Hstep & Hok).
  exists r. split; [exact Hstep|]. split; [exact Hok|].
  unfold entity_step in Hstep. rewrite Hmini in Hstep. cbn [mc_get bind] in Hstep.
  destruct (for_each_target_step (entity_codes items e)
              (List.length (dict_get_default source_market [] (entity_codes items e)))
              target_markets
              (dict_of [("ASIN", VStr (ASIN e));
                        ("Source_Code", VStr (asin_hs_code e));
                        ("Prefix", VStr (asin_prefix e))]))
    as (res & Hrun & _ & Hout).
  rewrite Hrun in Hstep. cbn [bind] in Hstep. injection Hstep as Hstep.
  apply app_inv_head in Hstep. injection Hstep as ->.
  split.
  - intros t Ht. eapply for_each_target_step_samples; eassumption.
  - intros m Hm. rewrite Hout.
    + unfold dict_of. cbn [fold_left fst snd].
      rewrite !dict_get_set_neq by key_neq. reflexivity.
    + apply relation_key_no_digit.
    + intros t Ht E. apply append_inj_r in E. congruence.
Qed.

Lemma for_each_entity_step_full (mini : lookup_t) (items : built_lookup)
  (source_market : string) (target_markets : list string) (l : list entity)
  (results : list row) :
  (forall e, In e l ->
     dict_get_default (asin_prefix e) (MDict []) mini
     = MDict (entity_codes items e)) ->
  exists rows,
    for_each (entity_step mini source_market target_markets) l results
    = Ok (results ++ rows)
    /\ Forall2 (fun e r => entity_row_ok items source_market target_markets e r
                           /\ entity_row_more items target_markets e r) l rows.
Proof.
  revert results. induction l as [|e l IH]; intros results Hmini.
  - exists []. simpl. rewrite app_nil_r. split; [reflexivity | constructor].
  - cbn [for_each].
    destruct (entity_step_full mini items source_market target_markets results e)
      as (r & -> & Hr); [apply Hmini; now left|]. cbn [bind].
    destruct (IH (results ++ [r])) as (rows & Hrun & Hrows);
      [intros e' He'; apply Hmini; now right|].
    exists (r :: rows). rewrite Hrun, <- app_assoc. split; [reflexivity|].
    now constructor.
Qed.

Lemma map_asins_fast_full (asin_df : list entity) (items : built_lookup)
  (source_market : string) (target_markets : list string) :
  exists rows,
    map_asins_fast asin_df (as_lookup items) source_market target_markets = Ok rows
    /\ Forall2 (fun e r => entity_row_ok items source_market target_markets e r
                           /\ entity_row_more items target_markets e r)
         asin_df rows.
Proof.
  unfold map_asins_fast.
  destruct (for_each_entity_step_full
              (dict_of (map (fun p => (p, dict_get_default p (MDict [])
                                            (as_lookup items)))
                          (unique (map asin_prefix asin_df))))
              items source_market target_markets asin_df [])
    as (rows & Hrun & Hrows).
  - intros e He. now apply mini_lookup_get.
  - exists rows. split; [exact Hrun | exact Hrows].
Qed.

(** X12.  In a row of the mapping report, the cell [<target>_Code_<i>]
    holds the [i]-th code of the target market at the prefix of the entity
    in sorted order, for [i] up to five and up to the number of codes. *)
Theorem mapper_samples (asin_df : list entity) (items : built_lookup)
  (source_market : string) (target_markets : list string) :
  exists rows,
    map_asins_fast asin_df (as_lookup items) source_market target_markets = Ok rows
    /\ Forall2
         (fun e r =>
            forall t, In t target_markets ->
              let codes := dict_get_default t [] (entity_codes items e) in
              Sorted str_le (sorted codes) /\ Permutation (sorted codes) codes
              /\ forall i c, i < 5 -> nth_error (sorted codes) i = Some c ->
                   row_str (sample_key t (S i)) r = Some c)
         asin_df rows.
Proof.
  destruct (map_asins_fast_full asin_df items source_market target_markets)
    as (rows & Hrun & Hrows).
  exists rows. split; [exact Hrun|].
  eapply Forall2_impl; [|exact Hrows].
  intros e r [_ [Hs _]] t Ht.
  split; [apply sorted_Sorted|]. split; [apply sorted_Permutation|].
  exact (Hs t Ht).
Qed.

(** X13.  Where the source market has a code at the prefix of the entity, the
    mapper gives every target the relation of the pairwise rule. *)
Theorem mapper_agrees_with_rule (asin_df : list entity) (items : built_lookup)
  (source_market : string) (target_markets : list string) :
  exists rows,
    map_asins_fast asin_df (as_lookup items) source_market target_markets = Ok rows
    /\ Forall2
         (fun e r =>
            let d := entity_codes items e in
            1 <= code_count d source_market ->
            forall t, In t target_markets ->
              exists rel,
                relates (code_count d source_market) (code_count d t) rel
                /\ row_str (t ++ "_Relation") r = Some (label rel))
         asin_df rows.
Proof.
  destruct (map_asins_fast_dicts asin_df items source_market target_markets)
    as (rows & Hrun & Hrows).
  exists rows. split; [exact Hrun|].
  eapply Forall2_impl; [|exact Hrows].
  intros e r (_ & _ & _ & Hrel). cbv zeta. intros Hsc t Ht.
  exists (classify (code_count (entity_codes items e) source_market)
                   (code_count (entity_codes items e) t)).
  split; [apply classify_relates|].
  rewrite (Hrel t Ht), target_relation_label, mapper_classify_agrees;
    [reflexivity | left; lia].
Qed.

(** ** The normalizer: digits only, idempotence, errors *)

Lemma digit_not_space (c : ascii) : is_digit c = true -> is_space c = false.
Proof.
  unfold is_digit, is_space. generalize (nat_of_ascii c) as n. intros n H.
  apply andb_true_iff in H. destruct H as [H1 H2].
  apply Nat.leb_le in H1, H2.
  repeat match goal with
         | |- context [?a <=? ?b] => destruct (Nat.leb_spec a b); try lia
         | |- context [?a =? ?b] => destruct (Nat.eqb_spec a b); try lia
         end; reflexivity.
Qed.

Lemma digit_not_dot (c : ascii) : is_digit c = true -> c <> "."%char.
Proof. intros H ->. discriminate H. Qed.

Lemma sub_nondigit_digits (s : string) : all_digits (sub_nondigit s) = true.
Proof.
  induction s as [|c s IH]; simpl; [reflexivity|].
  destruct (is_digit c) eqn:E; simpl; [now rewrite E|exact IH].
Qed.

Lemma sub_nondigit_id (s : string) : all_digits s = true -> sub_nondigit s = s.
Proof.
  induction s as [|c s IH]; simpl; [reflexivity|].
  intros H. apply andb_true_iff in H. destruct H as [Hc Hs].
  now rewrite Hc, IH.
Qed.

Lemma sub_dot0_id (s : string) : all_digits s = true -> sub_dot0 s = s.
Proof.
  induction s as [|c s IH]; [reflexivity|].
  intros H. simpl in H. apply andb_true_iff in H. destruct H as [Hc Hs].
  cbn [sub_dot0].
  destruct (String.eqb_spec (String c s) ".0") as [E|_].
  { injection E as -> _. discriminate Hc. }
  destruct (String.eqb_spec (String c s) (".0" ++ String newline EmptyString))
    as [E|_].
  { injection E as -> _. discriminate Hc. }
  now rewrite IH.
Qed.

Lemma rstrip_id (s : string) : all_digits s = true -> rstrip s = s.
Proof.
  induction s as [|c s IH]; [reflexivity|].
  intros H. simpl in H. apply andb_true_iff in H. destruct H as [Hc Hs].
  simpl. rewrite (IH Hs). destruct s; [|reflexivity].
  now rewrite (digit_not_space _ Hc).
Qed.

Lemma lstrip_id (s : string) : all_digits s = true -> lstrip s = s.
Proof.
  destruct s as [|c s]; [reflexivity|].
  intros H. simpl in H. apply andb_true_iff in H. destruct H as [Hc _].
  simpl. now rewrite (digit_not_space _ Hc).
Qed.

Lemma clean_code_id (s : string) : all_digits s = true -> clean_code (CStr s) = s.
Proof.
  intros H. unfold clean_code, strip. cbn [astype_str].
  now rewrite (rstrip_id _ H), (lstrip_id _ H), (sub_dot0_id _ H), sub_nondigit_id.
Qed.

Lemma clean_code_digits (raw : cell) : all_digits (clean_code raw) = true.
Proof. apply sub_nondigit_digits. Qed.

Lemma kept_codes_spec (cells : list cell) (c : string) :
  In c (kept_codes cells) -> all_digits c = true /\ 4 <= String.length c.
Proof.
  unfold kept_codes. intros Hin. apply filter_In in Hin. destruct Hin as [Hin Hlen].
  apply in_map_iff in Hin. destruct Hin as (raw & <- & _).
  split; [apply clean_code_digits | now apply Nat.leb_le].
Qed.

Lemma kept_codes_fixpoint (codes : list string) :
  Forall (fun c => all_digits c = true /\ 4 <= String.length c) codes ->
  kept_codes (map CStr codes) = codes.
Proof.
  unfold kept_codes. induction 1 as [|c codes [Hd Hl] _ IH]; cbn [map filter];
    [reflexivity|].
  rewrite (clean_code_id _ Hd). apply Nat.leb_le in Hl. now rewrite Hl, IH.
Qed.

Lemma process_records_frame (rows : list code_record) (market_name : string)
  (digits : nat) :
  process_tree_data (records_frame rows) market_name digits
  = Ok (map (fun c => {| market := market_name; hs_code := c;
                         prefix := slice_to digits c |})
            (filter (fun c => 4 <=? String.length c)
                    (map clean_code (map (fun r => CStr (hs_code r)) rows))),
        "hs_code",
        List.length
          (filter (fun c => 4 <=? String.length c)
                  (map clean_code (map (fun r => CStr (hs_code r)) rows)))).
Proof.
  unfold process_tree_data.
  replace (select_code_col (map fst (records_frame rows))) with (Ok "hs_code")
    by reflexivity.
  cbn [bind].
  replace (df_column "hs_code" (records_frame rows))
    with (Ok (map (fun r => CStr (hs_code r)) rows)) by reflexivity.
  cbn [bind]. now rewrite length_map.
Qed.

(** X14.  The normalizer applied to its own result gives this result again. *)
Theorem normalizer_idempotent (df : dataframe) (market_name : string)
  (rows : list code_record) (code_col : string) (n : nat) :
  process_tree_data df market_name DIGITS = Ok (rows, code_col, n) ->
  process_tree_data (records_frame rows) market_name DIGITS
  = Ok (rows, "hs_code", n).
Proof.
  intros Hrun.
  assert (Hne : df <> []) by (intros ->; discriminate Hrun).
  destruct (process_tree_data_runs market_name DIGITS Hne)
    as (col & cells & _ & _ & Hrun').
  rewrite Hrun' in Hrun. injection Hrun as <- _ <-.
  rewrite process_records_frame, !map_map. cbn [hs_code].
  rewrite <- (map_map CStr clean_code).
  change (filter (fun c => 4 <=? String.length c)
            (map clean_code (map CStr (kept_codes cells))))
    with (kept_codes (map CStr (kept_codes cells))).
  rewrite kept_codes_fixpoint; [reflexivity|].
  apply Forall_forall. intros c Hc. now apply kept_codes_spec in Hc.
Qed.

Lemma normalizer_idempotent_witness :
  exists rows,
    process_tree_data example_df "UAE" DIGITS = Ok (rows, "HTS Number", 3)
    /\ process_tree_data (records_frame rows) "UAE" DIGITS = Ok (rows, "hs_code", 3).
Proof.
  eexists. split; [reflexivity|].
  apply (@normalizer_idempotent example_df "UAE" _ "HTS Number" 3). reflexivity.
Defined.

(** X15.  For every prefix width, the records hold digits only: the code has
    four digits or more and the prefix is made of its first [digits]
    characters, or of all of them when there are fewer. *)
Theorem record_shape (df : dataframe) (market_name : string) (digits : nat) :
  df <> [] ->
  exists rows code_col n,
    process_tree_data df market_name digits = Ok (rows, code_col, n)
    /\ Forall
         (fun r =>
            market r = market_name
            /\ all_digits (hs_code r) = true
            /\ 4 <= String.length (hs_code r)
            /\ all_digits (prefix r) = true
            /\ String.length (prefix r) = Nat.min digits (String.length (hs_code r))
            /\ exists rest, hs_code r = (prefix r ++ rest)%string)
         rows.
Proof.
  intros Hne.
  destruct (process_tree_data_runs market_name digits Hne)
    as (col & cells & _ & _ & Hrun).
  do 3 eexists. split; [exact Hrun|].
  apply Forall_forall. intros r Hr. apply in_map_iff in Hr.
  destruct Hr as (c & <- & Hc). apply kept_codes_spec in Hc.
  destruct Hc as [Hd Hl]. cbn [market hs_code prefix].
  split; [reflexivity|]. split; [exact Hd|]. split; [exact Hl|].
  assert (Hslice : String.length (slice_to digits c)
                   = Nat.min digits (String.length c)
                   /\ exists rest, c = (slice_to digits c ++ rest)%string).
  { destruct (Nat.le_gt_cases digits (String.length c)) as [Hle|Hgt].
    - destruct (slice_to_long _ Hle) as [Hlen Hrest]. split; [lia | exact Hrest].
    - rewrite slice_to_short by lia. split; [lia|].
      exists EmptyString. clear. induction c as [|x c IH]; simpl; congruence. }
  destruct Hslice as [Hlen [rest Hrest]].
  split; [|split; [exact Hlen | now exists rest]].
  rewrite Hrest in Hd. clear -Hd.
  induction (slice_to digits c) as [|x p IH]; simpl in *; [reflexivity|].
  apply andb_true_iff in Hd. destruct Hd as [-> Hd]. simpl. auto.
Qed.

Lemma record_shape_witness :
  exists rows code_col n,
    process_tree_data example_df "UAE" 8 = Ok (rows, code_col, n)
    /\ Forall
         (fun r =>
            market r = "UAE"
            /\ all_digits (hs_code r) = true
            /\ 4 <= String.length (hs_code r)
            /\ all_digits (prefix r) = true
            /\ String.length (prefix r) = Nat.min 8 (String.length (hs_code r))
            /\ exists rest, hs_code r = (prefix r ++ rest)%string)
         rows.
Proof.
  apply (@record_shape example_df "UAE" 8). discriminate.
Defined.

(** X16.  The normalizer fails in one case only, a table without columns,
    with [IndexError]; otherwise it returns, the count is the number of
    records, and there are no more records than cells in the code column. *)
Theorem normalizer_errors (df : dataframe) (market_name : string) (digits : nat) :
  (df = [] /\ process_tree_data df market_name digits = Raise IndexError)
  \/ (exists rows code_col n cells,
        process_tree_data df market_name digits = Ok (rows, code_col, n)
        /\ dict_get code_col df = Some cells
        /\ n = List.length rows
        /\ n <= List.length cells).
Proof.
  destruct df as [|col df]; [left; split; reflexivity|]. right.
  destruct (@process_tree_data_runs (col :: df) market_name digits)
    as (code_col & cells & _ & Hcells & Hrun); [discriminate|].
  do 3 eexists. exists cells. split; [exact Hrun|]. split; [exact Hcells|].
  rewrite length_map. split; [reflexivity|].
  unfold kept_codes. rewrite <- (length_map clean_code cells).
  apply filter_length_le.
Qed.

(** ** The lookup: order of the prefixes, round trip through the page *)

Lemma dict_fold_keys_fresh {V : Type} (f : string -> V) (keys : list string)
  (acc : dict string V) :
  NoDup (dict_keys acc ++ keys) ->
  dict_keys (fold_left (fun d k => dict_set k (f k) d) keys acc)
  = dict_keys acc ++ keys.
Proof.
  revert acc. induction keys as [|k keys IH]; intros acc Hnd; cbn [fold_left].
  - now rewrite app_nil_r.
  - rewrite IH; rewrite dict_keys_set, (fresh_key_existsb _ _ _ Hnd), <- app_assoc;
      [reflexivity | exact Hnd].
Qed.

Lemma dict_fold_keys_NoDup {V : Type} (f : string -> V) (keys : list string)
  (acc : dict string V) :
  NoDup (dict_keys acc) ->
  NoDup (dict_keys (fold_left (fun d k => dict_set k (f k) d) keys acc)).
Proof.
  revert acc. induction keys as [|k keys IH]; intros acc Hnd; cbn [fold_left];
    [exact Hnd|].
  apply IH. now apply dict_set_NoDup.
Qed.

Lemma build_prefix_lookup_keys (_df : list code_record) (markets : list string) :
  dict_keys (build_prefix_lookup_body _df markets) = sorted (unique (map prefix _df))
  /\ Sorted str_le (dict_keys (build_prefix_lookup_body _df markets))
  /\ NoDup (dict_keys (build_prefix_lookup_body _df markets))
  /\ (build_prefix_lookup_body _df markets = [] <-> _df = []).
Proof.
  assert (Hkeys : dict_keys (build_prefix_lookup_body _df markets)
                  = sorted (unique (map prefix _df))).
  { unfold build_prefix_lookup_body.
    change (fun lookup pfx =>
              dict_set pfx
                (fold_left
                   (fun inner mkt =>
                      dict_set mkt
                        (group_codes
                           (filter (fun r => String.eqb (prefix r) pfx) _df) mkt)
                        inner)
                   markets [])
                lookup)
      with (fun lookup pfx => dict_set pfx (inner_of _df markets pfx) lookup).
    rewrite dict_fold_keys_fresh; [reflexivity|]. simpl.
    eapply Permutation_NoDup; [symmetry; apply sorted_Permutation|].
    apply unique_NoDup. }
  split; [exact Hkeys|]. split; [rewrite Hkeys; apply sorted_Sorted|].
  split; [apply build_prefix_lookup_spec|].
  split.
  - intros E. rewrite E in Hkeys. simpl in Hkeys.
    destruct _df as [|r _df]; [reflexivity|]. exfalso.
    assert (Hin : In (prefix r) (sorted (unique (map prefix (r :: _df))))).
    { apply sorted_In, unique_In. now left. }
    rewrite <- Hkeys in Hin. exact Hin.
  - intros ->. reflexivity.
Qed.

(** X17.  The builder returns, whatever calls came before, a lookup built
    for the same markets from some records, which are the records passed
    when the memo holds nothing for the markets.  The prefixes of the lookup
    are the distinct prefixes of these records, in sorted order, and the
    lookup is empty exactly when there is no such record. *)
Theorem lookup_prefixes_sorted (c : cache built_lookup) (_df : list code_record)
  (markets : list string) :
  lookup_cache_reachable c ->
  exists lookup records,
    fst (build_prefix_lookup c _df markets) = Ok lookup
    /\ (dict_get markets c = None -> records = _df)
    /\ dict_keys lookup = sorted (unique (map prefix records))
    /\ Sorted str_le (dict_keys lookup)
    /\ NoDup (dict_keys lookup)
    /\ (lookup = [] <-> records = []).
Proof.
  intros Hc.
  destruct (build_prefix_lookup_returns _df markets Hc) as (records & Hrun & Hmiss).
  exists (build_prefix_lookup_body records markets), records.
  split; [exact Hrun|]. split; [exact Hmiss|].
  apply build_prefix_lookup_keys.
Qed.

(** The prefixes of the lookup of the sample records, on a first call. *)
Lemma lookup_prefixes_sorted_witness :
  exists lookup,
    fst (build_prefix_lookup [] example_records ["UAE"; "KSA"]) = Ok lookup
    /\ dict_keys lookup = ["100001"; "100002"; "100003"].
Proof.
  destruct (@lookup_prefixes_sorted [] example_records ["UAE"; "KSA"]
              lookup_cache_start)
    as (lookup & records & Hrun & Hmiss & Hkeys & _).
  exists lookup. split; [exact Hrun|].
  rewrite Hkeys, (Hmiss eq_refl). reflexivity.
Defined.

(** X18.  In the lookup that the builder returns, whatever calls came before,
    a prefix is a key exactly when one of the records it was built from has
    it, and under a prefix every market asked for has the list, without
    repetition, of the codes of its records with this prefix.  The records
    are those passed when the memo holds nothing for the markets. *)
Theorem lookup_codes_distinct (c : cache built_lookup) (_df : list code_record)
  (markets : list string) :
  lookup_cache_reachable c ->
  exists lookup records,
    fst (build_prefix_lookup c _df markets) = Ok lookup
    /\ (dict_get markets c = None -> records = _df)
    /\ forall pfx,
         (In pfx (dict_keys lookup) <-> exists r, In r records /\ prefix r = pfx)
         /\ forall d m,
              In (pfx, d) lookup -> In m markets ->
              exists codes,
                dict_get m d = Some codes
                /\ NoDup codes
                /\ (forall c, In c codes
                      <-> exists r, In r records /\ prefix r = pfx /\ market r = m
                                    /\ hs_code r = c)
                /\ (List.length codes = 0
                    <-> forall r, In r records -> prefix r = pfx -> market r <> m).
Proof.
  intros Hc.
  destruct (build_prefix_lookup_returns _df markets Hc) as (records & Hrun & Hmiss).
  exists (build_prefix_lookup_body records markets), records.
  split; [exact Hrun|]. split; [exact Hmiss|]. intros pfx.
  destruct (build_prefix_lookup_spec records markets) as (_ & Hkeys & Hcodes).
  split; [apply Hkeys|]. intros d m Hin Hm.
  destruct (Hcodes pfx d m Hin Hm) as (codes & Hget & Hnd & Hiff).
  exists codes. split; [exact Hget|]. split; [exact Hnd|]. split; [exact Hiff|].
  split.
  - intros Hlen r Hr Hp Hmk. destruct codes as [|c0 codes]; [|discriminate].
    apply (proj2 (Hiff (hs_code r))). now exists r.
  - intros Hnone. destruct codes as [|c0 codes]; [reflexivity|]. exfalso.
    destruct (proj1 (Hiff c0)) as (r & Hr & Hp & Hmk & _); [now left|].
    exact (Hnone r Hr Hp Hmk).
Qed.

(** The codes of KSA at the prefix "100001" of the sample records, on a
    first call. *)
Lemma lookup_codes_distinct_witness :
  exists lookup d,
    fst (build_prefix_lookup [] example_records ["UAE"; "KSA"]) = Ok lookup
    /\ In ("100001", d) lookup
    /\ exists codes,
         dict_get "KSA" d = Some codes
         /\ NoDup codes
         /\ forall c, In c codes
              <-> exists r, In r example_records /\ prefix r = "100001"
                            /\ market r = "KSA" /\ hs_code r = c.
Proof.
  destruct (@lookup_codes_distinct [] example_records ["UAE"; "KSA"]
              lookup_cache_start)
    as (lookup & records & Hrun & Hmiss & Hall).
  rewrite (Hmiss eq_refl) in Hall. injection Hrun as <-.
  do 2 eexists. split; [reflexivity|]. split; [left; reflexivity|].
  destruct (Hall "100001") as [_ Hcodes].
  destruct (Hcodes _ "KSA" (or_introl eq_refl) (or_intror (or_introl eq_refl)))
    as (codes & Hget & Hnd & Hiff & _).
  exists codes. auto.
Defined.

Lemma build_prefix_lookup_entries (_df : list code_record) (markets : list string) :
  Forall (fun kv => snd kv = inner_of _df markets (fst kv))
    (build_prefix_lookup_body _df markets).
Proof.
  unfold build_prefix_lookup_body.
  apply (dict_fold_keyed (inner_of _df markets)). constructor.
Qed.

Lemma inner_of_NoDup (_df : list code_record) (markets : list string) (pfx : string) :
  NoDup (dict_keys (inner_of _df markets pfx)).
Proof. unfold inner_of. apply dict_fold_keys_NoDup. constructor. Qed.

(** X19.  The lookup that the page keeps for the mapper, read back from the
    tuples, is the lookup that was built: so for the lookup that the body of
    the builder makes, and so for the lookup that the builder returns,
    whatever calls came before. *)
Theorem lookup_rebuilt_round_trip (_df : list code_record) (markets : list string) :
  lookup_rebuilt (build_prefix_lookup_body _df markets)
  = as_lookup (build_prefix_lookup_body _df markets)
  /\ forall c lookup,
       lookup_cache_reachable c ->
       fst (build_prefix_lookup c _df markets) = Ok lookup ->
       lookup_rebuilt lookup = as_lookup lookup.
Proof.
  assert (Hbody : forall records,
             lookup_rebuilt (build_prefix_lookup_body records markets)
             = as_lookup (build_prefix_lookup_body records markets)).
  { intros records. apply lookup_rebuilt_spec.
    - apply build_prefix_lookup_spec.
    - eapply Forall_impl; [|apply build_prefix_lookup_entries].
      intros kv ->. apply inner_of_NoDup. }
  split; [apply Hbody|]. intros c lookup Hc Hrun.
  destruct (build_prefix_lookup_returns _df markets Hc) as (records & Hrun' & _).
  rewrite Hrun in Hrun'. injection Hrun' as ->. apply Hbody.
Qed.

(** ** The loaded trees *)

Lemma dict_set_Forall_keyed {V : Type} (P : string -> V -> Prop) (k : string)
  (v : V) (d : dict string V) :
  P k v -> Forall (fun kv => P (fst kv) (snd kv)) d ->
  Forall (fun kv => P (fst kv) (snd kv)) (dict_set k v d).
Proof.
  intros Hv Hd. induction Hd as [|[k' v'] d Hkv Hd IH]; simpl.
  - constructor; [exact Hv | constructor].
  - destruct (String.eqb k k'); constructor; auto.
Qed.

Lemma dict_get_In {V : Type} (k : string) (v : V) (d : dict string V) :
  dict_get k d = Some v -> In (k, v) d.
Proof.
  induction d as [|[k' v'] d IH]; simpl; [discriminate|].
  destruct (String.eqb_spec k k') as [->|Hk].
  - intros [= ->]. now left.
  - intros E. right. auto.
Qed.

Lemma dict_del_spec {V : Type} (k : string) (d d' : dict string V) :
  dict_del k d = Ok d' ->
  exists before v after,
    d = before ++ (k, v) :: after /\ d' = before ++ after
    /\ ~ In k (dict_keys before).
Proof.
  revert d'. induction d as [|[k' v'] d IH]; intros d'; simpl; [discriminate|].
  destruct (String.eqb_spec k k') as [->|Hne].
  - intros [= <-]. exists [], v', d. auto.
  - destruct (dict_del k d) as [r|e]; cbn [bind]; [|discriminate].
    intros [= <-]. destruct (IH r eq_refl) as (before & v & after & -> & -> & Hk).
    exists ((k', v') :: before), v, after. simpl. repeat split; auto.
    intros [E|Hin]; [congruence | contradiction].
Qed.

Lemma add_tree_entry (trees : trees_t) (df : dataframe) (market_name : string)
  (trees' : trees_t) :
  add_tree trees df market_name = Ok trees' ->
  exists entry,
    trees' = dict_set market_name entry trees
    /\ tree_count entry = List.length (tree_df entry)
    /\ Forall (tree_record_ok market_name) (tree_df entry).
Proof.
  unfold add_tree. intros Hadd.
  assert (Hne : df <> []) by (intros ->; discriminate Hadd).
  destruct (process_tree_data_runs market_name DIGITS Hne)
    as (col & cells & _ & _ & Hrun).
  rewrite Hrun in Hadd. cbn [bind] in Hadd. injection Hadd as <-.
  eexists. split; [reflexivity|]. cbn [tree_count tree_df].
  split; [now rewrite length_map|].
  apply Forall_forall. intros r Hr. apply in_map_iff in Hr.
  destruct Hr as (c & <- & Hc). apply kept_codes_spec in Hc.
  unfold tree_record_ok. cbn [market hs_code prefix]. tauto.
Qed.

Lemma reachable_trees_ok (trees : trees_t) : reachable trees -> trees_ok trees.
Proof.
  induction 1 as [|trees df m trees' _ [Hnd Hall] Hadd
                  |trees m trees' _ [Hnd Hall] Hdel].
  - split; constructor.
  - apply add_tree_entry in Hadd. destruct Hadd as (entry & -> & Hcount & Hrec).
    split; [now apply dict_set_NoDup|].
    apply (dict_set_Forall_keyed
             (fun k v => tree_count v = List.length (tree_df v)
                         /\ Forall (tree_record_ok k) (tree_df v))); auto.
  - apply dict_del_spec in Hdel.
    destruct Hdel as (before & v & after & -> & -> & _).
    split.
    + unfold dict_keys in *. rewrite map_app in Hnd. simpl in Hnd.
      rewrite map_app. apply NoDup_remove_1 in Hnd. exact Hnd.
    + apply Forall_app in Hall. destruct Hall as [Hb Ha].
      apply Forall_app. split; [exact Hb | now inversion Ha].
Qed.

(** X20.  Whatever trees were added and removed, the market names are
    distinct, the count of a tree is the number of its records, and every
    record of a tree carries the name of the tree, a code of four digits or
    more and the prefix of this code. *)
Theorem trees_invariant (trees : trees_t) :
  reachable trees ->
  NoDup (dict_keys trees)
  /\ forall m t, In (m, t) trees ->
       tree_count t = List.length (tree_df t)
       /\ forall r, In r (tree_df t) ->
            market r = m
            /\ all_digits (hs_code r) = true
            /\ 4 <= String.length (hs_code r)
            /\ prefix r = slice_to DIGITS (hs_code r).
Proof.
  intros Hreach. destruct (reachable_trees_ok Hreach) as [Hnd Hall].
  split; [exact Hnd|]. intros m t Hin.
  rewrite Forall_forall in Hall. destruct (Hall _ Hin) as [Hcount Hrec].
  split; [exact Hcount|]. intros r Hr.
  rewrite Forall_forall in Hrec. exact (Hrec r Hr).
Qed.

Lemma trees_invariant_witness :
  exists trees,
    add_tree [] example_df "UAE" = Ok trees
    /\ NoDup (dict_keys trees)
    /\ forall m t, In (m, t) trees ->
         tree_count t = List.length (tree_df t)
         /\ forall r, In r (tree_df t) ->
              market r = m
              /\ all_digits (hs_code r) = true
              /\ 4 <= String.length (hs_code r)
              /\ prefix r = slice_to DIGITS (hs_code r).
Proof.
  eexists. split; [reflexivity|].
  apply trees_invariant.
  apply (@reach_add [] example_df "UAE"); [apply reach_start | reflexivity].
Defined.

(** X21.  A sheet added under a market name is found under this name with
    the records, the column and the count that the normalizer returned; the
    other trees are untouched; the name joins the markets at the end when it
    is new and keeps its place otherwise.  Removing the name then leaves no
    tree under it and the other trees as they were before the addition. *)
Theorem add_find_remove_tree (trees : trees_t) (df : dataframe)
  (market_name : string) (trees' : trees_t) :
  add_tree trees df market_name = Ok trees' ->
  (exists rows code_col n,
     process_tree_data df market_name DIGITS = Ok (rows, code_col, n)
     /\ dict_get market_name trees'
        = Some {| tree_df := rows; tree_count := n; tree_column := code_col |})
  /\ (forall other, other <> market_name ->
        dict_get other trees' = dict_get other trees)
  /\ dict_keys trees'
     = (if existsb (String.eqb market_name) (dict_keys trees)
        then dict_keys trees else dict_keys trees ++ [market_name])
  /\ (NoDup (dict_keys trees) ->
      exists trees'',
        remove_tree trees' market_name = Ok trees''
        /\ dict_get market_name trees'' = None
        /\ forall other, other <> market_name ->
             dict_get other trees'' = dict_get other trees).
Proof.
  unfold add_tree. intros Hadd.
  destruct (process_tree_data df market_name DIGITS) as [[[rows col] n]|e] eqn:Hrun;
    cbn [bind] in Hadd; [|discriminate].
  injection Hadd as <-. split; [|split; [|split]].
  - do 3 eexists. split; [reflexivity | apply dict_get_set_eq].
  - intros other Hne. apply dict_get_set_neq. congruence.
  - exact (dict_keys_set market_name _ trees).
  - intros Hnd. set (entry := {| tree_df := rows; tree_count := n;
                                tree_column := col |}).
    pose proof (dict_set_NoDup market_name entry trees Hnd) as Hnd'.
    assert (Hdel : exists trees'',
               remove_tree (dict_set market_name entry trees) market_name
               = Ok trees'').
    { unfold remove_tree. generalize (dict_get_set_eq market_name entry trees).
      generalize (dict_set market_name entry trees) as d.
      induction d as [|[k v] d IH]; simpl; [discriminate|].
      destruct (String.eqb market_name k); [eauto|].
      intros Hget. destruct (IH Hget) as [d' ->]. cbn [bind]. eauto. }
    destruct Hdel as [trees'' Hdel]. exists trees''. split; [exact Hdel|].
    apply dict_del_spec in Hdel.
    destruct Hdel as (before & v & after & E & -> & Hk).
    rewrite E in Hnd'. unfold dict_keys in Hnd'. rewrite map_app in Hnd'.
    simpl in Hnd'. apply NoDup_remove_2 in Hnd'. rewrite in_app_iff in Hnd'.
    assert (Hget : forall other, dict_get other (before ++ after)
                       = if String.eqb other market_name then None
                         else dict_get other (before ++ (market_name, v) :: after)).
    { intros other. clear E. induction before as [|[k0 v0] before IHb]; simpl.
      - destruct (String.eqb_spec other market_name) as [->|_]; [|reflexivity].
        destruct (dict_get market_name after) as [w|] eqn:Ea; [|reflexivity].
        apply dict_get_In in Ea. exfalso. apply Hnd'. right.
        apply in_map_iff. exists (market_name, w). auto.
      - simpl in Hk, Hnd'. destruct (String.eqb_spec other k0) as [->|Hne].
        + destruct (String.eqb_spec k0 market_name) as [->|_]; [tauto|reflexivity].
        + apply IHb; tauto. }
    split.
    + rewrite Hget. now rewrite String.eqb_refl.
    + intros other Hne. rewrite Hget, <- E.
      destruct (String.eqb_spec other market_name); [contradiction|].
      apply dict_get_set_neq. congruence.
Qed.

Lemma add_find_remove_tree_witness :
  exists trees' trees'',
    add_tree [] example_df "UAE" = Ok trees'
    /\ dict_keys trees' = ["UAE"]
    /\ remove_tree trees' "UAE" = Ok trees''
    /\ dict_get "UAE" trees'' = None.
Proof.
  destruct (@add_find_remove_tree [] example_df "UAE" _ eq_refl)
    as (_ & _ & Hkeys & Hdel).
  destruct (Hdel (NoDup_nil _)) as (trees'' & Hrm & Hnone & _).
  do 2 eexists. split; [reflexivity|]. split; [exact Hkeys|].
  split; [exact Hrm | exact Hnone].
Defined.

(** ** From the trees to the lookup *)

Lemma combined_df_In (trees : trees_t) (r : code_record) :
  In r (combined_df trees) <-> exists m t, In (m, t) trees /\ In r (tree_df t).
Proof.
  unfold combined_df. rewrite in_concat. split.
  - intros (l & Hl & Hr). apply in_map_iff in Hl.
    destruct Hl as ([m t] & <- & Hin). now exists m, t.
  - intros (m & t & Hin & Hr). exists (tree_df t). split; [|exact Hr].
    apply in_map_iff. now exists (m, t).
Qed.

(** X22.  The lookup of the loaded trees, when the memo of the builder
    holds nothing for their market names: a market has under a prefix the
    distinct codes of its own tree that have this prefix, each of them
    starts with the prefix, and the lookup is kept under the market names.
    When the memo holds a lookup for the market names, this lookup is handed
    back, whatever the trees hold. *)
Theorem session_lookup_codes (cs : caches) (trees : trees_t) :
  reachable trees ->
  (dict_get (dict_keys trees) (lookup_cache cs) = None ->
   exists lookup,
     fst (session_lookup cs trees) = Ok lookup
     /\ dict_get (dict_keys trees) (lookup_cache (snd (session_lookup cs trees)))
        = Some lookup
     /\ forall pfx d m t,
          In (pfx, d) lookup -> In (m, t) trees ->
          exists codes,
            dict_get m d = Some codes
            /\ NoDup codes
            /\ (forall c, In c codes
                  <-> exists r, In r (tree_df t) /\ prefix r = pfx /\ hs_code r = c)
            /\ (forall c, In c codes ->
                  slice_to DIGITS c = pfx /\ all_digits c = true
                  /\ 4 <= String.length c))
  /\ (forall kept,
        dict_get (dict_keys trees) (lookup_cache cs) = Some kept ->
        fst (session_lookup cs trees) = Ok kept).
Proof.
  intros Hreach. split.
  2:{ intros kept Hget. unfold session_lookup, build_prefix_lookup.
      now rewrite (cache_data_hit _ _ _ Hget). }
  intros Hmiss. unfold session_lookup, build_prefix_lookup.
  rewrite (cache_data_miss _ _ _ Hmiss). cbn [fst snd lookup_cache].
  eexists. split; [reflexivity|]. split; [apply dict_get_set_eq|].
  intros pfx d m t Hentry Hm.
  destruct (reachable_trees_ok Hreach) as [Hnd Hall].
  assert (Hkey : In m (dict_keys trees)).
  { apply in_map_iff. now exists (m, t). }
  destruct (build_prefix_lookup_spec (combined_df trees) (dict_keys trees))
    as (_ & _ & Hcodes).
  destruct (Hcodes pfx d m Hentry Hkey) as (codes & Hget & Hcn & Hin).
  assert (Hown : forall c, In c codes
            <-> exists r, In r (tree_df t) /\ prefix r = pfx /\ hs_code r = c).
  { intros c. rewrite Hin. split.
    - intros (r & Hr & Hp & Hmk & Hc). exists r. split; [|auto].
      apply combined_df_In in Hr. destruct Hr as (m' & t' & Hin' & Hr).
      rewrite Forall_forall in Hall. destruct (Hall _ Hin') as [_ Hrec].
      rewrite Forall_forall in Hrec. destruct (Hrec r Hr) as [Hmr _].
      cbn [fst] in Hmr. assert (m' = m) by congruence. subst m'.
      pose proof (dict_In_get _ _ _ Hnd Hin') as E1.
      pose proof (dict_In_get _ _ _ Hnd Hm) as E2.
      assert (t' = t) by congruence. now subst t'.
    - intros (r & Hr & Hp & Hc). exists r.
      split; [apply combined_df_In; now exists m, t|].
      rewrite Forall_forall in Hall. destruct (Hall _ Hm) as [_ Hrec].
      rewrite Forall_forall in Hrec. destruct (Hrec r Hr) as [Hmr _]. auto. }
  exists codes. split; [exact Hget|]. split; [exact Hcn|]. split; [exact Hown|].
  intros c Hc. apply Hown in Hc. destruct Hc as (r & Hr & Hp & Hcr).
  rewrite Forall_forall in Hall. destruct (Hall _ Hm) as [_ Hrec].
  rewrite Forall_forall in Hrec. destruct (Hrec r Hr) as (_ & Hd & Hl & Hpr).
  subst c pfx. auto.
Qed.

Lemma example_trees_reachable : reachable example_trees.
Proof.
  apply (@reach_add [("UAE", {| tree_df :=
                                  [{| market := "UAE"; hs_code := "10000110";
                                      prefix := "100001" |};
                                   {| market := "UAE"; hs_code := "10000310";
                                      prefix := "100003" |}];
                                tree_count := 2; tree_column := "HS Code" |})]
           ksa_sheet "KSA"); [|reflexivity].
  apply (@reach_add [] uae_sheet "UAE"); [apply reach_start | reflexivity].
Qed.

Lemma empty_trees_reachable : reachable empty_trees.
Proof.
  apply (@reach_add [("UAE", {| tree_df := []; tree_count := 0;
                                tree_column := "HS Code" |})]
           empty_sheet "KSA"); [|reflexivity].
  apply (@reach_add [] empty_sheet "UAE"); [apply reach_start | reflexivity].
Qed.

(** The lookup of the sample trees on a first run, at the prefix "100001"
    for KSA. *)
Lemma session_lookup_codes_witness :
  exists lookup d t codes,
    fst (session_lookup no_caches example_trees) = Ok lookup
    /\ In ("100001", d) lookup
    /\ In ("KSA", t) example_trees
    /\ dict_get "KSA" d = Some codes
    /\ NoDup codes
    /\ (forall c, In c codes
          <-> exists r, In r (tree_df t) /\ prefix r = "100001" /\ hs_code r = c)
    /\ (forall c, In c codes ->
          slice_to DIGITS c = "100001" /\ all_digits c = true
          /\ 4 <= String.length c).
Proof.
  destruct (@session_lookup_codes no_caches example_trees example_trees_reachable)
    as [Hmiss _].
  destruct (Hmiss eq_refl) as (lookup & Hrun & _ & Hcodes).
  injection Hrun as <-.
  do 3 eexists.
  destruct (Hcodes "100001" _ "KSA" _ (or_introl eq_refl)
              (or_intror (or_introl eq_refl)))
    as (codes & Hget & Hnd & Hiff & Hshape).
  exists codes. split; [reflexivity|]. split; [left; reflexivity|].
  split; [right; left; reflexivity|]. auto.
Defined.

(** ** The Analysis page *)

Lemma strict_body_empty (markets : list string) :
  get_strict_one_to_one_cached_body [] [] markets = Ok [].
Proof. reflexivity. Qed.

(** The two calls of the page on a lookup that is kept for the markets. *)
Lemma run_analysis_spec (rnd : Q -> Q) (cs : caches) (lookup : built_lookup)
  (markets : list string) :
  caches_ok rnd cs ->
  dict_get markets (lookup_cache cs) = Some lookup ->
  2 <= List.length markets ->
  caches_ok rnd (snd (run_analysis rnd cs lookup markets))
  /\ (lookup <> [] ->
      fst (run_analysis rnd cs lookup markets) = Raise AttributeError)
  /\ (lookup = [] ->
      exists results stats,
        analyze_pairs_cached_body rnd [] [] markets = Ok (results, stats)
        /\ fst (run_analysis rnd cs lookup markets) = Ok (results, stats, [])).
Proof.
  intros (Hlc & Hpc & Hsc) Hkept Hlen.
  destruct lookup as [|kv rest].
  - destruct (@analyze_pairs_body_items rnd [] [] [] markets eq_refl)
      as (results & stats & Hbody & _).
    assert (Hpairs : exists pc,
               analyze_pairs_cached rnd (pairs_cache cs) [] [] markets
               = (Ok (results, stats), pc)
               /\ forall markets' v,
                    dict_get markets' pc = Some v ->
                    analyze_pairs_cached_body rnd [] [] markets' = Ok v
                    /\ dict_get markets' (lookup_cache cs) = Some []).
    { unfold analyze_pairs_cached.
      destruct (dict_get markets (pairs_cache cs)) as [v|] eqn:Hget.
      - rewrite (cache_data_hit _ _ _ Hget).
        destruct (Hpc _ _ Hget) as [Hv _]. rewrite Hbody in Hv.
        injection Hv as <-. exists (pairs_cache cs). auto.
      - rewrite (cache_data_miss _ _ _ Hget), Hbody. eexists.
        split; [reflexivity|]. intros markets' v.
        destruct (list_eqb_spec markets' markets) as [->|Hne].
        + rewrite dict_get_set_eq. intros [= <-]. auto.
        + rewrite dict_get_set_neq by congruence. apply Hpc. }
    destruct Hpairs as (pc & Hpairs & Hpc').
    assert (Hstrict : exists sc,
               get_strict_one_to_one_cached (strict_cache cs) [] [] markets
               = (Ok [], sc)
               /\ forall markets' rows,
                    dict_get markets' sc = Some rows ->
                    rows = [] /\ dict_get markets' (lookup_cache cs) = Some []).
    { unfold get_strict_one_to_one_cached.
      destruct (dict_get markets (strict_cache cs)) as [rows|] eqn:Hget.
      - rewrite (cache_data_hit _ _ _ Hget).
        destruct (Hsc _ _ Hget) as [-> _]. exists (strict_cache cs). auto.
      - rewrite (cache_data_miss _ _ _ Hget), strict_body_empty. eexists.
        split; [reflexivity|]. intros markets' rows.
        destruct (list_eqb_spec markets' markets) as [->|Hne].
        + rewrite dict_get_set_eq. intros [= <-]. auto.
        + rewrite dict_get_set_neq by congruence. apply Hsc. }
    destruct Hstrict as (sc & Hstrict & Hsc').
    unfold run_analysis. cbn [lookup_keys lookup_values dict_keys map].
    rewrite Hpairs, Hstrict. cbn [fst snd bind].
    split; [unfold caches_ok; cbn [lookup_cache pairs_cache strict_cache]; auto|].
    split; [intros Hne; now elim Hne|].
    intros _. exists results, stats. auto.
  - assert (Hmiss : dict_get markets (pairs_cache cs) = None).
    { destruct (dict_get markets (pairs_cache cs)) as [v|] eqn:Hget;
        [|reflexivity].
      destruct (Hpc _ _ Hget) as [_ Hnil]. congruence. }
    rewrite (@run_analysis_raises rnd cs (kv :: rest) markets); auto;
      [|discriminate].
    cbn [fst snd]. split; [unfold caches_ok; auto|].
    split; [reflexivity | discriminate].
Qed.

(** One run of the Analysis page with two trees or more. *)
Lemma analysis_page_spec (rnd : Q -> Q) (cs : caches) (trees : trees_t) :
  caches_ok rnd cs ->
  2 <= List.length trees ->
  exists lookup,
    fst (session_lookup cs trees) = Ok lookup
    /\ (dict_get (dict_keys trees) (lookup_cache cs) = None ->
        lookup = build_prefix_lookup_body (combined_df trees) (dict_keys trees))
    /\ (forall kept,
          dict_get (dict_keys trees) (lookup_cache cs) = Some kept -> lookup = kept)
    /\ (lookup <> [] ->
        fst (analysis_page rnd cs trees) = Some (Raise AttributeError))
    /\ (lookup = [] ->
        exists results stats,
          analyze_pairs_cached_body rnd [] [] (dict_keys trees) = Ok (results, stats)
          /\ fst (analysis_page rnd cs trees)
             = Some (Ok {| st_combined_df := combined_df trees;
                           st_lookup := []; st_results := results;
                           st_stats := stats; st_strict_df := [];
                           st_markets := dict_keys trees |}))
    /\ caches_ok rnd (snd (analysis_page rnd cs trees)).
Proof.
  intros (Hlc & Hpc & Hsc) Hlen.
  set (lc := snd (build_prefix_lookup (lookup_cache cs) (combined_df trees)
                    (dict_keys trees))).
  set (cs1 := {| lookup_cache := lc; pairs_cache := pairs_cache cs;
                 strict_cache := strict_cache cs |}).
  assert (Hlookup : exists lookup,
             session_lookup cs trees = (Ok lookup, cs1)
             /\ dict_get (dict_keys trees) lc = Some lookup
             /\ (dict_get (dict_keys trees) (lookup_cache cs) = None ->
                 lookup = build_prefix_lookup_body (combined_df trees)
                            (dict_keys trees))
             /\ (forall kept,
                   dict_get (dict_keys trees) (lookup_cache cs) = Some kept ->
                   lookup = kept)).
  { unfold cs1, lc, session_lookup, build_prefix_lookup.
    destruct (dict_get (dict_keys trees) (lookup_cache cs)) as [kept|] eqn:Hget.
    - rewrite (cache_data_hit _ _ _ Hget). exists kept. cbn [snd].
      repeat split; auto; congruence.
    - rewrite (cache_data_miss _ _ _ Hget). eexists. cbn [snd].
      split; [reflexivity|]. split; [apply dict_get_set_eq|].
      split; [reflexivity | discriminate]. }
  destruct Hlookup as (lookup & Hsession & Hkept & Hfresh & Hstale).
  assert (Hok1 : caches_ok rnd cs1).
  { split; [apply lookup_cache_call; exact Hlc|]. cbn [cs1 lookup_cache pairs_cache strict_cache].
    split.
    - intros markets v Hget. destruct (Hpc _ _ Hget) as [Hv Hnil].
      split; [exact Hv|]. now apply cache_data_keeps.
    - intros markets rows Hget. destruct (Hsc _ _ Hget) as [Hv Hnil].
      split; [exact Hv|]. now apply cache_data_keeps. }
  assert (Hmk : 2 <= List.length (dict_keys trees)).
  { unfold dict_keys. now rewrite length_map. }
  destruct (@run_analysis_spec rnd cs1 lookup (dict_keys trees) Hok1 Hkept Hmk)
    as (Hok2 & Hraise & Hempty).
  exists lookup. rewrite Hsession. cbn [fst].
  split; [reflexivity|]. split; [exact Hfresh|]. split; [exact Hstale|].
  unfold analysis_page.
  destruct (Nat.ltb_spec (List.length trees) 2) as [Hlt|_]; [lia|].
  rewrite Hsession.
  destruct (run_analysis rnd cs1 lookup (dict_keys trees)) as [reports cs2].
  cbn [fst snd] in *.
  split; [intros Hne; now rewrite (Hraise Hne)|].
  split; [|exact Hok2].
  intros ->. destruct (Hempty eq_refl) as (results & stats & Hbody & ->).
  exists results, stats. split; [exact Hbody | reflexivity].
Qed.

(** Whatever runs came before, the caches are as [caches_ok] says. *)
Lemma caches_reachable_ok (rnd : Q -> Q) (cs : caches) :
  caches_reachable rnd cs -> caches_ok rnd cs.
Proof.
  induction 1 as [|cs trees _ IH _].
  - split; [constructor|]. split; intros markets v Hget; discriminate Hget.
  - destruct (Nat.ltb_spec (List.length trees) 2) as [Hlt|Hge].
    + unfold analysis_page. apply Nat.ltb_lt in Hlt. now rewrite Hlt.
    + now destruct (analysis_page_spec trees IH Hge) as (_ & _ & _ & _ & _ & _ & Hok).
Qed.

(** X23.  What a run of the Analysis page gives, whatever runs came before.
    With fewer than two trees nothing is computed.  With two or more, the
    outcome follows the lookup that the builder hands back.  When the memo
    of the builder holds nothing for the market names, this is the lookup of
    the trees, empty exactly when no tree holds a record; otherwise it is
    the lookup kept by an earlier run, whatever the trees hold now.  On a
    lookup with a prefix the page raises [AttributeError]; on a lookup
    without any it stores an empty lookup, an empty strict table and, for
    every pair of markets, an empty report and zero statistics. *)
Theorem analysis_page_outcome (rnd : Q -> Q) (cs : caches) (trees : trees_t) :
  caches_reachable rnd cs ->
  (List.length trees < 2 /\ analysis_page rnd cs trees = (None, cs))
  \/ (2 <= List.length trees
      /\ exists lookup,
           fst (session_lookup cs trees) = Ok lookup
           /\ (dict_get (dict_keys trees) (lookup_cache cs) = None ->
               (lookup = [] <-> combined_df trees = []))
           /\ (forall kept,
                 dict_get (dict_keys trees) (lookup_cache cs) = Some kept ->
                 lookup = kept)
           /\ (lookup <> [] ->
               fst (analysis_page rnd cs trees) = Some (Raise AttributeError))
           /\ (lookup = [] ->
               exists a,
                 fst (analysis_page rnd cs trees) = Some (Ok a)
                 /\ st_lookup a = [] /\ st_strict_df a = []
                 /\ st_markets a = dict_keys trees
                 /\ forall A B, In (A, B) (combinations2 (dict_keys trees)) ->
                      dict_get (A, B) (st_results a) = Some []
                      /\ dict_get (A, B) (st_stats a) = Some empty_stats)).
Proof.
  intros Hcs. apply caches_reachable_ok in Hcs.
  destruct (Nat.ltb_spec (List.length trees) 2) as [Hlt|Hge].
  - left. split; [exact Hlt|]. unfold analysis_page.
    apply Nat.ltb_lt in Hlt. now rewrite Hlt.
  - right. split; [exact Hge|].
    destruct (analysis_page_spec trees Hcs Hge)
      as (lookup & Hrun & Hfresh & Hstale & Hraise & Hempty & _).
    exists lookup. split; [exact Hrun|].
    split; [intros Hmiss; rewrite (Hfresh Hmiss); apply build_prefix_lookup_keys|].
    split; [exact Hstale|]. split; [exact Hraise|].
    intros Hnil. destruct (Hempty Hnil) as (results & stats & Hbody & Hpage).
    eexists. split; [exact Hpage|]. cbn [st_lookup st_strict_df st_markets].
    repeat split.
    + destruct (@analyze_pairs_body_items rnd [] [] [] (dict_keys trees) eq_refl)
        as (results' & stats' & Hbody' & Hpairs).
      rewrite Hbody in Hbody'. injection Hbody' as <- <-.
      now apply Hpairs.
    + destruct (@analyze_pairs_body_items rnd [] [] [] (dict_keys trees) eq_refl)
        as (results' & stats' & Hbody' & Hpairs).
      rewrite Hbody in Hbody'. injection Hbody' as <- <-.
      now apply Hpairs.
Qed.

(** After a run on two trees without records, a run on the sample trees,
    loaded under the same names: the builder hands back the empty lookup of
    the first run and the page stores empty reports. *)
Lemma analysis_page_outcome_witness :
  exists a,
    fst (analysis_page (fun q => q)
           (snd (analysis_page (fun q => q) no_caches empty_trees)) example_trees)
    = Some (Ok a)
    /\ st_lookup a = [] /\ st_strict_df a = []
    /\ dict_get ("UAE", "KSA") (st_results a) = Some []
    /\ dict_get ("UAE", "KSA") (st_stats a) = Some empty_stats.
Proof.
  destruct (@analysis_page_outcome (fun q => q)
              (snd (analysis_page (fun q => q) no_caches empty_trees))
              example_trees
              (caches_analysis (caches_start _) empty_trees_reachable))
    as [[Hlt _]|(_ & lookup & _ & _ & Hstale & _ & Hempty)].
  - simpl in Hlt. lia.
  - destruct (Hempty (Hstale [] eq_refl)) as (a & Hrun & Hl & Hs & _ & Hpairs).
    exists a. split; [exact Hrun|]. split; [exact Hl|]. split; [exact Hs|].
    apply Hpairs. simpl. left. reflexivity.
Defined.

(** ** The mapping page *)

Lemma prepare_asin_df_codes (asin_cells hs_cells : list cell) :
  List.length asin_cells = List.length hs_cells ->
  map asin_hs_code (prepare_asin_df asin_cells hs_cells) = kept_codes hs_cells.
Proof.
  unfold prepare_asin_df, kept_codes. revert hs_cells.
  induction asin_cells as [|a asin_cells IH]; intros [|h hs_cells] Hlen;
    simpl in Hlen; try discriminate; [reflexivity|].
  cbn [map combine filter asin_hs_code fst snd].
  destruct (4 <=? String.length (clean_code h)); cbn [map asin_hs_code];
    rewrite IH by lia; reflexivity.
Qed.

Lemma prepare_asin_df_prefix (asin_cells hs_cells : list cell) :
  Forall (fun e => asin_prefix e = slice_to DIGITS (asin_hs_code e)
                   /\ all_digits (asin_hs_code e) = true
                   /\ 4 <= String.length (asin_hs_code e))
    (prepare_asin_df asin_cells hs_cells).
Proof.
  unfold prepare_asin_df. apply Forall_forall. intros e He.
  apply filter_In in He. destruct He as [He Hlen]. apply in_map_iff in He.
  destruct He as ([a h] & <- & Hin). cbn [asin_prefix asin_hs_code fst snd] in *.
  apply in_combine_r in Hin. apply in_map_iff in Hin. destruct Hin as (raw & <- & _).
  split; [reflexivity|]. split; [apply clean_code_digits | now apply Nat.leb_le].
Qed.

Lemma target_markets_of_spec (markets : list string) (source_market m : string) :
  In m (target_markets_of markets source_market) <-> In m markets /\ m <> source_market.
Proof.
  unfold target_markets_of. rewrite filter_In.
  destruct (String.eqb_spec m source_market); simpl; intuition congruence.
Qed.

(** X24.  The mapping page.  With the two chosen columns in the sheet, the
    page returns one row per product whose cleaned code has four digits or
    more, in the order of the sheet; the codes are cleaned as those of the
    trees are; a row has a relation for every loaded market but the source
    market, and none for the source market. *)
Theorem asin_page_rows (asin_raw : dataframe) (asin_col hs_col : string)
  (items : built_lookup) (markets : list string) (source_market : string)
  (asin_cells hs_cells : list cell) :
  dict_get asin_col asin_raw = Some asin_cells ->
  dict_get hs_col asin_raw = Some hs_cells ->
  List.length asin_cells = List.length hs_cells ->
  exists rows,
    asin_page asin_raw asin_col hs_col (as_lookup items) markets source_market
    = Ok rows
    /\ map (row_str "Source_Code") rows = map Some (kept_codes hs_cells)
    /\ Forall
         (fun r =>
            (exists c, row_str "Source_Code" r = Some c
                       /\ row_str "Prefix" r = Some (slice_to DIGITS c))
            /\ (forall m, In m markets -> m <> source_market ->
                  exists rel, row_str (m ++ "_Relation") r = Some (label rel))
            /\ dict_get (source_market ++ "_Relation")%string r = None)
         rows.
Proof.
  intros Hasin Hhs Hlen. unfold asin_page, df_column.
  rewrite Hasin, Hhs. cbn [bind].
  destruct (map_asins_fast_full (prepare_asin_df asin_cells hs_cells) items
              source_market (target_markets_of markets source_market))
    as (rows & Hrun & Hrows).
  exists rows. split; [exact Hrun|].
  pose proof (prepare_asin_df_prefix asin_cells hs_cells) as Hpfx.
  rewrite <- (prepare_asin_df_codes _ _ Hlen). clear Hrun Hlen.
  induction Hrows as [|e r l rows [Hok Hmore] Hrows IH]; simpl.
  - split; [reflexivity | constructor].
  - inversion Hpfx as [|? ? [Hp _] Hpfx']; subst.
    destruct (IH Hpfx') as [Hcodes Hall].
    destruct Hok as (_ & Hcode & Hprefix & Hrel). destruct Hmore as [_ Hnone].
    split; [now rewrite Hcode, Hcodes|].
    constructor; [|exact Hall]. split; [|split].
    + exists (asin_hs_code e). split; [exact Hcode | now rewrite Hprefix, Hp].
    + intros m Hm Hne. rewrite (Hrel m), target_relation_label; [eauto|].
      now apply target_markets_of_spec.
    + apply Hnone. rewrite target_markets_of_spec. tauto.
Qed.

Lemma asin_page_rows_witness :
  exists rows,
    asin_page example_products "ASIN" "HS" (as_lookup example_lookup)
      ["UAE"; "KSA"] "UAE" = Ok rows
    /\ map (row_str "Source_Code") rows = [Some "10000110"; Some "100003"]
    /\ Forall
         (fun r =>
            (exists c, row_str "Source_Code" r = Some c
                       /\ row_str "Prefix" r = Some (slice_to DIGITS c))
            /\ (forall m, In m ["UAE"; "KSA"] -> m <> "UAE" ->
                  exists rel, row_str (m ++ "_Relation") r = Some (label rel))
            /\ dict_get ("UAE" ++ "_Relation")%string r = None)
         rows.
Proof.
  apply (@asin_page_rows example_products "ASIN" "HS" example_lookup
           ["UAE"; "KSA"] "UAE"
           [CStr " B01 "; CStr "B02"; CStr "B03"]
           [CStr "1000.01.10"; CStr "12"; CStr "100003.0"]);
    reflexivity.
Defined.

(** ** The selection of a pair report *)

Lemma append_empty_r (s : string) : (s ++ "")%string = s.
Proof. induction s as [|c s IH]; simpl; [reflexivity | now rewrite IH]. Qed.

Lemma split_from_plain (s cur : string) :
  no_char "v" s = true -> split_from " vs " s 0 cur = [(cur ++ s)%string].
Proof.
  revert cur. induction s as [|c s IH]; intros cur Hs; cbn [split_from].
  - now rewrite append_empty_r.
  - simpl in Hs. apply andb_true_iff in Hs. destruct Hs as [_ Hs].
    assert (Hstart : startswith " vs " (String c s) = false).
    { cbn [startswith]. destruct (Ascii.eqb " " c); [|reflexivity]. cbn [andb].
      destruct s as [|d s]; [reflexivity|]. cbn [startswith].
      simpl in Hs. apply andb_true_iff in Hs. destruct Hs as [Hd _].
      rewrite Ascii.eqb_sym. apply negb_true_iff in Hd. now rewrite Hd. }
    rewrite Hstart, IH by exact Hs. now rewrite append_assoc.
Qed.

Lemma split_from_label (A B cur : string) :
  no_char "v" A = true ->
  split_from " vs " (A ++ " vs " ++ B) 0 cur
  = (cur ++ A)%string :: split_from " vs " B 0 EmptyString.
Proof.
  revert cur. induction A as [|c A IH]; intros cur HA.
  - rewrite append_empty_r. reflexivity.
  - simpl in HA. apply andb_true_iff in HA. destruct HA as [_ HA].
    assert (Hstart : startswith " vs " (String c (A ++ " vs " ++ B)) = false).
    { cbn [startswith]. destruct (Ascii.eqb " " c); [|reflexivity]. cbn [andb].
      destruct A as [|d A]; [reflexivity|].
      change ((String d A ++ " vs " ++ B)%string)
        with (String d (A ++ " vs " ++ B)).
      cbn [startswith].
      simpl in HA. apply andb_true_iff in HA. destruct HA as [Hd _].
      rewrite Ascii.eqb_sym. apply negb_true_iff in Hd. now rewrite Hd. }
    change ((String c A ++ " vs " ++ B)%string)
      with (String c (A ++ " vs " ++ B)).
    set (tail := (A ++ " vs " ++ B)%string) in *.
    cbn [split_from]. rewrite Hstart. unfold tail.
    rewrite IH by exact HA. now rewrite append_assoc.
Qed.

(** X25.  The label of a pair in the selection box leads back to the report
    of the pair, for market names without a small [v] (the page puts the
    names in upper case). *)
Theorem selected_report_round_trip (results : results_t) (A B : string)
  (pair_df : list row) :
  no_char "v" A = true -> no_char "v" B = true ->
  dict_get (A, B) results = Some pair_df ->
  str_split " vs " (pair_option (A, B)) = [A; B]
  /\ selected_report results (pair_option (A, B)) = Ok pair_df.
Proof.
  intros HA HB Hget.
  assert (Hsplit : str_split " vs " (pair_option (A, B)) = [A; B]).
  { unfold str_split, pair_option. cbn [fst snd].
    rewrite split_from_label by exact HA. rewrite split_from_plain by exact HB.
    reflexivity. }
  split; [exact Hsplit|].
  unfold selected_report. now rewrite Hsplit, Hget.
Qed.

Lemma selected_report_round_trip_witness :
  exists results stats pair_df,
    fst (analyze_pairs_cached (fun q => q) [] (lookup_keys example_lookup)
           (map MDict (map snd example_lookup)) ["UAE"; "KSA"])
    = Ok (results, stats)
    /\ str_split " vs " (pair_option ("UAE", "KSA")) = ["UAE"; "KSA"]
    /\ selected_report results (pair_option ("UAE", "KSA")) = Ok pair_df.
Proof.
  do 3 eexists. split; [reflexivity|].
  apply (@selected_report_round_trip _ "UAE" "KSA"); reflexivity.
Defined.

(** A name with [" vs "] in it does not come back: the label of the pair
    splits in three pieces and the lookup of the report raises. *)
Example selected_report_lost :
  forall results,
    selected_report results (pair_option ("A vs B", "C")) = Raise KeyError.
Proof. reflexivity. Qed.

(** ** The classifier and the extractor on dictionaries *)

(** X26.  With entries that are dictionaries the classifier returns,
    whatever calls came before.  Every two distinct markets form a pair of the
    report in one of the two orders, and the report of a pair [(A, B)] has
    one row per prefix of a lookup of dictionaries without repeated prefix,
    in the order of this lookup, which is the lookup passed when the memo
    holds nothing for the markets.  With [cA] and [cB] the numbers of codes
    of [A] and [B] at the prefix, the row carries the label of the one
    relation that the rule gives: NoMatch if [cA = 0] or [cB = 0], OneToOne
    if both are 1, OneToMany if [cA = 1 < cB], ManyToOne if [cB = 1 < cA],
    ManyToMany otherwise. *)
Theorem rule_on_dictionaries (rnd : Q -> Q) (c : cache (results_t * stats_t))
  (keys : list string) (dvals : list (dict string (list string)))
  (markets : list string) :
  pairs_cache_reachable rnd c ->
  exists results stats,
    fst (analyze_pairs_cached rnd c keys (map MDict dvals) markets)
    = Ok (results, stats)
    /\ (forall A B, In A markets -> In B markets -> A <> B ->
          In (A, B) (combinations2 markets) \/ In (B, A) (combinations2 markets))
    /\ (forall A B, In (A, B) (combinations2 markets) ->
          exists items rows,
            (dict_get markets c = None -> items = dict_zip keys dvals)
            /\ NoDup (dict_keys items)
            /\ dict_get (A, B) results = Some rows
            /\ Forall2 (row_follows_rule A B) items rows).
Proof.
  intros Hc.
  assert (Hrun : exists v,
             fst (analyze_pairs_cached rnd c keys (map MDict dvals) markets) = Ok v).
  { unfold analyze_pairs_cached, cache_data.
    destruct (dict_get markets c) as [v|]; [now exists v|].
    destruct (@analyze_pairs_cached_dicts rnd (dict_zip keys dvals) keys dvals
                markets eq_refl) as (results & stats & -> & _).
    now eexists. }
  destruct Hrun as [[results stats] Hrun]. exists results, stats.
  split; [exact Hrun|].
  split; [intros A B; apply combinations2_complete|].
  intros A B HAB.
  destruct (@analyze_pairs_cached_report rnd c keys (map MDict dvals) markets
              results stats A B Hc Hrun HAB) as (items & Hmiss & Hnd & Hrows & _).
  exists items. eexists. split; [|split; [exact Hnd|split; [exact Hrows|]]].
  - intros Hnone. apply as_lookup_inj. rewrite <- (Hmiss Hnone).
    apply dict_zip_MDict.
  - apply pair_rows_follow_rule.
Qed.

(** The rule on the sample lookup, for the pair (UAE, KSA), on a first
    call. *)
Lemma rule_on_dictionaries_witness :
  exists results stats rows,
    fst (analyze_pairs_cached (fun q => q) [] (lookup_keys example_lookup)
           (map MDict (map snd example_lookup)) ["UAE"; "KSA"])
    = Ok (results, stats)
    /\ dict_get ("UAE", "KSA") results = Some rows
    /\ Forall2 (row_follows_rule "UAE" "KSA") example_lookup rows.
Proof.
  destruct (@rule_on_dictionaries (fun q => q) [] (lookup_keys example_lookup)
              (map snd example_lookup) ["UAE"; "KSA"] (pairs_cache_start _))
    as (results & stats & Hrun & _ & Hrule).
  destruct (Hrule "UAE" "KSA" (or_introl eq_refl))
    as (items & rows & Hmiss & _ & Hrows & Hall).
  exists results, stats, rows. split; [exact Hrun|]. split; [exact Hrows|].
  rewrite (Hmiss eq_refl) in Hall. exact Hall.
Defined.

(** The table of a lookup of dictionaries without repeated prefix. *)
Lemma strict_table_spec (markets : list string) (items : built_lookup) :
  NoDup (dict_keys items) ->
  let rows := map (fun item => strict_row (fst item) markets
                                 (scan_found (snd item) markets))
                  (filter (fun item => qualifies markets (snd item)) items) in
  (forall pfx d, In (pfx, d) items ->
     ((exists r, In r rows /\ row_str "HS Prefix" r = Some pfx)
      <-> (forall m, In m markets -> code_count d m <= 1)
          /\ 2 <= List.length (with_one d markets)))
  /\ (forall r, In r rows ->
        exists pfx d,
          In (pfx, d) items
          /\ row_str "HS Prefix" r = Some pfx
          /\ forall m, In m markets ->
               (code_count d m = 0 -> row_str ("Code_" ++ m) r = Some "")
               /\ (forall c, dict_get_default m [] d = [c] ->
                     row_str ("Code_" ++ m) r = Some c)).
Proof.
  intros Hnd rows. split.
  - intros pfx d Hitem. rewrite <- qualifies_spec. split.
    + intros (r & Hr & Hpfx). apply in_map_iff in Hr.
      destruct Hr as ([pfx' d'] & <- & Hin). apply filter_In in Hin.
      destruct Hin as [Hin Hq]. cbn [fst snd] in *.
      destruct (strict_row_cells pfx' markets (scan_found d' markets)) as [Hp _].
      rewrite Hp in Hpfx. injection Hpfx as ->.
      pose proof (dict_In_get _ _ _ Hnd Hin) as E1.
      pose proof (dict_In_get _ _ _ Hnd Hitem) as E2.
      congruence.
    + intros Hq. exists (strict_row pfx markets (scan_found d markets)). split.
      * apply in_map_iff. exists (pfx, d). split; [reflexivity|].
        apply filter_In. auto.
      * apply strict_row_cells.
  - intros r Hr. apply in_map_iff in Hr. destruct Hr as ([pfx d] & <- & Hin).
    apply filter_In in Hin. destruct Hin as [Hin Hq]. cbn [fst snd] in *.
    exists pfx, d. split; [exact Hin|].
    destruct (strict_row_cells pfx markets (scan_found d markets)) as [Hp Hc].
    split; [exact Hp|]. intros m Hm. rewrite (Hc m Hm).
    unfold qualifies in Hq. apply andb_true_iff in Hq. destruct Hq as [Hall _].
    destruct (scan_found_cells d markets m Hall Hm) as [Hz Ho].
    split; [intros E; now rewrite Hz | intros c E; now rewrite (Ho c E)].
Qed.

(** X27.  With entries that are dictionaries the extractor returns,
    whatever calls came before, the table of a lookup of dictionaries without
    repeated prefix, which is the lookup passed when the memo holds nothing
    for the markets.  A prefix of this lookup has a row in the table exactly
    when no market has more than one code at the prefix and at least two of
    them have exactly one; when the markets are distinct this says that two
    different markets have exactly one code.  A market without codes at the
    prefix does not count against it.  Every row of the table is the row of
    such a prefix and holds, for each market, the only code of the market,
    or the empty string when the market has no code at the prefix. *)
Theorem strict_alignment_on_dictionaries (c : cache (list row))
  (keys : list string) (dvals : list (dict string (list string)))
  (markets : list string) :
  strict_cache_reachable c ->
  exists rows items,
    fst (get_strict_one_to_one_cached c keys (map MDict dvals) markets) = Ok rows
    /\ (dict_get markets c = None -> items = dict_zip keys dvals)
    /\ NoDup (dict_keys items)
    /\ (forall pfx d, In (pfx, d) items ->
          ((exists r, In r rows /\ row_str "HS Prefix" r = Some pfx)
           <-> (forall m, In m markets -> code_count d m <= 1)
               /\ 2 <= List.length (with_one d markets)))
    /\ (forall r, In r rows ->
          exists pfx d,
            In (pfx, d) items
            /\ row_str "HS Prefix" r = Some pfx
            /\ forall m, In m markets ->
                 (code_count d m = 0 -> row_str ("Code_" ++ m) r = Some "")
                 /\ (forall c, dict_get_default m [] d = [c] ->
                       row_str ("Code_" ++ m) r = Some c))
    /\ (NoDup markets ->
        forall d,
          2 <= List.length (with_one d markets)
          <-> exists m1 m2,
                In m1 markets /\ In m2 markets /\ m1 <> m2
                /\ code_count d m1 = 1 /\ code_count d m2 = 1).
Proof.
  intros Hc.
  assert (Htable : exists items,
             (dict_get markets c = None -> items = dict_zip keys dvals)
             /\ NoDup (dict_keys items)
             /\ fst (get_strict_one_to_one_cached c keys (map MDict dvals) markets)
                = Ok (map (fun item => strict_row (fst item) markets
                                         (scan_found (snd item) markets))
                        (filter (fun item => qualifies markets (snd item)) items))).
  { destruct (dict_get markets c) as [rows|] eqn:Hget.
    - assert (Hrun : fst (get_strict_one_to_one_cached c keys (map MDict dvals)
                            markets) = Ok rows).
      { unfold get_strict_one_to_one_cached.
        now rewrite (cache_data_hit _ _ _ Hget). }
      destruct (@get_strict_cached_table c keys (map MDict dvals) markets rows
                  Hc Hrun) as (items & _ & Hnd & E).
      exists items. split; [discriminate|]. split; [exact Hnd|].
      rewrite Hrun. now f_equal.
    - exists (dict_zip keys dvals). split; [reflexivity|].
      split; [apply dict_zip_NoDup|].
      unfold get_strict_one_to_one_cached.
      rewrite (cache_data_miss _ _ _ Hget). cbn [fst]. apply get_strict_dicts. }
  destruct Htable as (items & Hmiss & Hnd & Hrun).
  eexists. exists items. split; [exact Hrun|]. split; [exact Hmiss|].
  split; [exact Hnd|].
  destruct (@strict_table_spec markets items Hnd) as [Hiff Hcells].
  split; [exact Hiff|]. split; [exact Hcells|].
  intros Hmk d. unfold with_one.
  rewrite (two_in_filter (fun m => code_count d m =? 1) Hmk).
  split; intros (m1 & m2 & H1 & H2 & Hne & E1 & E2); exists m1, m2;
    repeat split; auto; try (now apply Nat.eqb_eq).
Qed.

(** The table of the sample lookup for three markets, of which EGY has no
    code, on a first call: the prefix "100003" has a row. *)
Lemma strict_alignment_on_dictionaries_witness :
  exists rows,
    fst (get_strict_one_to_one_cached [] (lookup_keys example_lookup)
           (map MDict (map snd example_lookup)) example_markets) = Ok rows
    /\ (exists r, In r rows /\ row_str "HS Prefix" r = Some "100003")
    /\ (forall r, In r rows ->
          exists pfx d,
            In (pfx, d) example_lookup
            /\ row_str "HS Prefix" r = Some pfx
            /\ forall m, In m example_markets ->
                 (code_count d m = 0 -> row_str ("Code_" ++ m) r = Some "")
                 /\ (forall c, dict_get_default m [] d = [c] ->
                       row_str ("Code_" ++ m) r = Some c)).
Proof.
  destruct (@strict_alignment_on_dictionaries [] (lookup_keys example_lookup)
              (map snd example_lookup) example_markets strict_cache_start)
    as (rows & items & Hrun & Hmiss & _ & Hiff & Hcells & _).
  rewrite (Hmiss eq_refl) in Hiff, Hcells.
  exists rows. split; [exact Hrun|]. split; [|exact Hcells].
  apply (Hiff "100003" [("UAE", ["10000310"]); ("KSA", ["10000399"])]).
  - simpl. right. right. left. reflexivity.
  - split; [|vm_compute; lia].
    intros m [<-|[<-|[<-|[]]]]; vm_compute; lia.
Defined.

(** X28.  When the memo holds nothing for either list of markets and the
    entries of the lookup are dictionaries, the statistics of [(B, A)] are
    those of [(A, B)] with the OneToMany and ManyToOne counts exchanged; the
    OneToOne, ManyToMany and NoMatch counts are the same. *)
Theorem symmetry_on_dictionaries (rnd : Q -> Q)
  (c c' : cache (results_t * stats_t)) (keys : list string)
  (vals : list market_codes) (items : built_lookup)
  (markets markets' : list string) (A B : string) :
  dict_get markets c = None ->
  dict_get markets' c' = None ->
  dict_zip keys vals = as_lookup items ->
  In (A, B) (combinations2 markets) ->
  In (B, A) (combinations2 markets') ->
  exists results stats s results' stats' s',
    fst (analyze_pairs_cached rnd c keys vals markets) = Ok (results, stats)
    /\ fst (analyze_pairs_cached rnd c' keys vals markets') = Ok (results', stats')
    /\ dict_get (A, B) stats = Some s
    /\ dict_get (B, A) stats' = Some s'
    /\ one_to_many (counts s') = many_to_one (counts s)
    /\ many_to_one (counts s') = one_to_many (counts s)
    /\ one_to_one (counts s') = one_to_one (counts s)
    /\ many_to_many (counts s') = many_to_many (counts s)
    /\ no_match (counts s') = no_match (counts s).
Proof.
  intros Hc Hc' Hitems HAB HBA.
  destruct (@analyze_pairs_body_items rnd items keys vals markets Hitems)
    as (results & stats & Hrun & Hpairs).
  destruct (@analyze_pairs_body_items rnd items keys vals markets' Hitems)
    as (results' & stats' & Hrun' & Hpairs').
  destruct (Hpairs A B HAB) as [_ Hs]. destruct (Hpairs' B A HBA) as [_ Hs'].
  exists results, stats. eexists. exists results', stats'. eexists.
  unfold analyze_pairs_cached.
  rewrite (cache_data_miss _ _ _ Hc), (cache_data_miss _ _ _ Hc').
  split; [exact Hrun|]. split; [exact Hrun'|].
  split; [exact Hs|]. split; [exact Hs'|].
  cbn [counts finish_stats].
  change (tally B A items zero_counts)
    with (tally B A items (swap_counts zero_counts)).
  rewrite tally_swap. simpl. repeat split; reflexivity.
Qed.

(** The symmetry on the sample lookup, between (UAE, KSA) and (KSA, UAE),
    the second call made after the first. *)
Lemma symmetry_on_dictionaries_witness :
  exists results stats s results' stats' s',
    fst (analyze_pairs_cached (fun q => q) [] (lookup_keys example_lookup)
           (map MDict (map snd example_lookup)) ["UAE"; "KSA"])
    = Ok (results, stats)
    /\ fst (analyze_pairs_cached (fun q => q)
              (snd (analyze_pairs_cached (fun q => q) []
                      (lookup_keys example_lookup)
                      (map MDict (map snd example_lookup)) ["UAE"; "KSA"]))
              (lookup_keys example_lookup)
              (map MDict (map snd example_lookup)) ["KSA"; "UAE"])
       = Ok (results', stats')
    /\ dict_get ("UAE", "KSA") stats = Some s
    /\ dict_get ("KSA", "UAE") stats' = Some s'
    /\ one_to_many (counts s') = many_to_one (counts s)
    /\ many_to_one (counts s') = one_to_many (counts s)
    /\ one_to_one (counts s') = one_to_one (counts s)
    /\ many_to_many (counts s') = many_to_many (counts s)
    /\ no_match (counts s') = no_match (counts s).
Proof.
  apply (@symmetry_on_dictionaries (fun q => q) []
           (snd (analyze_pairs_cached (fun q => q) []
                   (lookup_keys example_lookup)
                   (map MDict (map snd example_lookup)) ["UAE"; "KSA"]))
           (lookup_keys example_lookup) (map MDict (map snd example_lookup))
           example_lookup ["UAE"; "KSA"] ["KSA"; "UAE"] "UAE" "KSA");
    try reflexivity; simpl; left; reflexivity.
Defined.

(** X29.  In the statistics that the classifier returns for a pair,
    whatever calls came before, [total_shared] is the sum of the four counts
    other than NoMatch; the percentage is the float product by 100 of the
    float quotient of the OneToOne count by [total_shared] when
    [total_shared] is positive, and 0 when it is zero; and the percentage
    lies between 0 and 100.  The float operations round the exact result
    with [rnd], of which the bounds use that it is monotone and leaves 0, 1
    and 100 unchanged. *)
Theorem percentage_of_returned_stats (rnd : Q -> Q)
  (c : cache (results_t * stats_t)) (keys : list string)
  (vals : list market_codes) (markets : list string)
  (results : results_t) (stats : stats_t) (A B : string) :
  (forall x y : Q, (x <= y)%Q -> (rnd x <= rnd y)%Q) ->
  (rnd 0 == 0)%Q -> (rnd 1 == 1)%Q -> (rnd 100 == 100)%Q ->
  pairs_cache_reachable rnd c ->
  fst (analyze_pairs_cached rnd c keys vals markets) = Ok (results, stats) ->
  In (A, B) (combinations2 markets) ->
  exists s,
    dict_get (A, B) stats = Some s
    /\ total_shared s
       = one_to_one (counts s) + one_to_many (counts s)
         + many_to_one (counts s) + many_to_many (counts s)
    /\ (0 < total_shared s ->
        percentage s
        = rnd (rnd (inject_Z (Z.of_nat (one_to_one (counts s)))
                    / inject_Z (Z.of_nat (total_shared s))) * 100)%Q)
    /\ (total_shared s = 0 -> percentage s = 0%Q)
    /\ (0 <= percentage s <= 100)%Q.
Proof.
  intros Hmono H0 H1 H100 Hc Hrun HAB.
  destruct (@analyze_pairs_cached_report rnd c keys vals markets results stats
              A B Hc Hrun HAB) as (items & _ & _ & _ & Hs).
  eexists. split; [exact Hs|].
  split; [reflexivity|].
  split; [|split].
  - cbn [total_shared percentage counts finish_stats]. intros Hpos.
    apply Nat.ltb_lt in Hpos. rewrite Hpos. reflexivity.
  - cbn [total_shared percentage counts finish_stats]. intros Hzero.
    rewrite Hzero. reflexivity.
  - now apply finish_stats_bounds.
Qed.

(** The percentage on the sample lookup, on a first call, with exact
    arithmetic for the floats. *)
Lemma percentage_of_returned_stats_witness :
  exists results stats s,
    fst (analyze_pairs_cached (fun q => q) [] (lookup_keys example_lookup)
           (map MDict (map snd example_lookup)) ["UAE"; "KSA"])
    = Ok (results, stats)
    /\ dict_get ("UAE", "KSA") stats = Some s
    /\ total_shared s
       = one_to_one (counts s) + one_to_many (counts s)
         + many_to_one (counts s) + many_to_many (counts s)
    /\ (0 < total_shared s ->
        percentage s
        = (inject_Z (Z.of_nat (one_to_one (counts s)))
           / inject_Z (Z.of_nat (total_shared s)) * 100)%Q)
    /\ (total_shared s = 0 -> percentage s = 0%Q)
    /\ (0 <= percentage s <= 100)%Q.
Proof.
  assert (Hrun : exists results stats,
             fst (analyze_pairs_cached (fun q => q) [] (lookup_keys example_lookup)
                    (map MDict (map snd example_lookup)) ["UAE"; "KSA"])
             = Ok (results, stats)).
  { do 2 eexists. reflexivity. }
  destruct Hrun as (results & stats & Hrun).
  destruct (@percentage_of_returned_stats (fun q => q) []
              (lookup_keys example_lookup) (map MDict (map snd example_lookup))
              ["UAE"; "KSA"] results stats "UAE" "KSA")
    as (s & Hs & Hrest).
  - intros x y Hxy. exact Hxy.
  - reflexivity.
  - reflexivity.
  - reflexivity.
  - constructor.
  - exact Hrun.
  - simpl. left. reflexivity.
  - exists results, stats, s. split; [exact Hrun|]. split; [exact Hs | exact Hrest].
Defined.

(** ** The memo answers by the markets *)


(** The lookup of two markets without records is handed back for the
    sample records under the same names. *)
Example stale_lookup :
  fst (build_prefix_lookup (snd (build_prefix_lookup [] [] ["UAE"; "KSA"]))
         example_records ["UAE"; "KSA"]) = Ok []
  /\ fst (build_prefix_lookup [] example_records ["UAE"; "KSA"])
     = Ok example_lookup.
Proof. split; reflexivity. Qed.
